(** * Voice_AI_Evals: turn tracer, goal monitor, transcript merger, evaluation summary

    A shallow embedding of the Python sources

    - [tracing.py]       (class [SimulationTracer]),
    - [goal_detector.py] (class [GoalDetector]),
    - [simulation.py]    (class [OutputTranscriptTracker]),
    - [app.py]           (function [generate_unified_transcript]),
    - [llm_judge.py]     (the summary block of [SimpleLLMJudge.evaluate_simulation]),

    followed by the properties of the specification that were checked
    against them.

    Modelling conventions.

    - A Python [float] is an exact rational ([Q], kept in lowest terms by
      the arithmetic below).  The code only subtracts, adds, divides and
      compares them; rounding error of binary floating point, NaN and the
      infinities are outside the model.
    - A Python [int] is a [Z].
    - A Python [dict] is an association list in insertion order
      ([d[k] = v] overwrites in place or appends), except the file system,
      which is a finite map from paths to file contents.
    - A statement that can raise returns a [Result]; [try/except Exception]
      is a match on it.
    - What the environment supplies (clock readings, the judgment
      service's reply, whether a file can be written) is an explicit
      argument of the operation that consumes it.
    - Logging has no effect on any modelled state and is left out; the
      tracer's lock is not modelled (one call runs at a time). *)

From Stdlib Require Import ZArith QArith Qround String Ascii List Bool Lia.
From Stdlib Require Import Permutation Sorted.
From stdpp Require Import gmap strings.
Import ListNotations.

Local Open Scope string_scope.
Local Open Scope Z_scope.

(** ** Python values shared by all modules *)

(** [str(e)] and the class of a raised exception. *)
Inductive exn_class :=
| ZeroDivisionError | KeyError | AttributeError | TypeError | ValueError
| OverflowError | JSONDecodeError | OSError | FileNotFoundError
| ServiceError.

Record exn := mkExn { exn_kind : exn_class; exn_str : string }.

Inductive Result (A : Type) :=
| Ok (a : A)
| Raise (e : exn).
Arguments Ok {A} a.
Arguments Raise {A} e.

Definition bind {A B} (r : Result A) (k : A -> Result B) : Result B :=
  match r with
  | Ok a => k a
  | Raise e => Raise e
  end.

Notation "'do' x <- r ; k" := (bind r (fun x => k))
  (at level 10, x name, r at level 100, k at level 200).

Definition raises {A} (r : Result A) : bool :=
  match r with Ok _ => false | Raise _ => true end.

(** Floats. *)
Definition float := Q.

Definition fadd (a b : float) : float := Qred (a + b).
Definition fsub (a b : float) : float := Qred (a - b).
Definition fmul (a b : float) : float := Qred (a * b).
Definition fdiv (a b : float) : float := Qred (a / b).
Definition fgt (a b : float) : bool := negb (Qle_bool a b).
Definition fzero (a : float) : bool := Qeq_bool a 0.
Definition of_int (z : Z) : float := inject_Z z.

(** [int(x)] on a float truncates towards zero. *)
Definition py_int (x : float) : Z := Z.quot (Qnum x) (Zpos (Qden x)).

(** [n / d] with an [int] divisor. *)
Definition py_div (n : float) (d : Z) : Result float :=
  if d =? 0 then Raise (mkExn ZeroDivisionError "division by zero")
  else Ok (fdiv n (of_int d)).

(** [round(x, ndigits)]: to the nearest multiple of [10^-ndigits], a value
    exactly half way going to the even neighbour. *)
Definition round_half_even (x : Q) : Z :=
  let f := Qfloor x in
  match Qcompare (x - inject_Z f) (1 # 2) with
  | Lt => f
  | Gt => f + 1
  | Eq => if Z.even f then f else f + 1
  end.

Definition py_round (x : float) (ndigits : nat) : float :=
  let scale := inject_Z (10 ^ Z.of_nat ndigits) in
  Qred (inject_Z (round_half_even (x * scale)) / scale).

(** [len(l)] *)
Definition len {A} (l : list A) : Z := Z.of_nat (length l).

(** [l[-n:]] for [n > 0]. *)
Definition last_n {A} (n : nat) (l : list A) : list A :=
  skipn (length l - n)%nat l.

(** Dictionaries in insertion order. *)
Section Dict.
Context {K V : Type} (eqb : K -> K -> bool).

Fixpoint dict_get (k : K) (d : list (K * V)) : option V :=
  match d with
  | [] => None
  | (k', v) :: d' => if eqb k k' then Some v else dict_get k d'
  end.

Definition dict_mem (k : K) (d : list (K * V)) : bool :=
  match dict_get k d with Some _ => true | None => false end.

Fixpoint dict_set (k : K) (v : V) (d : list (K * V)) : list (K * V) :=
  match d with
  | [] => [(k, v)]
  | (k', v') :: d' =>
      if eqb k k' then (k', v) :: d' else (k', v') :: dict_set k v d'
  end.
End Dict.

(** Values that [json.loads] produces and [json.dump] writes. *)
#[warnings="-register-all"]
Inductive json :=
| JNull
| JBool (b : bool)
| JInt (z : Z)
| JFloat (x : float)
| JStr (s : string)
| JList (l : list json)
| JDict (d : list (string * json)).

(** [bool(v)] *)
Definition py_bool (v : json) : bool :=
  match v with
  | JNull => false
  | JBool b => b
  | JInt z => negb (z =? 0)
  | JFloat x => negb (fzero x)
  | JStr s => negb (String.eqb s "")
  | JList l => match l with [] => false | _ => true end
  | JDict d => match d with [] => false | _ => true end
  end.

(** [type(v).__name__] *)
Definition type_name (v : json) : string :=
  match v with
  | JNull => "NoneType"
  | JBool _ => "bool"
  | JInt _ => "int"
  | JFloat _ => "float"
  | JStr _ => "str"
  | JList _ => "list"
  | JDict _ => "dict"
  end.

(** ** tracing.py *)

Inductive MetricType :=
| VAD_START | VAD_END | STT_START | STT_END
| LLM_START | LLM_FIRST_TOKEN | LLM_END
| TTS_START | TTS_FIRST_TOKEN | TTS_END
| AUDIO_OUT_START | TURN_START | TURN_END.

Definition MetricType_eqb (a b : MetricType) : bool :=
  match a, b with
  | VAD_START, VAD_START | VAD_END, VAD_END
  | STT_START, STT_START | STT_END, STT_END
  | LLM_START, LLM_START | LLM_FIRST_TOKEN, LLM_FIRST_TOKEN | LLM_END, LLM_END
  | TTS_START, TTS_START | TTS_FIRST_TOKEN, TTS_FIRST_TOKEN | TTS_END, TTS_END
  | AUDIO_OUT_START, AUDIO_OUT_START
  | TURN_START, TURN_START | TURN_END, TURN_END => true
  | _, _ => false
  end.

(** The string [f"turn_{turn_counter}_{int(time.time() * 1000)}"], kept as
    the two integers it is printed from (the printing is injective). *)
Record TurnId := mkTurnId { tid_counter : Z; tid_millis : Z }.

Definition TurnId_eqb (a b : TurnId) : bool :=
  (tid_counter a =? tid_counter b) && (tid_millis a =? tid_millis b).

(** The values stored in an event's [metadata]. *)
Inductive MetaVal :=
| MStr (s : string)
| MInt (z : Z).

Definition Metadata := list (string * MetaVal).

Module MetricEvent.
Record t := mk {
  event_type : MetricType;
  timestamp : float;
  bot_name : string;
  metadata : Metadata;
  turn_id : option TurnId
}.
End MetricEvent.

Module LatencyMetrics.
Record t := mk {
  turn_id : TurnId;
  bot_name : string;
  vad_latency : option float;
  stt_latency : option float;
  llm_latency : option float;
  llm_first_token_latency : option float;
  tts_latency : option float;
  tts_first_token_latency : option float;
  end_to_end_latency : option float;
  turn_duration : option float;
  first_llm_token_timestamp : option float;
  first_spoken_token_timestamp : option float
}.
End LatencyMetrics.

(** [turn_events[turn_id]]: event kind to timestamp. *)
Definition TurnEvents := list (MetricType * float).

Module Summary.
Record t := mk {
  bot_name : string;
  total_events : Z;
  total_turns : Z;
  first_llm_token_timestamp : option float;
  first_spoken_token_timestamp : option float;
  avg_vad : option float;
  avg_stt : option float;
  avg_llm : option float;
  avg_tts : option float;
  avg_e2e : option float;
  turn_metrics : list LatencyMetrics.t
}.
End Summary.

Module SimulationTracer.

Record t := mk {
  bot_name : string;
  log_file : option string;
  events : list MetricEvent.t;
  current_turn_id : option TurnId;
  turn_counter : Z;
  first_llm_token_timestamp : option float;
  first_spoken_token_timestamp : option float;
  turn_events : list (TurnId * TurnEvents)
}.

(** [SimulationTracer(bot_name, log_file)] *)
Definition __init__ (bot_name : string) (log_file : option string) : t :=
  mk bot_name log_file [] None 0 None None [].

Definition set_current (c : option TurnId) (self : t) : t :=
  mk (bot_name self) (log_file self) (events self) c (turn_counter self)
     (first_llm_token_timestamp self) (first_spoken_token_timestamp self)
     (turn_events self).

(** [now] is the value [time.time()] returns inside the call. *)
Definition _get_turn_id (now : float) (self : t) : TurnId * t :=
  let c := turn_counter self + 1 in
  (mkTurnId c (py_int (fmul now 1000%Q)),
   mk (bot_name self) (log_file self) (events self) (current_turn_id self) c
      (first_llm_token_timestamp self) (first_spoken_token_timestamp self)
      (turn_events self)).

(** [t_id] is the clock reading of [_get_turn_id] (consumed only when a
    turn has to be opened), [t_ev] the one that stamps the event. *)
Definition _record_event (t_id t_ev : float) (event_type : MetricType)
    (metadata : option Metadata) (turn_id : option TurnId) (self : t) : t :=
  let turn_id1 :=
    match turn_id with Some i => Some i | None => current_turn_id self end in
  let '(tid, self1) :=
    match turn_id1 with
    | Some i => (i, self)
    | None =>
        let '(i, s) := _get_turn_id t_id self in (i, set_current (Some i) s)
    end in
  let md := match metadata with Some ((_ :: _) as m) => m | _ => [] end in
  let event := MetricEvent.mk event_type t_ev (bot_name self1) md (Some tid) in
  let tev :=
    match dict_get TurnId_eqb tid (turn_events self1) with
    | Some evs => evs
    | None => []
    end in
  let turn_events' :=
    dict_set TurnId_eqb tid (dict_set MetricType_eqb event_type t_ev tev)
             (turn_events self1) in
  let first_llm :=
    match event_type, first_llm_token_timestamp self1 with
    | LLM_FIRST_TOKEN, None => Some t_ev
    | _, old => old
    end in
  let first_spoken :=
    match event_type, first_spoken_token_timestamp self1 with
    | TTS_FIRST_TOKEN, None => Some t_ev
    | _, old => old
    end in
  mk (bot_name self1) (log_file self1) (events self1 ++ [event])
     (current_turn_id self1) (turn_counter self1) first_llm first_spoken
     turn_events'.

Definition start_turn (t_id t_ev : float) (self : t) : TurnId * t :=
  let '(turn_id, self1) := _get_turn_id t_id self in
  let self2 := set_current (Some turn_id) self1 in
  (turn_id, _record_event t_id t_ev TURN_START None (Some turn_id) self2).

(** One of the eight latencies: [events[stop] - events[start]] when both
    keys are in the turn's dictionary, the default [None] otherwise. *)
Definition latency (events : TurnEvents) (start stop : MetricType)
    : option float :=
  if dict_mem MetricType_eqb start events && dict_mem MetricType_eqb stop events
  then
    match dict_get MetricType_eqb stop events,
          dict_get MetricType_eqb start events with
    | Some e, Some s => Some (fsub e s)
    | _, _ => None
    end
  else None.

Definition stamp_if (events : TurnEvents) (start stop : MetricType)
    : option float :=
  if dict_mem MetricType_eqb start events && dict_mem MetricType_eqb stop events
  then dict_get MetricType_eqb stop events
  else None.

Definition _calculate_turn_metrics (turn_id : TurnId) (self : t)
    : option LatencyMetrics.t :=
  match dict_get TurnId_eqb turn_id (turn_events self) with
  | None => None
  | Some events =>
      Some (LatencyMetrics.mk turn_id (bot_name self)
        (latency events VAD_START VAD_END)
        (latency events STT_START STT_END)
        (latency events LLM_START LLM_END)
        (latency events LLM_START LLM_FIRST_TOKEN)
        (latency events TTS_START TTS_END)
        (latency events TTS_START TTS_FIRST_TOKEN)
        (latency events VAD_START AUDIO_OUT_START)
        (latency events TURN_START TURN_END)
        (stamp_if events LLM_START LLM_FIRST_TOKEN)
        (stamp_if events TTS_START TTS_FIRST_TOKEN))
  end.

(** [if self.current_turn_id:] holds for every id the tracer makes (the
    string is never empty). *)
Definition end_turn (t_id t_ev : float) (self : t) : t :=
  match current_turn_id self with
  | Some cur =>
      let self1 := _record_event t_id t_ev TURN_END None (Some cur) self in
      set_current None self1
  | None => self
  end.

Definition record_vad_start t_id t_ev (metadata : option Metadata) :=
  _record_event t_id t_ev VAD_START metadata None.
Definition record_vad_end t_id t_ev (metadata : option Metadata) :=
  _record_event t_id t_ev VAD_END metadata None.
Definition record_stt_start t_id t_ev (metadata : option Metadata) :=
  _record_event t_id t_ev STT_START metadata None.
Definition record_llm_start t_id t_ev (metadata : option Metadata) :=
  _record_event t_id t_ev LLM_START metadata None.
Definition record_tts_first_token t_id t_ev (metadata : option Metadata) :=
  _record_event t_id t_ev TTS_FIRST_TOKEN metadata None.
Definition record_tts_end t_id t_ev (metadata : option Metadata) :=
  _record_event t_id t_ev TTS_END metadata None.
Definition record_audio_out_start t_id t_ev (metadata : option Metadata) :=
  _record_event t_id t_ev AUDIO_OUT_START metadata None.

(** [md = metadata or {}; md[key] = value] *)
Definition with_key (metadata : option Metadata) (key : string) (v : MetaVal)
    : option Metadata :=
  let md := match metadata with Some ((_ :: _) as m) => m | _ => [] end in
  Some (dict_set String.eqb key v md).

Definition record_stt_end t_id t_ev (transcript : string) metadata :=
  _record_event t_id t_ev STT_END
    (with_key metadata "transcript" (MStr transcript)) None.
Definition record_llm_first_token t_id t_ev (token : string) metadata :=
  _record_event t_id t_ev LLM_FIRST_TOKEN
    (with_key metadata "first_token" (MStr token)) None.
Definition record_llm_end t_id t_ev (response : string) metadata :=
  _record_event t_id t_ev LLM_END
    (with_key metadata "response_length"
       (MInt (Z.of_nat (String.length response)))) None.
Definition record_tts_start t_id t_ev (text : string) metadata :=
  _record_event t_id t_ev TTS_START
    (with_key metadata "text" (MStr text)) None.

(** [m.get(key)] as a condition, and [m.get(key, 0) or 0]. *)
Definition truthy (v : option float) : bool :=
  match v with
  | Some x => negb (fzero x)
  | None => false
  end.

Definition or_zero (v : option float) : float :=
  match v with
  | Some x => if fzero x then 0%Q else x
  | None => 0%Q
  end.

Definition py_sum (l : list float) : float := fold_left fadd l 0%Q.

(** [sum(m.get(k, 0) or 0 for m in all_metrics)
     / len([m for m in all_metrics if m.get(k)])] *)
Definition average (get : LatencyMetrics.t -> option float)
    (all_metrics : list LatencyMetrics.t) : Result float :=
  py_div (py_sum (map (fun m => or_zero (get m)) all_metrics))
         (len (List.filter (fun m => truthy (get m)) all_metrics)).

Definition completed (te : TurnId * TurnEvents) : bool :=
  dict_mem MetricType_eqb TURN_END (snd te).

Definition all_metrics_of (self : t) : list LatencyMetrics.t :=
  flat_map
    (fun te : TurnId * TurnEvents =>
       if completed te then
         match _calculate_turn_metrics (fst te) self with
         | Some m => [m]
         | None => []
         end
       else [])
    (turn_events self).

Definition get_summary (self : t) : Result Summary.t :=
  let all_metrics := all_metrics_of self in
  do avgs <-
    (match all_metrics with
     | [] => Ok (None, None, None, None, None)
     | _ :: _ =>
         do a_vad <- average LatencyMetrics.vad_latency all_metrics;
         do a_stt <- average LatencyMetrics.stt_latency all_metrics;
         do a_llm <- average LatencyMetrics.llm_latency all_metrics;
         do a_tts <- average LatencyMetrics.tts_latency all_metrics;
         do a_e2e <- average LatencyMetrics.end_to_end_latency all_metrics;
         Ok (Some a_vad, Some a_stt, Some a_llm, Some a_tts, Some a_e2e)
     end);
  let '(a_vad, a_stt, a_llm, a_tts, a_e2e) := avgs in
  Ok (Summary.mk (bot_name self) (len (events self))
        (len (List.filter completed (turn_events self)))
        (first_llm_token_timestamp self) (first_spoken_token_timestamp self)
        a_vad a_stt a_llm a_tts a_e2e all_metrics).

End SimulationTracer.

(** ** goal_detector.py *)

Definition nl : string := String (ascii_of_nat 10) EmptyString.
Definition dq : string := String (ascii_of_nat 34) EmptyString.

(** An element of [conversation_history]: a dict that may hold the keys
    [speaker], [message] and [text], with string values. *)
Module HistoryEntry.
Record t := mk {
  speaker : option string;
  message : option string;
  text : option string
}.
End HistoryEntry.

(** The dictionary [check_goal_met] returns. *)
Module GoalResult.
Record t := mk {
  goal_met : bool;
  confidence : float;
  reasoning : string
}.
End GoalResult.

(** [response.text], represented by what [json.loads] makes of it. *)
Inductive ResponseText :=
| NoText
| Malformed (err : string)
| Parsed (v : json).

(** The judgment service at one call: [generate_content] either raises or
    returns a response. *)
Definition Client := string -> Result ResponseText.

Definition json_loads (t : ResponseText) : Result json :=
  match t with
  | NoText =>
      Raise (mkExn TypeError
        "the JSON object must be str, bytes or bytearray, not NoneType")
  | Malformed err => Raise (mkExn JSONDecodeError err)
  | Parsed v => Ok v
  end.

(** [v.get(key, default)] *)
Definition json_get (v : json) (key : string) (default : json) : Result json :=
  match v with
  | JDict d =>
      Ok (match dict_get String.eqb key d with
          | Some x => x
          | None => default
          end)
  | _ =>
      Raise (mkExn AttributeError
        ("'" ++ type_name v ++ "' object has no attribute 'get'"))
  end.

Definition try_except {A} (body : Result A) (handler : exn -> Result A)
    : Result A :=
  match body with
  | Ok a => Ok a
  | Raise e => handler e
  end.

Module GoalDetector.
Section Builtins.

(** Two built-ins that are not re-implemented: [float(s)] on a string
    and [str(v)] on a value that is not a string. *)
Variable float_of_str : string -> Result float.
Variable repr : json -> string.

(** [float(v)].  An [int] whose nearest double would be infinite
    raises. *)
Definition py_float (v : json) : Result float :=
  match v with
  | JBool b => Ok (if b then 1%Q else 0%Q)
  | JInt z =>
      if 2 ^ 1024 - 2 ^ 970 <=? Z.abs z
      then Raise (mkExn OverflowError "int too large to convert to float")
      else Ok (of_int z)
  | JFloat x => Ok x
  | JStr s => float_of_str s
  | _ =>
      Raise (mkExn TypeError
        ("float() argument must be a string or a real number, not '"
           ++ type_name v ++ "'"))
  end.

(** [str(v)] *)
Definition py_str (v : json) : string :=
  match v with
  | JStr s => s
  | _ => repr v
  end.

(** One pass of the loop that builds [conversation_text]. *)
Definition format_entry (entry : HistoryEntry.t) : string :=
  let speaker :=
    match HistoryEntry.speaker entry with
    | Some s => s
    | None => "Unknown"
    end in
  let message :=
    match HistoryEntry.message entry with
    | Some m => m
    | None =>
        match HistoryEntry.text entry with
        | Some t => t
        | None => ""
        end
    end in
  if String.eqb message "" then "" else speaker ++ ": " ++ message ++ nl.

Definition conversation_text_of (conversation_history : list HistoryEntry.t)
    : string :=
  fold_left (fun acc entry => acc ++ format_entry entry)
            (last_n 10 conversation_history) "".

Definition json_format : string :=
  "{" ++ nl ++
  "    " ++ dq ++ "goal_met" ++ dq ++ ": true/false," ++ nl ++
  "    " ++ dq ++ "confidence" ++ dq ++ ": 0.0-1.0," ++ nl ++
  "    " ++ dq ++ "reasoning" ++ dq ++ ": " ++ dq ++ "brief explanation" ++ dq
    ++ nl ++
  "}".

(** [if goal_description:] is false for [None] and for the empty string. *)
Definition build_prompt (conversation_text : string)
    (goal_description : option string) : string :=
  match goal_description with
  | Some (String _ _ as goal) =>
      "Analyze this conversation to determine if the stated goal has been achieved."
        ++ nl ++ nl ++
      "Goal: " ++ goal ++ nl ++ nl ++
      "Recent Conversation:" ++ nl ++
      conversation_text ++ nl ++ nl ++
      "Determine if the conversation goal has been met. Respond with JSON:"
        ++ nl ++
      json_format
  | _ =>
      "Analyze this conversation to determine if it has reached a natural conclusion."
        ++ nl ++ nl ++
      "Recent Conversation:" ++ nl ++
      conversation_text ++ nl ++ nl ++
      "Determine if the conversation has naturally concluded (e.g., both parties have said goodbye, "
        ++ nl ++
      "the main topic is resolved, or there's a clear ending). Respond with JSON:"
        ++ nl ++
      json_format
  end.

(** The body of the [try]: the call, the parse and the coercions. *)
Definition judge (client : Client) (prompt : string) : Result GoalResult.t :=
  do response <- client prompt;
  do result <- json_loads response;
  do g <- json_get result "goal_met" (JBool false);
  do c <- json_get result "confidence" (JFloat 0%Q);
  do c' <- py_float c;
  do r <- json_get result "reasoning" (JStr "");
  Ok (GoalResult.mk (py_bool g) c' (py_str r)).

(** The dictionary the [except] branch returns. *)
Definition on_error (e : exn) : GoalResult.t :=
  GoalResult.mk false 0%Q ("Error during detection: " ++ exn_str e).

Definition check_goal_met (client : Client)
    (conversation_history : list HistoryEntry.t)
    (goal_description : option string) : Result GoalResult.t :=
  let conversation_text := conversation_text_of conversation_history in
  let prompt := build_prompt conversation_text goal_description in
  try_except (judge client prompt) (fun e => Ok (on_error e)).

End Builtins.
End GoalDetector.

(** ** Artifacts on durable storage *)

(** One element of a bot's transcript, as [add_to_transcript] builds it. *)
Module TranscriptEntry.
Record t := mk {
  timestamp : string;
  speaker : string;
  type : string;
  text : string
}.
End TranscriptEntry.

Module StopSignal.
Record t := mk {
  reason : string;
  timestamp : option string;
  result : option GoalResult.t
}.
End StopSignal.

(** A per-process transcript file; a key the file lacks is [None]. *)
Module BotTranscript.
Record t := mk {
  bot_name : option string;
  start_time : option string;
  end_time : option string;
  entries : option (list TranscriptEntry.t)
}.
End BotTranscript.

(** An element of [all_entries] in the merge. *)
Module MergedEntry.
Record t := mk {
  timestamp : string;
  bot : string;
  speaker : string;
  message : string;
  type : string
}.
End MergedEntry.

Module UnifiedTranscript.
Record t := mk {
  simulation_id : option string;
  bot1_name : string;
  bot2_name : string;
  start_time : string;
  end_time : string;
  total_turns : Z;
  conversation : list MergedEntry.t
}.
End UnifiedTranscript.

Module SimplifiedMessage.
Record t := mk { bot : string; message : string }.
End SimplifiedMessage.

Module SimplifiedTranscript.
Record t := mk {
  simulation_id : option string;
  bot1_name : string;
  bot2_name : string;
  messages : list SimplifiedMessage.t
}.
End SimplifiedTranscript.

(** What a path holds: a JSON document of one of the shapes above, or
    something that [open] or [json.load] raises [e] on. *)
Inductive file :=
| Unreadable (e : exn)
| StopSignalFile (s : StopSignal.t)
| TranscriptFile (t : BotTranscript.t)
| UnifiedFile (u : UnifiedTranscript.t)
| SimplifiedFile (s : SimplifiedTranscript.t).

(** [path.parent.mkdir(parents=True, exist_ok=True)] followed by
    [open(path, 'w')] and [json.dump]: when the environment lets it succeed
    the path holds the new document, whatever it held before. *)
Definition write_json (can_write : bool) (path : string) (doc : file)
    (fs : gmap string file) : Result (gmap string file) :=
  if can_write then Ok (<[path := doc]> fs)
  else Raise (mkExn OSError ("[Errno 13] Permission denied: '" ++ path ++ "'")).

(** ** simulation.py *)

Inductive Frame :=
| LLMTextFrame (text : string)
| TTSTextFrame (text : string)
| TranscriptionFrame (user_id : string) (text : string)
| OtherFrame.

(** The objects a frame processor reaches: the shared [transcript] list,
    the global tracer, durable storage, and the requests that have gone
    out to the judgment service (each with the value of [turn_count] at
    the time it was sent). *)
Module World.
Record t := mk {
  transcript : list TranscriptEntry.t;
  tracer : option SimulationTracer.t;
  fs : gmap string file;
  requests : list (Z * string)
}.
End World.

(** What the environment supplies while one frame is processed:
    [datetime.now()] formatted, the two readings of [time.time()] a tracer
    call may take, the judgment service, and whether the stop-signal file
    can be created. *)
Module Env.
Record t := mk {
  now_str : string;
  t_id : float;
  t_ev : float;
  client : Client;
  can_write : bool
}.
End Env.

(** [add_to_transcript(speaker, text, message_type)] *)
Definition add_to_transcript (now_str : string) (speaker text message_type : string)
    (transcript : list TranscriptEntry.t) : list TranscriptEntry.t :=
  transcript ++ [TranscriptEntry.mk now_str speaker message_type text].

(** [result.get("goal_met", False) and result.get("confidence", 0) > 0.7] *)
Definition goal_decision (result : GoalResult.t) : bool :=
  GoalResult.goal_met result && fgt (GoalResult.confidence result) (7 # 10).

Module OutputTranscriptTracker.
Section Builtins.

Variable float_of_str : string -> Result float.
Variable repr : json -> string.

(** [goal_detector] records whether a [GoalDetector] was constructed; its
    replies come from the environment. *)
Record t := mk {
  bot_name : string;
  _llm_text_buffer : string;
  _llm_first_token_seen_for_turn : list TurnId;
  goal_detector : bool;
  goal_description : option string;
  stop_signal_path : option string;
  goal_met : bool;
  last_goal_check_turn : Z;
  turn_count : Z
}.

Definition __init__ (bot_name : string) (goal_detector : bool)
    (goal_description stop_signal_path : option string) : t :=
  mk bot_name "" [] goal_detector goal_description stop_signal_path false 0 0.

Definition set_llm (buffer : string) (seen : list TurnId) (self : t) : t :=
  mk (bot_name self) buffer seen (goal_detector self) (goal_description self)
     (stop_signal_path self) (goal_met self) (last_goal_check_turn self)
     (turn_count self).

Definition set_goal (met : bool) (last count : Z) (self : t) : t :=
  mk (bot_name self) (_llm_text_buffer self)
     (_llm_first_token_seen_for_turn self) (goal_detector self)
     (goal_description self) (stop_signal_path self) met last count.

(** [self.goal_detector and
     self.turn_count >= self.last_goal_check_turn + 3] *)
Definition check_due (self : t) : bool :=
  goal_detector self && (last_goal_check_turn self + 3 <=? turn_count self).

(** The loop over [self.transcript_ref[-10:]]. *)
Definition history_of (transcript : list TranscriptEntry.t)
    : list HistoryEntry.t :=
  map (fun entry =>
         HistoryEntry.mk (Some (TranscriptEntry.speaker entry))
                         (Some (TranscriptEntry.text entry)) None)
      (last_n 10 transcript).

(** The [isinstance(frame, LLMTextFrame)] branch. *)
Definition on_llm_text (env : Env.t) (text : string) (self : t) (w : World.t)
    : t * World.t :=
  if String.eqb text "" then (self, w)
  else
    let buffer := _llm_text_buffer self ++ text in
    match World.tracer w with
    | Some tr =>
        match SimulationTracer.current_turn_id tr with
        | Some turn_id =>
            if existsb (TurnId_eqb turn_id) (_llm_first_token_seen_for_turn self)
            then (set_llm buffer (_llm_first_token_seen_for_turn self) self, w)
            else
              let token :=
                if (50 <? String.length text)%nat then substring 0 50 text
                else text in
              let tr' :=
                SimulationTracer.record_llm_first_token
                  (Env.t_id env) (Env.t_ev env) token None tr in
              (set_llm buffer (turn_id :: _llm_first_token_seen_for_turn self)
                       self,
               World.mk (World.transcript w) (Some tr') (World.fs w)
                        (World.requests w))
        | None => (set_llm buffer (_llm_first_token_seen_for_turn self) self, w)
        end
    | None => (set_llm buffer (_llm_first_token_seen_for_turn self) self, w)
    end.

(** The body of the [try] of the goal check, entered with [turn_count]
    already incremented.  The assignments made before a statement raises
    stay in place; [except Exception] only logs. *)
Definition goal_check (env : Env.t) (self : t) (w : World.t) : t * World.t :=
  let conversation_history := history_of (World.transcript w) in
  let prompt :=
    GoalDetector.build_prompt
      (GoalDetector.conversation_text_of conversation_history)
      (goal_description self) in
  let w1 :=
    World.mk (World.transcript w) (World.tracer w) (World.fs w)
             (World.requests w ++ [(turn_count self, prompt)]) in
  match GoalDetector.check_goal_met float_of_str repr (Env.client env)
          conversation_history (goal_description self) with
  | Raise _ => (self, w1)
  | Ok result =>
      if goal_decision result then
        (* self.goal_met = True *)
        let self1 :=
          set_goal true (last_goal_check_turn self) (turn_count self) self in
        match stop_signal_path self with
        | Some path =>
            match write_json (Env.can_write env) path
                    (StopSignalFile
                       (StopSignal.mk "goal_met" None (Some result)))
                    (World.fs w1) with
            | Ok fs' =>
                (* self.last_goal_check_turn = self.turn_count *)
                (set_goal true (turn_count self) (turn_count self) self1,
                 World.mk (World.transcript w1) (World.tracer w1) fs'
                          (World.requests w1))
            | Raise _ => (self1, w1)
            end
        | None =>
            (set_goal true (turn_count self) (turn_count self) self1, w1)
        end
      else
        (set_goal (goal_met self) (turn_count self) (turn_count self) self, w1)
  end.

(** The [isinstance(frame, TTSTextFrame)] branch. *)
Definition on_tts_text (env : Env.t) (text : string) (self : t) (w : World.t)
    : t * World.t :=
  if String.eqb text "" then (self, w)
  else
    let transcript' :=
      add_to_transcript (Env.now_str env) (bot_name self) text "response"
                        (World.transcript w) in
    let tracer' :=
      match World.tracer w with
      | Some tr =>
          Some (SimulationTracer.record_tts_start
                  (Env.t_id env) (Env.t_ev env) text None tr)
      | None => None
      end in
    let w1 := World.mk transcript' tracer' (World.fs w) (World.requests w) in
    (* self.turn_count += 1 *)
    let self1 :=
      set_goal (goal_met self) (last_goal_check_turn self)
               (turn_count self + 1) self in
    if check_due self1 then goal_check env self1 w1 else (self1, w1).

Definition process_frame (env : Env.t) (frame : Frame) (self : t) (w : World.t)
    : t * World.t :=
  match frame with
  | LLMTextFrame text => on_llm_text env text self w
  | TTSTextFrame text => on_tts_text env text self w
  | _ => (self, w)
  end.

(** The frames of a run, each with what the environment supplied. *)
Fixpoint run (steps : list (Env.t * Frame)) (self : t) (w : World.t)
    : t * World.t :=
  match steps with
  | [] => (self, w)
  | (env, frame) :: rest =>
      let '(self', w') := process_frame env frame self w in
      run rest self' w'
  end.

End Builtins.
End OutputTranscriptTracker.

(** The tracer calls of the VAD handler [on_speech_started] and of
    [TurnTracker.process_frame] on a transcription from the other
    participant.  [t1 .. t4] are successive readings of [time.time()]. *)
Definition on_speech_started (t1 t2 t3 t4 : float) (tr : SimulationTracer.t)
    : SimulationTracer.t :=
  let '(_, tr1) := SimulationTracer.start_turn t1 t2 tr in
  let tr2 := SimulationTracer.record_vad_start t3 t3 None tr1 in
  SimulationTracer.record_stt_start t4 t4 None tr2.

Definition turn_tracker_on_transcription (t1 t2 t3 : float)
    (tr : SimulationTracer.t) : SimulationTracer.t :=
  let tr1 :=
    match SimulationTracer.current_turn_id tr with
    | Some _ => SimulationTracer.end_turn t1 t1 tr
    | None => tr
    end in
  snd (SimulationTracer.start_turn t2 t3 tr1).

(** ** app.py: generate_unified_transcript *)

Module SessionState.
Record t := mk {
  bot1_transcript_json : option string;
  bot2_transcript_json : option string;
  unified_transcript_path : option string;
  simulation_id : option string
}.
End SessionState.

(** [Path(p).parent / name] for a path written with [/] and already in
    the form pathlib prints. *)
Fixpoint drop_component (rev_chars : list ascii) : list ascii :=
  match rev_chars with
  | [] => []
  | c :: rest => if Ascii.eqb c "/" then rev_chars else drop_component rest
  end.

Definition path_parent (p : string) : string :=
  match drop_component (rev (list_ascii_of_string p)) with
  | [] => "."
  | [_] => "/"
  | _ :: rest => string_of_list_ascii (rev rest)
  end.

Definition path_join (dir name : string) : string :=
  if String.eqb dir "." then name
  else if String.eqb dir "/" then "/" ++ name
  else dir ++ "/" ++ name.

(** A path as a condition: [None] and the empty string are false. *)
Definition path_given (p : option string) : option string :=
  match p with
  | Some (String _ _ as s) => Some s
  | _ => None
  end.

(** [os.path.exists] *)
Definition exists_ (fs : gmap string file) (path : string) : bool :=
  match fs !! path with
  | Some _ => true
  | None => false
  end.

(** [open(path, 'r')] and [json.load], read as a bot transcript: a JSON
    document of another shape has none of the keys [bot_name] and
    [entries]. *)
Definition load_transcript (fs : gmap string file) (path : string)
    : Result BotTranscript.t :=
  match fs !! path with
  | None =>
      Raise (mkExn FileNotFoundError
        ("[Errno 2] No such file or directory: '" ++ path ++ "'"))
  | Some (Unreadable e) => Raise e
  | Some (TranscriptFile t) => Ok t
  | Some (UnifiedFile u) =>
      Ok (BotTranscript.mk None (Some (UnifiedTranscript.start_time u))
                           (Some (UnifiedTranscript.end_time u)) None)
  | Some (StopSignalFile _) | Some (SimplifiedFile _) =>
      Ok (BotTranscript.mk None None None None)
  end.

(** [data["bot_name"]] *)
Definition bot_name_of (data : BotTranscript.t) : Result string :=
  match BotTranscript.bot_name data with
  | Some b => Ok b
  | None => Raise (mkExn KeyError "'bot_name'")
  end.

Definition tag (bot : string) (entry : TranscriptEntry.t) : MergedEntry.t :=
  MergedEntry.mk (TranscriptEntry.timestamp entry) bot
                 (TranscriptEntry.speaker entry) (TranscriptEntry.text entry)
                 (TranscriptEntry.type entry).

(** The loop over [data.get("entries", [])]; [data["bot_name"]] is only
    evaluated inside it. *)
Definition tag_entries (data : BotTranscript.t) : Result (list MergedEntry.t) :=
  match BotTranscript.entries data with
  | None | Some [] => Ok []
  | Some entries =>
      do bot <- bot_name_of data;
      Ok (map (tag bot) entries)
  end.

(** [all_entries.sort(key=lambda x: x["timestamp"])].  Timestamps are
    strings, compared character by character.  [list.sort] is stable, and
    a stable sort has one possible result ([stable_sort_unique] below); it
    is computed here by insertion from the right. *)
Fixpoint insert_by_timestamp (e : MergedEntry.t) (l : list MergedEntry.t)
    : list MergedEntry.t :=
  match l with
  | [] => [e]
  | x :: rest =>
      if String.leb (MergedEntry.timestamp e) (MergedEntry.timestamp x)
      then e :: l
      else x :: insert_by_timestamp e rest
  end.

Definition sort_by_timestamp (l : list MergedEntry.t) : list MergedEntry.t :=
  fold_right insert_by_timestamp [] l.

(** [min(a, b)] and [max(a, b)] on strings: the first argument wins a tie. *)
Definition py_min (a b : string) : string := if String.ltb b a then b else a.
Definition py_max (a b : string) : string := if String.ltb a b then b else a.

Definition or_empty (s : option string) : string :=
  match s with Some x => x | None => "" end.

Definition conversation_type (ty : string) : bool :=
  existsb (String.eqb ty) ["transcription"; "response"; "message"].

(** The loop that fills [simplified_messages]. *)
Definition simplify_entry (bot1_name bot2_name : string) (entry : MergedEntry.t)
    : list SimplifiedMessage.t :=
  if conversation_type (MergedEntry.type entry) then
    if String.eqb (MergedEntry.bot entry) bot1_name
    then [SimplifiedMessage.mk "Bot 1" (MergedEntry.message entry)]
    else if String.eqb (MergedEntry.bot entry) bot2_name
    then [SimplifiedMessage.mk "Bot 2" (MergedEntry.message entry)]
    else []
  else [].

Definition simplified_messages (bot1_name bot2_name : string)
    (all_entries : list MergedEntry.t) : list SimplifiedMessage.t :=
  flat_map (simplify_entry bot1_name bot2_name) all_entries.

(** The body of the [try], after the two existence checks.  [w1] and [w2]
    say whether the unified and the simplified file can be written. *)
Definition merge_body (w1 w2 : bool) (ss : SessionState.t)
    (bot1_path bot2_path unified_path : string) (fs : gmap string file)
    : Result string * gmap string file :=
  match
    (do bot1_data <- load_transcript fs bot1_path;
     do bot2_data <- load_transcript fs bot2_path;
     do entries1 <- tag_entries bot1_data;
     do entries2 <- tag_entries bot2_data;
     let all_entries := sort_by_timestamp (entries1 ++ entries2) in
     do bot1_name <- bot_name_of bot1_data;
     do bot2_name <- bot_name_of bot2_data;
     Ok (bot1_name, bot2_name, all_entries,
         UnifiedTranscript.mk (SessionState.simulation_id ss)
           bot1_name bot2_name
           (py_min (or_empty (BotTranscript.start_time bot1_data))
                   (or_empty (BotTranscript.start_time bot2_data)))
           (py_max (or_empty (BotTranscript.end_time bot1_data))
                   (or_empty (BotTranscript.end_time bot2_data)))
           (len all_entries) all_entries))
  with
  | Raise e => (Raise e, fs)
  | Ok (bot1_name, bot2_name, all_entries, unified_data) =>
      match write_json w1 unified_path (UnifiedFile unified_data) fs with
      | Raise e => (Raise e, fs)
      | Ok fs1 =>
          let simplified_path :=
            path_join (path_parent unified_path) "simplified_transcript.json" in
          let simplified_data :=
            SimplifiedTranscript.mk (SessionState.simulation_id ss)
              bot1_name bot2_name
              (simplified_messages bot1_name bot2_name all_entries) in
          match write_json w2 simplified_path (SimplifiedFile simplified_data)
                  fs1 with
          | Raise e => (Raise e, fs1)
          | Ok fs2 =>
              (Ok ("Unified transcript saved to " ++ unified_path
                   ++ ". Simplified transcript saved to " ++ simplified_path),
               fs2)
          end
      end
  end.

(** Returns the pair [(success, message)] and the storage afterwards. *)
Definition generate_unified_transcript (w1 w2 : bool) (ss : SessionState.t)
    (fs : gmap string file) : (bool * string) * gmap string file :=
  match path_given (SessionState.bot1_transcript_json ss),
        path_given (SessionState.bot2_transcript_json ss),
        path_given (SessionState.unified_transcript_path ss) with
  | Some bot1_path, Some bot2_path, Some unified_path =>
      if negb (exists_ fs bot1_path) || negb (exists_ fs bot2_path)
      then ((false, "Bot transcript files not found yet"), fs)
      else
        match merge_body w1 w2 ss bot1_path bot2_path unified_path fs with
        | (Ok message, fs') => ((true, message), fs')
        | (Raise e, fs') =>
            ((false, "Error generating unified transcript: " ++ exn_str e), fs')
        end
  | _, _, _ => ((false, "Missing transcript paths"), fs)
  end.

(** ** llm_judge.py: SimpleLLMJudge.evaluate_simulation *)

Module EvaluationCriterion.
Record t := mk {
  name : string;
  description : string;
  scoring_type : string;
  user_instructions : string
}.
End EvaluationCriterion.

(** One element of [all_results["criteria_evaluations"]].  The last three
    fields are whatever the judgment service put in its JSON object. *)
Module CriterionResult.
Record t := mk {
  criterion : EvaluationCriterion.t;
  evaluation_steps : list string;
  score : json;
  reasoning : json;
  step_by_step_analysis : json
}.
End CriterionResult.

Module EvalSummary.
Record t := mk {
  total_criteria : Z;
  scale_criteria_count : Z;
  boolean_criteria_count : Z;
  average_scale_score : option float;
  boolean_pass_rate : option float
}.
End EvalSummary.

Module SimpleLLMJudge.

(** [isinstance(v, (int, float))].  In Python [bool] is a subclass of
    [int], so [True] and [False] pass this test. *)
Definition is_int_or_float (v : json) : bool :=
  match v with
  | JBool _ | JInt _ | JFloat _ => true
  | _ => false
  end.

(** [isinstance(v, bool)] *)
Definition is_bool (v : json) : bool :=
  match v with
  | JBool _ => true
  | _ => false
  end.

(** The value a number contributes to [sum]: [True] is 1, [False] is 0. *)
Definition number (v : json) : float :=
  match v with
  | JBool b => if b then 1%Q else 0%Q
  | JInt z => of_int z
  | JFloat x => x
  | _ => 0%Q
  end.

Definition py_sum (l : list json) : float :=
  fold_left (fun acc v => fadd acc (number v)) l 0%Q.

Definition scale_scores (criteria_evaluations : list CriterionResult.t)
    : list json :=
  List.filter is_int_or_float (map CriterionResult.score criteria_evaluations).

Definition boolean_scores (criteria_evaluations : list CriterionResult.t)
    : list json :=
  List.filter is_bool (map CriterionResult.score criteria_evaluations).

(** The block under [# Calculate summary statistics]. *)
Definition summary (criteria : list EvaluationCriterion.t)
    (criteria_evaluations : list CriterionResult.t) : EvalSummary.t :=
  let scale := scale_scores criteria_evaluations in
  let boolean := boolean_scores criteria_evaluations in
  EvalSummary.mk (len criteria) (len scale) (len boolean)
    (match scale with
     | [] => None
     | _ :: _ => Some (py_round (fdiv (py_sum scale) (of_int (len scale))) 2)
     end)
    (match boolean with
     | [] => None
     | _ :: _ =>
         Some (py_round
                 (fmul (fdiv (py_sum boolean) (of_int (len boolean))) 100%Q) 1)
     end).

Section Judge.
(** The two calls that go through the judgment service. *)
Variable generate_evaluation_steps :
  EvaluationCriterion.t -> Result (list string).
Variable evaluate_conversation :
  EvaluationCriterion.t -> list string -> Result (list (string * json)).

Definition get_or (key : string) (default : json) (d : list (string * json))
    : json :=
  match dict_get String.eqb key d with
  | Some v => v
  | None => default
  end.

(** The loop [for criterion in criteria]. *)
Fixpoint evaluate_criteria (criteria : list EvaluationCriterion.t)
    : Result (list CriterionResult.t) :=
  match criteria with
  | [] => Ok []
  | criterion :: rest =>
      do evaluation_steps <- generate_evaluation_steps criterion;
      do evaluation_result <- evaluate_conversation criterion evaluation_steps;
      do results <- evaluate_criteria rest;
      Ok (CriterionResult.mk criterion evaluation_steps
            (get_or "score" JNull evaluation_result)
            (get_or "reasoning" (JStr "") evaluation_result)
            (get_or "step_by_step_analysis" (JStr "") evaluation_result)
          :: results)
  end.

(** The criteria loop followed by the summary, for a transcript that
    has messages. *)
Definition evaluate_simulation (criteria : list EvaluationCriterion.t)
    : Result (list CriterionResult.t * EvalSummary.t) :=
  do criteria_evaluations <- evaluate_criteria criteria;
  Ok (criteria_evaluations, summary criteria criteria_evaluations).
End Judge.

End SimpleLLMJudge.

(** * Vocabulary of the properties, and the runs they are tried on *)

(** ** Turn tracer: latencies of one turn *)

(** The eight latencies the specification defines, with the pair of event
    kinds of each and the field that holds it. *)
Inductive LatencyKind :=
| Speech | Transcribe | Generate | GenerateFirstToken
| Synth | SynthFirstToken | EndToEnd | TurnDuration.

Definition defined_pair (k : LatencyKind) : MetricType * MetricType :=
  match k with
  | Speech => (VAD_START, VAD_END)
  | Transcribe => (STT_START, STT_END)
  | Generate => (LLM_START, LLM_END)
  | GenerateFirstToken => (LLM_START, LLM_FIRST_TOKEN)
  | Synth => (TTS_START, TTS_END)
  | SynthFirstToken => (TTS_START, TTS_FIRST_TOKEN)
  | EndToEnd => (VAD_START, AUDIO_OUT_START)
  | TurnDuration => (TURN_START, TURN_END)
  end.

Definition metric_of (k : LatencyKind) (m : LatencyMetrics.t) : option float :=
  match k with
  | Speech => LatencyMetrics.vad_latency m
  | Transcribe => LatencyMetrics.stt_latency m
  | Generate => LatencyMetrics.llm_latency m
  | GenerateFirstToken => LatencyMetrics.llm_first_token_latency m
  | Synth => LatencyMetrics.tts_latency m
  | SynthFirstToken => LatencyMetrics.tts_first_token_latency m
  | EndToEnd => LatencyMetrics.end_to_end_latency m
  | TurnDuration => LatencyMetrics.turn_duration m
  end.

(** The specification's rule, in its words: timestamp(end_kind) minus
    timestamp(start_kind) if both are present in the turn, else absent. *)
Definition spec_latency (events : TurnEvents) (start_kind end_kind : MetricType)
    : option Q :=
  match dict_get MetricType_eqb start_kind events,
        dict_get MetricType_eqb end_kind events with
  | Some ts_start, Some ts_end => Some (ts_end - ts_start)%Q
  | _, _ => None
  end.

(** Equality of optional rationals: both absent, or both present and equal
    as numbers. *)
Definition opt_Qeq (a b : option Q) : Prop :=
  match a, b with
  | Some x, Some y => (x == y)%Q
  | None, None => True
  | _, _ => False
  end.

(** A turn recorded through the tracer's own operations: generate-start
    at 10 and generate-end at 13. *)
Definition turn_10_13 : SimulationTracer.t :=
  let tr0 := SimulationTracer.__init__ "Ira" None in
  let '(_, tr1) := SimulationTracer.start_turn 9%Q 9%Q tr0 in
  let tr2 := SimulationTracer.record_llm_start 10%Q 10%Q None tr1 in
  SimulationTracer.record_llm_end 13%Q 13%Q "ok" None tr2.

Definition turn_10_only : SimulationTracer.t :=
  let tr0 := SimulationTracer.__init__ "Ira" None in
  let '(_, tr1) := SimulationTracer.start_turn 9%Q 9%Q tr0 in
  SimulationTracer.record_llm_start 10%Q 10%Q None tr1.

(** ** Turn tracer: starting a turn while one is open *)

(** A turn-end event for [turn] is in the event log. *)
Definition turn_end_recorded (turn : TurnId) (self : SimulationTracer.t) : bool :=
  existsb
    (fun ev =>
       MetricType_eqb (MetricEvent.event_type ev) TURN_END &&
       match MetricEvent.turn_id ev with
       | Some i => TurnId_eqb i turn
       | None => false
       end)
    (SimulationTracer.events self).

(** The specification's sentence: a turn that is open when [start_turn] is
    called has its turn-end recorded by that call. *)
Definition start_turn_closes_open_turn : Prop :=
  forall (t_id t_ev : float) (self : SimulationTracer.t) (cur : TurnId),
    SimulationTracer.current_turn_id self = Some cur ->
    turn_end_recorded cur (snd (SimulationTracer.start_turn t_id t_ev self)) = true.

(** A tracer with turn 1 open. *)
Definition tracer_turn_open : SimulationTracer.t :=
  snd (SimulationTracer.start_turn 1%Q 1%Q (SimulationTracer.__init__ "Ira" None)).

(** ** Turn tracer: session means *)

(** The specification's mean, in its words: over the turns where the
    metric is present only, absent values taking no part in the numerator
    or the denominator. *)
Definition present (l : list (option Q)) : list Q :=
  flat_map (fun v => match v with Some x => [x] | None => [] end) l.

Definition Qsum (l : list Q) : Q := fold_right Qplus 0%Q l.

Definition spec_mean (l : list (option Q)) : option Q :=
  match present l with
  | [] => None
  | (_ :: _) as p => Some (Qsum p / inject_Z (len p))%Q
  end.

(** Metrics of a turn in which only the speech latency may be present. *)
Definition only_vad (n : Z) (v : option float) : LatencyMetrics.t :=
  LatencyMetrics.mk (mkTurnId n 0) "Ira" v None None None None None None None
                    None None.

(** A session of two completed turns.  In the first the speech-start and
    the speech-end events carry the same clock reading, so its speech
    latency is present and equal to 0; in the second it is 4. *)
Definition session_zero_latency : SimulationTracer.t :=
  let tr := SimulationTracer.__init__ "Ira" None in
  let tr := snd (SimulationTracer.start_turn 0%Q 0%Q tr) in
  let tr := SimulationTracer.record_vad_start 1%Q 1%Q None tr in
  let tr := SimulationTracer.record_vad_end 1%Q 1%Q None tr in
  let tr := SimulationTracer.end_turn 2%Q 2%Q tr in
  let tr := snd (SimulationTracer.start_turn 10%Q 10%Q tr) in
  let tr := SimulationTracer.record_vad_start 10%Q 10%Q None tr in
  let tr := SimulationTracer.record_stt_start 10%Q 10%Q None tr in
  let tr := SimulationTracer.record_vad_end 14%Q 14%Q None tr in
  let tr := SimulationTracer.record_stt_end 15%Q 15%Q "hello" None tr in
  let tr := SimulationTracer.record_llm_start 15%Q 15%Q None tr in
  let tr := SimulationTracer.record_llm_end 17%Q 17%Q "hi" None tr in
  let tr := SimulationTracer.record_tts_start 17%Q 17%Q "hi" None tr in
  let tr := SimulationTracer.record_audio_out_start 18%Q 18%Q None tr in
  let tr := SimulationTracer.record_tts_end 19%Q 19%Q None tr in
  SimulationTracer.end_turn 20%Q 20%Q tr.

Definition summary_field {A} (f : Summary.t -> A) (r : Result Summary.t)
    : option A :=
  match r with
  | Ok s => Some (f s)
  | Raise _ => None
  end.

(** A session whose only completed turn has no speech events at all:
    [get_summary] raises instead of reporting an absent mean. *)
Definition session_without_speech : SimulationTracer.t :=
  let tr := SimulationTracer.__init__ "Ira" None in
  let tr := turn_tracker_on_transcription 1%Q 1%Q 1%Q tr in
  let tr := SimulationTracer.record_llm_start 2%Q 2%Q None tr in
  let tr := SimulationTracer.record_llm_end 3%Q 3%Q "hi" None tr in
  SimulationTracer.end_turn 4%Q 4%Q tr.

(** ** Evaluation summary *)

Definition criterion_of (name scoring_type : string) : EvaluationCriterion.t :=
  EvaluationCriterion.mk name "" scoring_type "".

Definition result_with (scoring_type : string) (score : json) : CriterionResult.t :=
  CriterionResult.mk (criterion_of "criterion" scoring_type) []
                     score (JStr "") (JStr "").

(** The specification's first example: scale 8, scale 6, boolean true. *)
Definition results_8_6_true : list CriterionResult.t :=
  [result_with "scale" (JInt 8); result_with "scale" (JInt 6);
   result_with "boolean" (JBool true)].

(** The second one: boolean true, boolean false. *)
Definition results_true_false : list CriterionResult.t :=
  [result_with "boolean" (JBool true); result_with "boolean" (JBool false)].

(** The summary the specification describes: the scale scores are those of
    the results whose score is a number and not a boolean. *)
Definition spec_scale_scores (criteria_evaluations : list CriterionResult.t)
    : list json :=
  List.filter
    (fun v => SimpleLLMJudge.is_int_or_float v && negb (SimpleLLMJudge.is_bool v))
    (map CriterionResult.score criteria_evaluations).

(** ** Goal detector: failing safe *)

(** Stand-ins for the two built-ins, right on the values used below. *)
Definition float_of_str_sample (s : string) : Result float :=
  if String.eqb s "0.9" then Ok (9 # 10)%Q
  else Raise (mkExn ValueError
                ("could not convert string to float: '" ++ s ++ "'")).

Definition repr_sample (v : json) : string :=
  match v with
  | JNull => "None"
  | JBool true => "True"
  | JBool false => "False"
  | _ => "?"
  end.

(** A judgment service that is unreachable. *)
Definition client_down : Client :=
  fun _ => Raise (mkExn ServiceError "503 Service Unavailable").

Definition history_sample : list HistoryEntry.t :=
  [HistoryEntry.mk (Some "Ira") (Some "Goodbye!") None].

(** ** Goal monitor: the decision rule *)

(** A judgment service that answers every prompt with the same object. *)
Definition client_replying (met : bool) (confidence : Q) : Client :=
  fun _ => Ok (Parsed (JDict [("goal_met", JBool met);
                              ("confidence", JFloat confidence);
                              ("reasoning", JStr "done")])).

Definition env_sample (client : Client) (can_write : bool) : Env.t :=
  Env.mk "2026-01-01 10:00:00" 0%Q 0%Q client can_write.

(** A tracker with a goal detector and a stop-signal path, and a world
    with no tracer and nothing on storage. *)
Definition tracker_sample : OutputTranscriptTracker.t :=
  OutputTranscriptTracker.__init__ "Ira" true (Some "book a table")
    (Some "sim/bot1_stop_signal.json").

Definition world_empty : World.t := World.mk [] None ∅ [].

Definition tts (n : nat) (env : Env.t) : list (Env.t * Frame) :=
  repeat (env, TTSTextFrame "Sure.") n.

Definition run_sample :=
  OutputTranscriptTracker.run float_of_str_sample repr_sample.

(** ** Goal monitor: the stop-signal file *)

Definition goal_met_marker (result : GoalResult.t) : file :=
  StopSignalFile (StopSignal.mk "goal_met" None (Some result)).

(** The judgment the detector returns at the spoken turn [text], that is
    on the transcript with the response just appended. *)
Definition judgment_after
    (float_of_str : string -> Result float) (repr : json -> string)
    (env : Env.t) (text : string) (self : OutputTranscriptTracker.t)
    (w : World.t) : Result GoalResult.t :=
  GoalDetector.check_goal_met float_of_str repr (Env.client env)
    (OutputTranscriptTracker.history_of
       (add_to_transcript (Env.now_str env)
          (OutputTranscriptTracker.bot_name self) text "response"
          (World.transcript w)))
    (OutputTranscriptTracker.goal_description self).

(** The specification's sentence: a file that exists is never overwritten
    (nor deleted). *)
Definition stop_signal_write_once : Prop :=
  forall (float_of_str : string -> Result float) (repr : json -> string)
         (env : Env.t) (frame : Frame) (self : OutputTranscriptTracker.t)
         (w : World.t) (path : string) (f : file),
    World.fs w !! path = Some f ->
    World.fs (snd (OutputTranscriptTracker.process_frame float_of_str repr
                     env frame self w)) !! path = Some f.

(** The marker [stop_simulation] writes when the operator asks to stop. *)
Definition user_requested_marker : file :=
  StopSignalFile (StopSignal.mk "user_requested"
                                (Some "2026-01-01T10:00:00") None).

(** A tracker two spoken turns into the run, and a world where the
    operator's marker is already at the tracker's stop-signal path. *)
Definition tracker_two_turns : OutputTranscriptTracker.t :=
  OutputTranscriptTracker.set_goal false 0 2 tracker_sample.

Definition world_with_marker : World.t :=
  World.mk [] None {["sim/bot1_stop_signal.json" := user_requested_marker]} [].

(** ** Goal monitor: cadence of the checks *)

(** Successive elements at least three apart. *)
Fixpoint spaced (l : list Z) : Prop :=
  match l with
  | a :: (b :: _) as rest => a + 3 <= b /\ spaced rest
  | _ => True
  end.

(** The checks made so far are three turns apart and none is later than
    [last_goal_check_turn]. *)
Definition cadence_inv (self : OutputTranscriptTracker.t) (w : World.t) : Prop :=
  spaced (map fst (World.requests w)) /\
  Forall (fun t => t <= OutputTranscriptTracker.last_goal_check_turn self)
         (map fst (World.requests w)).

(** ** Transcript merger: order of the merged conversation *)

Definition ts_le (x y : MergedEntry.t) : Prop :=
  String.leb (MergedEntry.timestamp x) (MergedEntry.timestamp y) = true.

Definition has_timestamp (t : string) (e : MergedEntry.t) : bool :=
  String.eqb (MergedEntry.timestamp e) t.

(** Where an entry of the merged conversation comes from: the bot whose
    transcript held it, and the entry as that transcript had it. *)
Definition origin (e : MergedEntry.t) : string * TranscriptEntry.t :=
  (MergedEntry.bot e,
   TranscriptEntry.mk (MergedEntry.timestamp e) (MergedEntry.speaker e)
                      (MergedEntry.type e) (MergedEntry.message e)).

(** The entries of one transcript, each with the bot it belongs to. *)
Definition sourced (bot : string) (entries : list TranscriptEntry.t)
    : list (string * TranscriptEntry.t) :=
  map (fun e => (bot, e)) entries.

Definition at_time (t : string) (x : string * TranscriptEntry.t) : bool :=
  String.eqb (TranscriptEntry.timestamp (snd x)) t.

(** ** Transcript merger: roles of the simplified projection *)

(** The anonymous role of an originating bot name. *)
Definition role_of (bot1_name bot : string) : string :=
  if String.eqb bot bot1_name then "Bot 1" else "Bot 2".

Definition is_conversation (e : MergedEntry.t) : bool :=
  conversation_type (MergedEntry.type e).

(** Two transcripts as the bot processes write them: the first bot has
    entries at 10:00:00 and 10:00:02, the second one at 10:00:01. *)
Definition entry_at (t speaker type text : string) : TranscriptEntry.t :=
  TranscriptEntry.mk t speaker type text.

Definition ira_entries : list TranscriptEntry.t :=
  [entry_at "2026-01-01 10:00:00" "Ira" "response" "Hello!";
   entry_at "2026-01-01 10:00:02" "Ira" "response" "How can I help?"].

Definition chetan_entries : list TranscriptEntry.t :=
  [entry_at "2026-01-01 10:00:01" "Chetan" "response" "Hi."].

(** ** Transcript merger: the function on storage *)

Definition transcript_file (bot : string) (entries : list TranscriptEntry.t) : file :=
  TranscriptFile
    (BotTranscript.mk (Some bot) (Some "2026-01-01 10:00:00")
                      (Some "2026-01-01 10:05:00") (Some entries)).

Definition session_sample : SessionState.t :=
  SessionState.mk (Some "sim/bot1_Ira_transcript.json")
                  (Some "sim/bot2_Chetan_transcript.json")
                  (Some "sim/unified_transcript.json")
                  (Some "20260101_100000").

Definition storage_both : gmap string file :=
  {["sim/bot1_Ira_transcript.json" := transcript_file "Ira" ira_entries;
    "sim/bot2_Chetan_transcript.json" := transcript_file "Chetan" chetan_entries]}.

(** ** Transcript merger: a source that is missing or unreadable *)

(** The file at [path] is not there, or reading it raises. *)
Definition unavailable (fs : gmap string file) (path : string) : Prop :=
  fs !! path = None \/ exists e, fs !! path = Some (Unreadable e).

Definition readable (f : file) : bool :=
  match f with
  | Unreadable _ => false
  | _ => true
  end.

(** The specification's sentence on the report: which source was
    unavailable can be told from it, so the report when only the first
    source is missing differs from the report when only the second is. *)
Definition report_names_missing_source : Prop :=
  forall (w1 w2 : bool) (ss : SessionState.t) (fs_a fs_b : gmap string file)
         (bot1_path bot2_path : string),
    path_given (SessionState.bot1_transcript_json ss) = Some bot1_path ->
    path_given (SessionState.bot2_transcript_json ss) = Some bot2_path ->
    fs_a !! bot1_path = None -> is_Some (fs_a !! bot2_path) ->
    is_Some (fs_b !! bot1_path) -> fs_b !! bot2_path = None ->
    snd (fst (generate_unified_transcript w1 w2 ss fs_a))
    <> snd (fst (generate_unified_transcript w1 w2 ss fs_b)).

Definition storage_only_second : gmap string file :=
  {["sim/bot2_Chetan_transcript.json" := transcript_file "Chetan" chetan_entries]}.

Definition storage_only_first : gmap string file :=
  {["sim/bot1_Ira_transcript.json" := transcript_file "Ira" ira_entries]}.

(** A transcript that is there but is not JSON. *)
Definition storage_second_garbled : gmap string file :=
  {["sim/bot1_Ira_transcript.json" := transcript_file "Ira" ira_entries;
    "sim/bot2_Chetan_transcript.json" :=
      Unreadable (mkExn JSONDecodeError
                    "Expecting value: line 1 column 1 (char 0)")]}.

(** ** Turn tracer: sequences of calls *)

(** The public methods of the tracer, as one call each. *)
Inductive TracerCall :=
| CallStartTurn
| CallEndTurn
| CallVadStart (metadata : option Metadata)
| CallVadEnd (metadata : option Metadata)
| CallSttStart (metadata : option Metadata)
| CallSttEnd (transcript : string) (metadata : option Metadata)
| CallLlmStart (metadata : option Metadata)
| CallLlmFirstToken (token : string) (metadata : option Metadata)
| CallLlmEnd (response : string) (metadata : option Metadata)
| CallTtsStart (text : string) (metadata : option Metadata)
| CallTtsFirstToken (metadata : option Metadata)
| CallTtsEnd (metadata : option Metadata)
| CallAudioOutStart (metadata : option Metadata).

(** One call, with the two clock readings it may take. *)
Definition tracer_call (t_id t_ev : float) (c : TracerCall)
    (self : SimulationTracer.t) : SimulationTracer.t :=
  match c with
  | CallStartTurn => snd (SimulationTracer.start_turn t_id t_ev self)
  | CallEndTurn => SimulationTracer.end_turn t_id t_ev self
  | CallVadStart md => SimulationTracer.record_vad_start t_id t_ev md self
  | CallVadEnd md => SimulationTracer.record_vad_end t_id t_ev md self
  | CallSttStart md => SimulationTracer.record_stt_start t_id t_ev md self
  | CallSttEnd s md => SimulationTracer.record_stt_end t_id t_ev s md self
  | CallLlmStart md => SimulationTracer.record_llm_start t_id t_ev md self
  | CallLlmFirstToken s md =>
      SimulationTracer.record_llm_first_token t_id t_ev s md self
  | CallLlmEnd s md => SimulationTracer.record_llm_end t_id t_ev s md self
  | CallTtsStart s md => SimulationTracer.record_tts_start t_id t_ev s md self
  | CallTtsFirstToken md =>
      SimulationTracer.record_tts_first_token t_id t_ev md self
  | CallTtsEnd md => SimulationTracer.record_tts_end t_id t_ev md self
  | CallAudioOutStart md =>
      SimulationTracer.record_audio_out_start t_id t_ev md self
  end.

Fixpoint tracer_calls (l : list (float * float * TracerCall))
    (self : SimulationTracer.t) : SimulationTracer.t :=
  match l with
  | [] => self
  | (t_id, t_ev, c) :: rest => tracer_calls rest (tracer_call t_id t_ev c self)
  end.

(** The calls that record a pipeline milestone, that is all of them but
    [start_turn] and [end_turn]. *)
Definition is_record_call (c : TracerCall) : bool :=
  match c with
  | CallStartTurn | CallEndTurn => false
  | _ => true
  end.

(** The turn an event recorded without an explicit turn id goes to. *)
Definition target_turn (t_id : float) (turn_id : option TurnId)
    (self : SimulationTracer.t) : TurnId :=
  match turn_id with
  | Some i => i
  | None =>
      match SimulationTracer.current_turn_id self with
      | Some c => c
      | None =>
          mkTurnId (SimulationTracer.turn_counter self + 1)
                   (py_int (fmul t_id 1000%Q))
      end
  end.

(** [turn_events[turn][kind]], absent when either key is. *)
Definition indexed (turn : TurnId) (kind : MetricType)
    (self : SimulationTracer.t) : option float :=
  match dict_get TurnId_eqb turn (SimulationTracer.turn_events self) with
  | Some evs => dict_get MetricType_eqb kind evs
  | None => None
  end.

Definition event_matches (turn : TurnId) (kind : MetricType)
    (ev : MetricEvent.t) : bool :=
  MetricType_eqb (MetricEvent.event_type ev) kind &&
  match MetricEvent.turn_id ev with
  | Some i => TurnId_eqb i turn
  | None => false
  end.

(** The timestamp of the last event of [kind] logged for [turn]. *)
Definition last_stamp (turn : TurnId) (kind : MetricType)
    (events : list MetricEvent.t) : option float :=
  fold_left
    (fun acc ev =>
       if event_matches turn kind ev then Some (MetricEvent.timestamp ev)
       else acc)
    events None.

(** The timestamp of the first event of [kind] in the log. *)
Definition first_stamp (kind : MetricType) (events : list MetricEvent.t)
    : option float :=
  option_map MetricEvent.timestamp
    (find (fun ev => MetricType_eqb (MetricEvent.event_type ev) kind) events).

(** The per-turn table and the two first-token fields say what the event
    log says. *)
Definition log_consistent (self : SimulationTracer.t) : Prop :=
  (forall turn kind,
      indexed turn kind self = last_stamp turn kind (SimulationTracer.events self)) /\
  SimulationTracer.first_llm_token_timestamp self
    = first_stamp LLM_FIRST_TOKEN (SimulationTracer.events self) /\
  SimulationTracer.first_spoken_token_timestamp self
    = first_stamp TTS_FIRST_TOKEN (SimulationTracer.events self).

Definition turn_keys (self : SimulationTracer.t) : list TurnId :=
  map fst (SimulationTracer.turn_events self).

(** The turn ids in use were all handed out by the counter, each once. *)
Definition ids_wf (self : SimulationTracer.t) : Prop :=
  Forall (fun i => 1 <= tid_counter i <= SimulationTracer.turn_counter self)
         (turn_keys self) /\
  NoDup (map tid_counter (turn_keys self)) /\
  (forall c, SimulationTracer.current_turn_id self = Some c ->
             In c (turn_keys self)).

(** The event kind a recording call logs. *)
Definition call_kind (c : TracerCall) : MetricType :=
  match c with
  | CallStartTurn => TURN_START
  | CallEndTurn => TURN_END
  | CallVadStart _ => VAD_START
  | CallVadEnd _ => VAD_END
  | CallSttStart _ => STT_START
  | CallSttEnd _ _ => STT_END
  | CallLlmStart _ => LLM_START
  | CallLlmFirstToken _ _ => LLM_FIRST_TOKEN
  | CallLlmEnd _ _ => LLM_END
  | CallTtsStart _ _ => TTS_START
  | CallTtsFirstToken _ => TTS_FIRST_TOKEN
  | CallTtsEnd _ => TTS_END
  | CallAudioOutStart _ => AUDIO_OUT_START
  end.

Definition counter_nonneg (self : SimulationTracer.t) : Prop :=
  0 <= SimulationTracer.turn_counter self.

(** ** Turn tracer: the session summary *)

(** The five latencies [get_summary] averages. *)
Definition averaged : list (LatencyMetrics.t -> option float) :=
  [LatencyMetrics.vad_latency; LatencyMetrics.stt_latency;
   LatencyMetrics.llm_latency; LatencyMetrics.tts_latency;
   LatencyMetrics.end_to_end_latency].

(** No turn of [ms] has a value of the metric that counts in the
    denominator: it is absent or zero in every one of them. *)
Definition never_truthy (get : LatencyMetrics.t -> option float)
    (ms : list LatencyMetrics.t) : Prop :=
  Forall (fun m => SimulationTracer.truthy (get m) = false) ms.

Definition division_by_zero : exn := mkExn ZeroDivisionError "division by zero".

(** Two turns, the first opened by the turn tracker and closed, the second
    opened by a recording call and left open. *)
Definition calls_two_turns : list (float * float * TracerCall) :=
  [(1%Q, 1%Q, CallStartTurn);
   (2%Q, 2%Q, CallVadStart None);
   (3%Q, 3%Q, CallVadEnd None);
   (3%Q, 3%Q, CallSttStart None);
   (4%Q, 4%Q, CallSttEnd "hello" None);
   (4%Q, 4%Q, CallLlmStart None);
   (5%Q, 5%Q, CallLlmEnd "hi" None);
   (5%Q, 5%Q, CallTtsStart "hi" None);
   (6%Q, 6%Q, CallAudioOutStart None);
   (7%Q, 7%Q, CallTtsEnd None);
   (8%Q, 8%Q, CallEndTurn);
   (9%Q, 9%Q, CallLlmStart None)].

(** Every logged event names the tracer's bot and a turn of the table. *)
Definition events_wf (self : SimulationTracer.t) : Prop :=
  Forall (fun ev =>
            MetricEvent.bot_name ev = SimulationTracer.bot_name self /\
            exists i, MetricEvent.turn_id ev = Some i /\ In i (turn_keys self))
         (SimulationTracer.events self).

(** Two tracers with the same log, table and bot name. *)
Definition same_log (a b : SimulationTracer.t) : Prop :=
  SimulationTracer.events a = SimulationTracer.events b /\
  SimulationTracer.turn_events a = SimulationTracer.turn_events b /\
  SimulationTracer.bot_name a = SimulationTracer.bot_name b.

(** The turn has a turn-end in the table. *)
Definition ended (self : SimulationTracer.t) (turn : TurnId) : bool :=
  match indexed turn TURN_END self with
  | Some _ => true
  | None => false
  end.

(** ** Goal monitor: what a run does to the transcript *)

(** The text a frame makes the tracker speak: that of a TTS text frame
    whose text is not empty. *)
Definition spoken_text (frame : Frame) : option string :=
  match frame with
  | TTSTextFrame (String _ _ as text) => Some text
  | _ => None
  end.

(** The transcript entries of the spoken turns of a run, in order. *)
Definition responses (bot_name : string) (steps : list (Env.t * Frame))
    : list TranscriptEntry.t :=
  flat_map
    (fun step : Env.t * Frame =>
       match spoken_text (snd step) with
       | Some text =>
           [TranscriptEntry.mk (Env.now_str (fst step)) bot_name "response" text]
       | None => []
       end)
    steps.

(** The counters of the tracker have not gone below their initial
    values. *)
Definition counters_nonneg (self : OutputTranscriptTracker.t) : Prop :=
  0 <= OutputTranscriptTracker.last_goal_check_turn self /\
  0 <= OutputTranscriptTracker.turn_count self.

(** ** Transcript merger: what the merge writes *)

(** Where the simplified transcript goes: next to the unified one. *)
Definition simplified_path_of (unified_path : string) : string :=
  path_join (path_parent unified_path) "simplified_transcript.json".

(** ** Goal detector: what the judgment is computed from *)

(** [result.get(key, default)] on the keys of a reply. *)
Definition reply_get (key : string) (default : json) (d : list (string * json))
    : json :=
  match dict_get String.eqb key d with
  | Some v => v
  | None => default
  end.

(** A judgment service whose reply spells the verdict as a string. *)
Definition client_replying_text (verdict : string) : Client :=
  fun _ => Ok (Parsed (JDict [("goal_met", JStr verdict);
                              ("confidence", JFloat (9 # 10))])).

(** * Properties *)

(** ** Arithmetic of the float model *)

Lemma fsub_correct (a b : float) : (fsub a b == a - b)%Q.
Proof. unfold fsub. apply Qred_correct. Qed.

Lemma fadd_correct (a b : float) : (fadd a b == a + b)%Q.
Proof. unfold fadd. apply Qred_correct. Qed.

Lemma fdiv_correct (a b : float) : (fdiv a b == a / b)%Q.
Proof. unfold fdiv. apply Qred_correct. Qed.


Lemma fzero_spec (a : float) : fzero a = true <-> (a == 0)%Q.
Proof. unfold fzero. apply Qeq_bool_iff. Qed.

(** ** Dictionaries *)

Section DictFacts.
Context {K V : Type} (eqb : K -> K -> bool).
Hypothesis eqb_eq : forall a b, eqb a b = true <-> a = b.

Lemma dict_get_set_same (k : K) (v : V) (d : list (K * V)) :
  dict_get eqb k (dict_set eqb k v d) = Some v.
Proof using eqb_eq.
  induction d as [|[k' v'] d IH]; simpl.
  - replace (eqb k k) with true; [reflexivity|].
    symmetry. apply eqb_eq. reflexivity.
  - destruct (eqb k k') eqn:E; simpl; rewrite E; [reflexivity | exact IH].
Qed.

Lemma dict_get_set_other (k k' : K) (v : V) (d : list (K * V)) :
  eqb k k' = false ->
  dict_get eqb k (dict_set eqb k' v d) = dict_get eqb k d.
Proof using eqb_eq.
  intros Hne. induction d as [|[k'' v''] d IH]; simpl.
  - rewrite Hne. reflexivity.
  - destruct (eqb k' k'') eqn:E; simpl.
    + apply eqb_eq in E. subst k''. rewrite Hne. reflexivity.
    + destruct (eqb k k''); [reflexivity | exact IH].
Qed.
End DictFacts.

Lemma MetricType_eqb_eq (a b : MetricType) : MetricType_eqb a b = true <-> a = b.
Proof. destruct a, b; simpl; split; intros H; try reflexivity; discriminate. Qed.

Lemma TurnId_eqb_eq (a b : TurnId) : TurnId_eqb a b = true <-> a = b.
Proof.
  destruct a as [c1 m1], b as [c2 m2]. unfold TurnId_eqb. simpl.
  rewrite andb_true_iff, !Z.eqb_eq. split.
  - intros [-> ->]. reflexivity.
  - intros H. injection H as -> ->. split; reflexivity.
Qed.

(** ** Turn tracer: latencies of one turn *)

Lemma latency_spec (events : TurnEvents) (start stop : MetricType) :
  opt_Qeq (SimulationTracer.latency events start stop)
          (spec_latency events start stop).
Proof.
  unfold SimulationTracer.latency, spec_latency, dict_mem.
  destruct (dict_get MetricType_eqb start events) as [s|];
    destruct (dict_get MetricType_eqb stop events) as [e|]; simpl; trivial.
  apply fsub_correct.
Qed.

(** C7.  For a turn the tracer has events for, [_calculate_turn_metrics]
    returns metrics in which each of the eight defined latencies is the
    end kind's timestamp minus the start kind's when both kinds were
    recorded in the turn, and is absent ([None], which is not the number
    zero) as soon as one of the two is missing. *)
Theorem calculate_turn_metrics_latencies :
  forall (self : SimulationTracer.t) (turn : TurnId) (events : TurnEvents),
    dict_get TurnId_eqb turn (SimulationTracer.turn_events self) = Some events ->
    exists m,
      SimulationTracer._calculate_turn_metrics turn self = Some m /\
      forall k,
        opt_Qeq (metric_of k m)
                (spec_latency events (fst (defined_pair k)) (snd (defined_pair k)))
        /\ ((dict_get MetricType_eqb (fst (defined_pair k)) events = None \/
             dict_get MetricType_eqb (snd (defined_pair k)) events = None) ->
            metric_of k m = None).
Proof.
  intros self turn events Hturn.
  unfold SimulationTracer._calculate_turn_metrics. rewrite Hturn.
  eexists. split; [reflexivity|].
  intros k. split.
  - destruct k; simpl; apply latency_spec.
  - intros Habsent.
    assert (Hnone : forall a b,
               dict_get MetricType_eqb a events = None \/
               dict_get MetricType_eqb b events = None ->
               SimulationTracer.latency events a b = None).
    { intros a b [H|H]; unfold SimulationTracer.latency, dict_mem; rewrite H.
      - reflexivity.
      - rewrite andb_false_r. reflexivity. }
    destruct k; simpl in *; apply Hnone; exact Habsent.
Qed.

Example generate_latency_10_13 :
  option_map LatencyMetrics.llm_latency
    (SimulationTracer._calculate_turn_metrics (mkTurnId 1 9000) turn_10_13)
  = Some (Some 3%Q).
Proof. vm_compute. reflexivity. Qed.

Example generate_latency_without_end :
  option_map LatencyMetrics.llm_latency
    (SimulationTracer._calculate_turn_metrics (mkTurnId 1 9000) turn_10_only)
  = Some None.
Proof. vm_compute. reflexivity. Qed.

Lemma calculate_turn_metrics_latencies_witness :
  exists m,
    SimulationTracer._calculate_turn_metrics (mkTurnId 1 9000) turn_10_13 = Some m /\
    forall k,
      opt_Qeq (metric_of k m)
        (spec_latency
           [(TURN_START, 9%Q); (LLM_START, 10%Q); (LLM_END, 13%Q)]
           (fst (defined_pair k)) (snd (defined_pair k)))
      /\ ((dict_get MetricType_eqb (fst (defined_pair k))
             [(TURN_START, 9%Q); (LLM_START, 10%Q); (LLM_END, 13%Q)] = None \/
           dict_get MetricType_eqb (snd (defined_pair k))
             [(TURN_START, 9%Q); (LLM_START, 10%Q); (LLM_END, 13%Q)] = None) ->
          metric_of k m = None).
Proof.
  apply (calculate_turn_metrics_latencies turn_10_13 (mkTurnId 1 9000)).
  vm_compute. reflexivity.
Defined.

(** ** Turn tracer: starting a turn while one is open *)

Example tracer_turn_open_current :
  SimulationTracer.current_turn_id tracer_turn_open = Some (mkTurnId 1 1000).
Proof. vm_compute. reflexivity. Qed.

(** Starting turn 2 while turn 1 is open leaves the log with the two
    turn-start events and nothing else. *)
Example start_turn_twice_events :
  map (fun ev => (MetricEvent.event_type ev, MetricEvent.turn_id ev))
      (SimulationTracer.events
         (snd (SimulationTracer.start_turn 2%Q 2%Q tracer_turn_open)))
  = [(TURN_START, Some (mkTurnId 1 1000)); (TURN_START, Some (mkTurnId 2 2000))].
Proof. vm_compute. reflexivity. Qed.

(** C2, counterexample.  [start_turn] called with turn 1 open records no
    turn-end for turn 1. *)
Lemma start_turn_leaves_open_turn_unended : ~ start_turn_closes_open_turn.
Proof.
  intros H.
  specialize (H 2%Q 2%Q tracer_turn_open (mkTurnId 1 1000) eq_refl).
  vm_compute in H. discriminate H.
Qed.

(** The same through the two callers in [simulation.py]: the turn tracker
    opens a turn on a transcription, the VAD handler then starts another
    one, and the first turn never counts as completed. *)
Example speech_start_after_transcription :
  let tr1 := turn_tracker_on_transcription 1%Q 1%Q 1%Q
               (SimulationTracer.__init__ "Ira" None) in
  let tr2 := on_speech_started 2%Q 2%Q 2%Q 2%Q tr1 in
  SimulationTracer.current_turn_id tr1 = Some (mkTurnId 1 1000) /\
  SimulationTracer.current_turn_id tr2 = Some (mkTurnId 2 2000) /\
  turn_end_recorded (mkTurnId 1 1000) tr2 = false /\
  option_map Summary.total_turns
    (match SimulationTracer.get_summary tr2 with
     | Ok s => Some s
     | Raise _ => None
     end) = Some 0.
Proof. vm_compute. repeat split; reflexivity. Qed.

(** The turn tracker, for its part, ends the open turn itself before it
    calls [start_turn]. *)
Example transcription_after_transcription :
  let tr1 := turn_tracker_on_transcription 1%Q 1%Q 1%Q
               (SimulationTracer.__init__ "Ira" None) in
  let tr2 := turn_tracker_on_transcription 2%Q 3%Q 3%Q tr1 in
  turn_end_recorded (mkTurnId 1 1000) tr2 = true.
Proof. vm_compute. reflexivity. Qed.

(** C2, as amended.  [start_turn] allocates the next turn id, makes it the
    current turn and appends one turn-start event for it; it appends
    nothing else (so no turn-end for a turn that was open), keeps every
    event already in the log, and leaves the recorded events of every
    other turn as they were. *)
Theorem start_turn_opens_without_closing :
  forall (t_id t_ev : float) (self : SimulationTracer.t),
    let turn := mkTurnId (SimulationTracer.turn_counter self + 1)
                         (py_int (fmul t_id 1000%Q)) in
    let self' := snd (SimulationTracer.start_turn t_id t_ev self) in
    fst (SimulationTracer.start_turn t_id t_ev self) = turn /\
    SimulationTracer.current_turn_id self' = Some turn /\
    SimulationTracer.turn_counter self' = SimulationTracer.turn_counter self + 1 /\
    SimulationTracer.events self' =
      (SimulationTracer.events self ++
       [MetricEvent.mk TURN_START t_ev (SimulationTracer.bot_name self) []
                       (Some turn)])%list /\
    (forall other,
        other <> turn ->
        dict_get TurnId_eqb other (SimulationTracer.turn_events self') =
        dict_get TurnId_eqb other (SimulationTracer.turn_events self)) /\
    (forall cur,
        SimulationTracer.current_turn_id self = Some cur ->
        cur <> turn ->
        turn_end_recorded cur self' = turn_end_recorded cur self).
Proof.
  intros t_id t_ev self turn self'.
  subst self'. unfold SimulationTracer.start_turn,
    SimulationTracer._get_turn_id, SimulationTracer._record_event,
    SimulationTracer.set_current. simpl. fold turn.
  repeat split; try reflexivity.
  - intros other Hne.
    apply (dict_get_set_other TurnId_eqb TurnId_eqb_eq).
    destruct (TurnId_eqb other turn) eqn:E; [|reflexivity].
    apply TurnId_eqb_eq in E. contradiction.
  - intros cur _ Hne. unfold turn_end_recorded. simpl.
    rewrite existsb_app. simpl. rewrite orb_false_r. reflexivity.
Qed.

Lemma start_turn_opens_without_closing_witness :
  turn_end_recorded (mkTurnId 1 1000)
    (snd (SimulationTracer.start_turn 2%Q 2%Q tracer_turn_open))
  = turn_end_recorded (mkTurnId 1 1000) tracer_turn_open.
Proof.
  apply (start_turn_opens_without_closing 2%Q 2%Q tracer_turn_open).
  - vm_compute. reflexivity.
  - vm_compute. discriminate.
Defined.

(** ** Turn tracer: session means *)

(** The specification's example: [2.0, absent, 4.0] has mean 3.0. *)
Example average_2_absent_4 :
  SimulationTracer.average LatencyMetrics.vad_latency
    [only_vad 1 (Some 2%Q); only_vad 2 None; only_vad 3 (Some 4%Q)]
  = Ok 3%Q.
Proof. vm_compute. reflexivity. Qed.

Lemma py_sum_acc (l : list Q) (acc : Q) :
  (fold_left fadd l acc == acc + Qsum l)%Q.
Proof.
  revert acc. induction l as [|x l IH]; intros acc; simpl.
  - ring.
  - rewrite IH, fadd_correct. ring.
Qed.

Lemma or_zero_sum (get : LatencyMetrics.t -> option float)
    (ms : list LatencyMetrics.t) :
  (Qsum (map (fun m => SimulationTracer.or_zero (get m)) ms)
   == Qsum (present (map get ms)))%Q.
Proof.
  induction ms as [|m ms IH]; simpl; [reflexivity|].
  unfold SimulationTracer.or_zero at 1.
  destruct (get m) as [x|]; simpl.
  - destruct (fzero x) eqn:E.
    + apply fzero_spec in E. rewrite IH, E. reflexivity.
    + rewrite IH. reflexivity.
  - rewrite IH. ring.
Qed.

Lemma truthy_count (get : LatencyMetrics.t -> option float)
    (ms : list LatencyMetrics.t) :
  Forall (fun m => forall x, get m = Some x -> ~ (x == 0)%Q) ms ->
  length (List.filter (fun m => SimulationTracer.truthy (get m)) ms)
  = length (present (map get ms)).
Proof.
  induction 1 as [|m ms Hm _ IH]; simpl; [reflexivity|].
  unfold SimulationTracer.truthy at 1.
  destruct (get m) as [x|] eqn:E; simpl.
  - destruct (fzero x) eqn:Ez; simpl.
    + apply fzero_spec in Ez. exfalso. exact (Hm x eq_refl Ez).
    + rewrite IH. reflexivity.
  - exact IH.
Qed.

(** Where the code and the specification agree: when no present value is
    zero and there is at least one, [average] is the mean over the turns
    that have the metric. *)
Lemma average_of_nonzero (get : LatencyMetrics.t -> option float)
    (ms : list LatencyMetrics.t) :
  Forall (fun m => forall x, get m = Some x -> ~ (x == 0)%Q) ms ->
  present (map get ms) <> [] ->
  exists a,
    SimulationTracer.average get ms = Ok a /\
    opt_Qeq (Some a) (spec_mean (map get ms)).
Proof.
  intros Hnz Hne.
  unfold SimulationTracer.average, py_div, len.
  rewrite (truthy_count get ms Hnz).
  unfold spec_mean.
  destruct (present (map get ms)) as [|p ps] eqn:Ep; [contradiction|].
  assert (Hlen : (Z.of_nat (length (p :: ps)) =? 0) = false).
  { simpl length. apply Z.eqb_neq. lia. }
  rewrite Hlen. eexists. split; [reflexivity|].
  unfold opt_Qeq. rewrite fdiv_correct. unfold SimulationTracer.py_sum.
  rewrite py_sum_acc, or_zero_sum, Ep. unfold of_int, len.
  assert (E0 : (0 + Qsum (p :: ps) == Qsum (p :: ps))%Q) by ring.
  rewrite E0. reflexivity.
Qed.

(** C3, at the failing input.  The two completed turns have speech
    latencies 0 and 4, both present; the mean over the turns where the
    metric is present is 2, and [get_summary] reports 4: the turn whose
    latency is 0 is left out of the denominator. *)
Theorem get_summary_drops_zero_latency :
  map LatencyMetrics.vad_latency
      (SimulationTracer.all_metrics_of session_zero_latency)
    = [Some 0%Q; Some 4%Q] /\
  summary_field Summary.avg_vad
      (SimulationTracer.get_summary session_zero_latency)
    = Some (Some 4%Q) /\
  opt_Qeq (spec_mean [Some 0%Q; Some 4%Q]) (Some 2%Q).
Proof. vm_compute. repeat split; reflexivity. Qed.

Example get_summary_raises_without_speech :
  SimulationTracer.get_summary session_without_speech
  = Raise (mkExn ZeroDivisionError "division by zero").
Proof. vm_compute. reflexivity. Qed.

(** ** Evaluation summary *)

Example spec_scale_scores_8_6_true :
  spec_scale_scores results_8_6_true = [JInt 8; JInt 6].
Proof. reflexivity. Qed.

(** What the code selects instead: the boolean is among the scale scores. *)
Example scale_scores_8_6_true :
  SimpleLLMJudge.scale_scores results_8_6_true = [JInt 8; JInt 6; JBool true].
Proof. reflexivity. Qed.

(** C1, at the failing input.  For [scale=8, scale=6, boolean=true] the
    summary counts three scale scores and reports their mean
    (8 + 6 + 1) / 3 = 5.0, not 7.0; the pass rate is 100.0 as specified.
    For [boolean=true, boolean=false] the pass rate is 50.0 as specified,
    and the average scale score is 0.5 where the specification has it
    absent. *)
Theorem summary_counts_booleans_as_scale_scores :
  SimpleLLMJudge.summary
    (map CriterionResult.criterion results_8_6_true) results_8_6_true
    = EvalSummary.mk 3 3 1 (Some 5%Q) (Some 100%Q) /\
  SimpleLLMJudge.summary
    (map CriterionResult.criterion results_true_false) results_true_false
    = EvalSummary.mk 2 2 2 (Some (1 # 2)%Q) (Some 50%Q).
Proof. vm_compute. split; reflexivity. Qed.

(** With number scores only the summary is the one specified. *)
Example summary_8_6 :
  SimpleLLMJudge.summary
    [criterion_of "a" "scale"; criterion_of "b" "scale"]
    [result_with "scale" (JInt 8); result_with "scale" (JInt 6)]
    = EvalSummary.mk 2 2 0 (Some 7%Q) None.
Proof. vm_compute. reflexivity. Qed.

(** Rounding to two decimals and to one. *)
Example py_round_examples :
  py_round (20 # 3) 2 = (667 # 100)%Q /\
  py_round (1 # 8) 2 = (3 # 25)%Q /\
  py_round (200 # 3) 1 = (667 # 10)%Q.
Proof. vm_compute. repeat split; reflexivity. Qed.

(** ** Goal detector: failing safe *)

(** C9.  Whatever the conversation history, the goal description and the
    behaviour of the judgment service, [check_goal_met] returns and does
    not raise; and whenever the call, the parse of the reply or the
    reading of its fields fails with an exception [e], what it returns is
    not-met with confidence 0 and the reasoning
    ["Error during detection: "] followed by the text of [e].  The cases
    of a call that raises, of a reply that is not JSON, of a reply without
    text and of a JSON value that is not an object are spelled out. *)
Theorem check_goal_met_fails_safe :
  forall (float_of_str : string -> Result float) (repr : json -> string)
         (client : Client) (conversation_history : list HistoryEntry.t)
         (goal_description : option string),
    let prompt :=
      GoalDetector.build_prompt
        (GoalDetector.conversation_text_of conversation_history)
        goal_description in
    let check :=
      GoalDetector.check_goal_met float_of_str repr client
        conversation_history goal_description in
    let failed (text : string) :=
      Ok (GoalResult.mk false 0%Q ("Error during detection: " ++ text)) in
    raises check = false /\
    (forall e, GoalDetector.judge float_of_str repr client prompt = Raise e ->
               check = failed (exn_str e)) /\
    (forall e, client prompt = Raise e -> check = failed (exn_str e)) /\
    (forall err, client prompt = Ok (Malformed err) -> check = failed err) /\
    (client prompt = Ok NoText ->
     check = failed "the JSON object must be str, bytes or bytearray, not NoneType") /\
    (forall v, client prompt = Ok (Parsed v) ->
               (forall d, v <> JDict d) ->
               check = failed ("'" ++ type_name v
                               ++ "' object has no attribute 'get'")).
Proof.
  intros float_of_str repr client conversation_history goal_description
         prompt check failed.
  assert (Hjudge : forall e,
             GoalDetector.judge float_of_str repr client prompt = Raise e ->
             check = failed (exn_str e)).
  { intros e He. subst check failed. unfold GoalDetector.check_goal_met.
    fold prompt. rewrite He. reflexivity. }
  split; [|split; [exact Hjudge|]].
  - subst check. unfold GoalDetector.check_goal_met, try_except.
    destruct (GoalDetector.judge _ _ _ _); reflexivity.
  - repeat split.
    + intros e He. apply Hjudge. unfold GoalDetector.judge. rewrite He.
      reflexivity.
    + intros err He.
      apply (Hjudge (mkExn JSONDecodeError err)).
      unfold GoalDetector.judge. rewrite He. reflexivity.
    + intros He.
      apply (Hjudge (mkExn TypeError
               "the JSON object must be str, bytes or bytearray, not NoneType")).
      unfold GoalDetector.judge. rewrite He. reflexivity.
    + intros v He Hv.
      apply (Hjudge (mkExn AttributeError
               ("'" ++ type_name v ++ "' object has no attribute 'get'"))).
      unfold GoalDetector.judge. rewrite He. simpl.
      destruct v; try reflexivity. exfalso. exact (Hv d eq_refl).
Qed.

Lemma check_goal_met_fails_safe_witness :
  GoalDetector.check_goal_met float_of_str_sample repr_sample client_down
    history_sample (Some "say goodbye")
  = Ok (GoalResult.mk false 0%Q
          "Error during detection: 503 Service Unavailable").
Proof.
  apply (proj1 (proj2 (proj2
           (check_goal_met_fails_safe float_of_str_sample repr_sample
              client_down history_sample (Some "say goodbye"))))
           (mkExn ServiceError "503 Service Unavailable")).
  reflexivity.
Defined.

(** A reply whose fields cannot be coerced is a failure like the others. *)
Example check_goal_met_bad_confidence :
  GoalDetector.check_goal_met float_of_str_sample repr_sample
    (fun _ => Ok (Parsed (JDict [("goal_met", JBool true);
                                 ("confidence", JStr "high")])))
    history_sample None
  = Ok (GoalResult.mk false 0%Q
          "Error during detection: could not convert string to float: 'high'").
Proof. vm_compute. reflexivity. Qed.

Example check_goal_met_well_formed :
  GoalDetector.check_goal_met float_of_str_sample repr_sample
    (fun _ => Ok (Parsed (JDict [("goal_met", JBool true);
                                 ("confidence", JFloat (9 # 10));
                                 ("reasoning", JStr "both said goodbye")])))
    history_sample None
  = Ok (GoalResult.mk true (9 # 10)%Q "both said goodbye").
Proof. vm_compute. reflexivity. Qed.

(** ** Goal monitor: the decision rule *)





(** Three spoken turns, then a judgment with confidence 0.70: the goal is
    not met and no stop signal is written; with 0.71 it is. *)
Example confidence_070_not_met :
  let '(self, w) :=
    run_sample (tts 3 (env_sample (client_replying true (70 # 100)) true))
               tracker_sample world_empty in
  OutputTranscriptTracker.goal_met self = false /\
  World.fs w !! "sim/bot1_stop_signal.json" = None /\
  map fst (World.requests w) = [3].
Proof. vm_compute. repeat split; reflexivity. Qed.

Example confidence_071_met :
  let '(self, w) :=
    run_sample (tts 3 (env_sample (client_replying true (71 # 100)) true))
               tracker_sample world_empty in
  OutputTranscriptTracker.goal_met self = true /\
  World.fs w !! "sim/bot1_stop_signal.json"
    = Some (StopSignalFile
              (StopSignal.mk "goal_met" None
                 (Some (GoalResult.mk true (71 # 100)%Q "done")))).
Proof. vm_compute. repeat split; reflexivity. Qed.

(** ** Goal monitor: the stop-signal file *)

(** What one frame can do to durable storage: nothing, or put a goal-met
    marker at the tracker's own stop-signal path. *)
Lemma process_frame_fs
    (float_of_str : string -> Result float) (repr : json -> string)
    (env : Env.t) (frame : Frame) (self : OutputTranscriptTracker.t)
    (w : World.t) :
  let w' :=
    snd (OutputTranscriptTracker.process_frame float_of_str repr env frame
           self w) in
  World.fs w' = World.fs w \/
  exists path result,
    OutputTranscriptTracker.stop_signal_path self = Some path /\
    goal_decision result = true /\
    World.fs w' = <[path := goal_met_marker result]> (World.fs w).
Proof.
  destruct frame as [text|text|user text|]; simpl; try (left; reflexivity).
  - unfold OutputTranscriptTracker.on_llm_text.
    destruct (String.eqb text ""); [left; reflexivity|].
    destruct (World.tracer w) as [tr|]; [|left; reflexivity].
    destruct (SimulationTracer.current_turn_id tr); [|left; reflexivity].
    destruct (existsb _ _); left; reflexivity.
  - unfold OutputTranscriptTracker.on_tts_text.
    destruct (String.eqb text ""); [left; reflexivity|].
    destruct (OutputTranscriptTracker.check_due _); [|left; reflexivity].
    unfold OutputTranscriptTracker.goal_check.
    destruct (GoalDetector.check_goal_met _ _ _ _ _) as [result|e];
      [|left; reflexivity].
    destruct (goal_decision result) eqn:Hdec; [|left; reflexivity].
    simpl.
    destruct (OutputTranscriptTracker.stop_signal_path self) as [path|] eqn:Hp;
      [|left; reflexivity].
    unfold write_json. destruct (Env.can_write env); simpl.
    + right. exists path, result. repeat split; assumption.
    + left. reflexivity.
Qed.

(** C4, counterexample.  With the operator's marker in place, the third
    spoken turn and a positive judgment replace it by a goal-met marker. *)
Lemma goal_marker_overwrites_existing : ~ stop_signal_write_once.
Proof.
  intros H.
  specialize (H float_of_str_sample repr_sample
                (env_sample (client_replying true (9 # 10)) true)
                (TTSTextFrame "Sure.") tracker_two_turns world_with_marker
                "sim/bot1_stop_signal.json" user_requested_marker eq_refl).
  vm_compute in H. discriminate H.
Qed.

(** Two positive detections in one run, three turns apart: the second
    judgment replaces the first in the same file. *)
Example second_detection_rewrites_marker :
  let steps :=
    (tts 3 (env_sample (client_replying true (8 # 10)) true)
     ++ tts 3 (env_sample (client_replying true (9 # 10)) true))%list in
  let '(self, w) := run_sample steps tracker_sample world_empty in
  map fst (World.requests w) = [3; 6] /\
  World.fs w !! "sim/bot1_stop_signal.json"
    = Some (goal_met_marker (GoalResult.mk true (9 # 10)%Q "done")) /\
  size (World.fs w) = 1%nat.
Proof. vm_compute. repeat split; reflexivity. Qed.

(** What one frame does to durable storage, with its cause: nothing, or,
    at a spoken turn where a check is due, the judgment is positive and
    the file can be written, the marker of that judgment put at the
    tracker's stop-signal path. *)
Lemma process_frame_storage
    (float_of_str : string -> Result float) (repr : json -> string)
    (env : Env.t) (frame : Frame) (self : OutputTranscriptTracker.t)
    (w : World.t) :
  let w' :=
    snd (OutputTranscriptTracker.process_frame float_of_str repr env frame
           self w) in
  World.fs w' = World.fs w \/
  exists text path result,
    frame = TTSTextFrame text /\ text <> "" /\
    OutputTranscriptTracker.goal_detector self = true /\
    OutputTranscriptTracker.last_goal_check_turn self + 3
      <= OutputTranscriptTracker.turn_count self + 1 /\
    OutputTranscriptTracker.stop_signal_path self = Some path /\
    Env.can_write env = true /\
    judgment_after float_of_str repr env text self w = Ok result /\
    goal_decision result = true /\
    World.fs w' = <[path := goal_met_marker result]> (World.fs w).
Proof.
  destruct frame as [text|text|user text|]; simpl; try (left; reflexivity).
  - unfold OutputTranscriptTracker.on_llm_text.
    destruct (String.eqb text ""); [left; reflexivity|].
    destruct (World.tracer w) as [tr|]; [|left; reflexivity].
    destruct (SimulationTracer.current_turn_id tr); [|left; reflexivity].
    destruct (existsb _ _); left; reflexivity.
  - unfold OutputTranscriptTracker.on_tts_text.
    destruct (String.eqb_spec text "") as [Ht|Ht]; [left; reflexivity|].
    destruct (OutputTranscriptTracker.check_due _) eqn:Hdue;
      [|left; reflexivity].
    unfold OutputTranscriptTracker.check_due in Hdue. simpl in Hdue.
    apply andb_true_iff in Hdue. destruct Hdue as [Hdet Hdue].
    apply Z.leb_le in Hdue.
    unfold OutputTranscriptTracker.goal_check. simpl.
    fold (judgment_after float_of_str repr env text self w).
    destruct (judgment_after float_of_str repr env text self w)
      as [result|e] eqn:Hres; [|left; reflexivity].
    destruct (goal_decision result) eqn:Hdec; [|left; reflexivity].
    destruct (OutputTranscriptTracker.stop_signal_path self) as [path|] eqn:Hp;
      [|left; reflexivity].
    unfold write_json. destruct (Env.can_write env) eqn:Hw; simpl.
    + right. exists text, path, result. repeat split; assumption.
    + left. reflexivity.
Qed.

(** C4, as amended.  Processing a frame never deletes a file and changes
    no path other than the tracker's one stop-signal path.  The file is
    not write-once: at every spoken turn where a check is due, the
    judgment is positive and the write succeeds, that path holds the
    goal-met marker with that judgment afterwards, whatever it held
    before.  Nothing else changes the path. *)
Theorem process_frame_keeps_other_files :
  forall (float_of_str : string -> Result float) (repr : json -> string)
         (env : Env.t) (frame : Frame) (self : OutputTranscriptTracker.t)
         (w : World.t),
    let w' :=
      snd (OutputTranscriptTracker.process_frame float_of_str repr env frame
             self w) in
    (forall path, is_Some (World.fs w !! path) -> is_Some (World.fs w' !! path)) /\
    (forall path,
        OutputTranscriptTracker.stop_signal_path self <> Some path ->
        World.fs w' !! path = World.fs w !! path) /\
    (forall text result path,
        frame = TTSTextFrame text -> text <> "" ->
        OutputTranscriptTracker.goal_detector self = true ->
        OutputTranscriptTracker.last_goal_check_turn self + 3
          <= OutputTranscriptTracker.turn_count self + 1 ->
        judgment_after float_of_str repr env text self w = Ok result ->
        goal_decision result = true ->
        OutputTranscriptTracker.stop_signal_path self = Some path ->
        Env.can_write env = true ->
        World.fs w' = <[path := goal_met_marker result]> (World.fs w) /\
        World.fs w' !! path = Some (goal_met_marker result)) /\
    (forall path,
        OutputTranscriptTracker.stop_signal_path self = Some path ->
        World.fs w' !! path = World.fs w !! path \/
        exists text result,
          frame = TTSTextFrame text /\
          judgment_after float_of_str repr env text self w = Ok result /\
          goal_decision result = true /\
          World.fs w' !! path = Some (goal_met_marker result)).
Proof.
  intros float_of_str repr env frame self w w'.
  assert (Hpos : forall text result path,
            frame = TTSTextFrame text -> text <> "" ->
            OutputTranscriptTracker.goal_detector self = true ->
            OutputTranscriptTracker.last_goal_check_turn self + 3
              <= OutputTranscriptTracker.turn_count self + 1 ->
            judgment_after float_of_str repr env text self w = Ok result ->
            goal_decision result = true ->
            OutputTranscriptTracker.stop_signal_path self = Some path ->
            Env.can_write env = true ->
            World.fs w' = <[path := goal_met_marker result]> (World.fs w)).
  { intros text result path -> Ht Hdet Hdue Hres Hdec Hp Hw. subst w'.
    unfold judgment_after in Hres.
    cbn [OutputTranscriptTracker.process_frame].
    unfold OutputTranscriptTracker.on_tts_text.
    destruct (String.eqb_spec text "") as [E|_]; [contradiction|].
    assert (Hcheck : OutputTranscriptTracker.check_due
                       (OutputTranscriptTracker.set_goal
                          (OutputTranscriptTracker.goal_met self)
                          (OutputTranscriptTracker.last_goal_check_turn self)
                          (OutputTranscriptTracker.turn_count self + 1) self)
                     = true).
    { unfold OutputTranscriptTracker.check_due. simpl. rewrite Hdet. simpl.
      apply Z.leb_le. exact Hdue. }
    rewrite Hcheck. unfold OutputTranscriptTracker.goal_check. simpl.
    rewrite Hres, Hdec, Hp. unfold write_json. rewrite Hw. reflexivity. }
  destruct (process_frame_storage float_of_str repr env frame self w)
    as [Hsame | (text & p & result & Hf & Ht & Hdet & Hdue & Hp & Hw & Hres
                 & Hdec & Hins)];
    fold w' in Hsame || fold w' in Hins.
  - split; [|split; [|split]].
    + rewrite Hsame. auto.
    + rewrite Hsame. auto.
    + intros text result path Hf Ht Hdet Hdue Hres Hdec Hp Hw.
      pose proof (Hpos text result path Hf Ht Hdet Hdue Hres Hdec Hp Hw) as E.
      split; [exact E|]. rewrite E. apply lookup_insert_eq.
    + rewrite Hsame. auto.
  - split; [|split; [|split]].
    + rewrite Hins. intros path Hsome. destruct (decide (p = path)) as [->|Hne].
      * rewrite lookup_insert_eq. eexists. reflexivity.
      * rewrite lookup_insert_ne by exact Hne. exact Hsome.
    + rewrite Hins. intros path Hother. apply lookup_insert_ne. congruence.
    + intros text' result' path Hf' Ht' Hdet' Hdue' Hres' Hdec' Hp' Hw'.
      pose proof (Hpos text' result' path Hf' Ht' Hdet' Hdue' Hres' Hdec' Hp'
                    Hw') as E.
      split; [exact E|]. rewrite E. apply lookup_insert_eq.
    + intros path Hpath. right. exists text, result.
      split; [exact Hf|]. split; [exact Hres|]. split; [exact Hdec|].
      assert (p = path) as -> by congruence.
      rewrite Hins. apply lookup_insert_eq.
Qed.

Lemma process_frame_keeps_other_files_witness :
  World.fs world_with_marker !! "sim/bot1_stop_signal.json"
    = Some user_requested_marker /\
  World.fs
    (snd (OutputTranscriptTracker.process_frame float_of_str_sample
            repr_sample (env_sample (client_replying true (9 # 10)) true)
            (TTSTextFrame "Sure.") tracker_two_turns world_with_marker))
    !! "sim/bot1_stop_signal.json"
    = Some (goal_met_marker (GoalResult.mk true (9 # 10)%Q "done")).
Proof.
  split; [reflexivity|].
  apply (proj1 (proj2 (proj2
           (process_frame_keeps_other_files float_of_str_sample repr_sample
              (env_sample (client_replying true (9 # 10)) true)
              (TTSTextFrame "Sure.") tracker_two_turns world_with_marker)))
           "Sure." (GoalResult.mk true (9 # 10)%Q "done")
           "sim/bot1_stop_signal.json").
  - reflexivity.
  - discriminate.
  - reflexivity.
  - vm_compute. discriminate.
  - vm_compute. reflexivity.
  - vm_compute. reflexivity.
  - reflexivity.
  - reflexivity.
Defined.

(** ** Goal monitor: cadence of the checks *)

(** C5, at the failing input.  The judgment service answers that the goal
    is met with confidence 0.9 and the stop-signal file cannot be written.
    The write raises inside the [try], the assignment to
    [last_goal_check_turn] that follows it is skipped, and the check made
    at the third spoken turn is made again at the fourth. *)
Theorem goal_check_repeats_after_failed_write :
  let '(self, w) :=
    run_sample (tts 4 (env_sample (client_replying true (9 # 10)) false))
               tracker_sample world_empty in
  map fst (World.requests w) = [3; 4] /\
  OutputTranscriptTracker.last_goal_check_turn self = 0 /\
  OutputTranscriptTracker.turn_count self = 4.
Proof. vm_compute. repeat split; reflexivity. Qed.

(** With a writable stop-signal path the same run checks once. *)
Example goal_check_once_when_written :
  let '(self, w) :=
    run_sample (tts 4 (env_sample (client_replying true (9 # 10)) true))
               tracker_sample world_empty in
  map fst (World.requests w) = [3] /\
  OutputTranscriptTracker.last_goal_check_turn self = 3.
Proof. vm_compute. repeat split; reflexivity. Qed.

Lemma spaced_snoc (l : list Z) (t : Z) :
  spaced l -> Forall (fun x => x + 3 <= t) l -> spaced (l ++ [t]).
Proof.
  induction l as [|a l IH]; intros Hs Hall; simpl; [exact I|].
  inversion Hall as [|? ? Ha Hl]; subst.
  destruct l as [|b l']; simpl.
  - split; [exact Ha | exact I].
  - simpl in Hs. destruct Hs as [Hab Hs].
    split; [exact Hab|]. apply IH; assumption.
Qed.

Lemma check_goal_met_returns
    (float_of_str : string -> Result float) (repr : json -> string)
    (client : Client) (history : list HistoryEntry.t) (goal : option string) :
  exists result,
    GoalDetector.check_goal_met float_of_str repr client history goal = Ok result.
Proof.
  unfold GoalDetector.check_goal_met, try_except.
  destruct (GoalDetector.judge _ _ _ _); eexists; reflexivity.
Qed.

Lemma process_frame_stop_signal_path
    (float_of_str : string -> Result float) (repr : json -> string)
    (env : Env.t) (frame : Frame) (self : OutputTranscriptTracker.t)
    (w : World.t) :
  OutputTranscriptTracker.stop_signal_path
    (fst (OutputTranscriptTracker.process_frame float_of_str repr env frame
            self w))
  = OutputTranscriptTracker.stop_signal_path self.
Proof.
  destruct frame as [text|text|user text|]; simpl; try reflexivity.
  - unfold OutputTranscriptTracker.on_llm_text.
    destruct (String.eqb text ""); [reflexivity|].
    destruct (World.tracer w) as [tr|]; [|reflexivity].
    destruct (SimulationTracer.current_turn_id tr); [|reflexivity].
    destruct (existsb _ _); reflexivity.
  - unfold OutputTranscriptTracker.on_tts_text.
    destruct (String.eqb text ""); [reflexivity|].
    destruct (OutputTranscriptTracker.check_due _); [|reflexivity].
    unfold OutputTranscriptTracker.goal_check.
    destruct (GoalDetector.check_goal_met _ _ _ _ _) as [result|e];
      [|reflexivity].
    destruct (goal_decision result); [|reflexivity]. simpl.
    destruct (OutputTranscriptTracker.stop_signal_path self) as [path|] eqn:Hp;
      simpl; [|exact Hp].
    destruct (write_json _ _ _ _); simpl; exact Hp.
Qed.

Lemma process_frame_cadence
    (float_of_str : string -> Result float) (repr : json -> string)
    (env : Env.t) (frame : Frame) (self : OutputTranscriptTracker.t)
    (w : World.t) :
  Env.can_write env = true \/ OutputTranscriptTracker.stop_signal_path self = None ->
  cadence_inv self w ->
  cadence_inv
    (fst (OutputTranscriptTracker.process_frame float_of_str repr env frame self w))
    (snd (OutputTranscriptTracker.process_frame float_of_str repr env frame self w)).
Proof.
  intros Hwrite [Hsp Hle].
  destruct frame as [text|text|user text|]; simpl; try (split; assumption).
  - unfold OutputTranscriptTracker.on_llm_text.
    destruct (String.eqb text ""); [split; assumption|].
    destruct (World.tracer w) as [tr|]; [|split; assumption].
    destruct (SimulationTracer.current_turn_id tr); [|split; assumption].
    destruct (existsb _ _); split; assumption.
  - unfold OutputTranscriptTracker.on_tts_text.
    destruct (String.eqb text ""); [split; assumption|].
    destruct (OutputTranscriptTracker.check_due _) eqn:Hdue;
      [|split; assumption].
    unfold OutputTranscriptTracker.check_due in Hdue. simpl in Hdue.
    apply andb_true_iff in Hdue. destruct Hdue as [_ Hdue].
    apply Z.leb_le in Hdue.
    assert (Hgap : Forall
              (fun x => x + 3 <= OutputTranscriptTracker.turn_count self + 1)
              (map fst (World.requests w))).
    { eapply List.Forall_impl; [|exact Hle]. simpl. intros x Hx. lia. }
    assert (Hnew : cadence_inv
              (OutputTranscriptTracker.set_goal true
                 (OutputTranscriptTracker.turn_count self + 1)
                 (OutputTranscriptTracker.turn_count self + 1) self)
              (World.mk (World.transcript w) (World.tracer w) (World.fs w)
                 (World.requests w
                  ++ [(OutputTranscriptTracker.turn_count self + 1, "")]))).
    { split; simpl; rewrite map_app; simpl.
      - apply spaced_snoc; assumption.
      - apply Forall_app. split.
        + eapply List.Forall_impl; [|exact Hgap]. simpl. intros x Hx. lia.
        + constructor; [lia | constructor]. }
    destruct Hnew as [Hsp' Hle']. simpl in Hsp', Hle'.
    rewrite map_app in Hsp', Hle'. simpl in Hsp', Hle'.
    unfold OutputTranscriptTracker.goal_check. simpl.
    destruct (check_goal_met_returns float_of_str repr (Env.client env)
                (OutputTranscriptTracker.history_of
                   (add_to_transcript (Env.now_str env)
                      (OutputTranscriptTracker.bot_name self) text "response"
                      (World.transcript w)))
                (OutputTranscriptTracker.goal_description self))
      as [result Hres].
    rewrite Hres.
    destruct (goal_decision result).
    + destruct (OutputTranscriptTracker.stop_signal_path self) as [path|] eqn:Hp.
      * destruct Hwrite as [Hw | Hnone]; [|discriminate Hnone].
        unfold write_json. rewrite Hw. simpl.
        split; simpl; rewrite map_app; simpl; assumption.
      * split; simpl; rewrite map_app; simpl; assumption.
    + split; simpl; rewrite map_app; simpl; assumption.
Qed.

(** Where the code and the specification agree: in a run in which no write
    of the stop-signal file fails, any two successive checks are at least
    three spoken turns apart. *)
Lemma run_cadence
    (float_of_str : string -> Result float) (repr : json -> string)
    (steps : list (Env.t * Frame)) :
  forall (self : OutputTranscriptTracker.t) (w : World.t),
    Forall (fun step => Env.can_write (fst step) = true) steps ->
    cadence_inv self w ->
    spaced (map fst
              (World.requests
                 (snd (OutputTranscriptTracker.run float_of_str repr steps
                         self w)))).
Proof.
  induction steps as [|[env frame] steps IH]; intros self w Hall Hinv; simpl.
  - exact (proj1 Hinv).
  - inversion Hall as [|? ? Hw Hrest]; subst. simpl in Hw.
    pose proof (process_frame_cadence float_of_str repr env frame self w
                  (or_introl Hw) Hinv) as Hstep.
    destruct (OutputTranscriptTracker.process_frame float_of_str repr env
                frame self w) as [self' w'].
    apply IH; assumption.
Qed.

(** ** Transcript merger: order of the merged conversation *)

(** The order of timestamps: strings compared character by character. *)
Lemma string_compare_refl (s : string) : String.compare s s = Eq.
Proof.
  induction s as [|c s IH]; simpl; [reflexivity|].
  unfold Ascii.compare. rewrite N.compare_refl. exact IH.
Qed.

Lemma string_compare_lt_trans (a b c : string) :
  String.compare a b = Lt -> String.compare b c = Lt -> String.compare a c = Lt.
Proof.
  revert b c. induction a as [|x a IH]; intros [|y b] [|z c]; simpl;
    try discriminate; try reflexivity.
  unfold Ascii.compare.
  destruct (N.compare_spec (N_of_ascii x) (N_of_ascii y)) as [Hxy|Hxy|Hxy];
    try discriminate;
    destruct (N.compare_spec (N_of_ascii y) (N_of_ascii z)) as [Hyz|Hyz|Hyz];
    try discriminate; intros H1 H2.
  - rewrite Hxy, Hyz, N.compare_refl. exact (IH b c H1 H2).
  - rewrite Hxy. apply N.compare_lt_iff in Hyz. rewrite Hyz. reflexivity.
  - rewrite <- Hyz. apply N.compare_lt_iff in Hxy. rewrite Hxy. reflexivity.
  - assert (Hxz : (N_of_ascii x < N_of_ascii z)%N) by (eapply N.lt_trans; eassumption).
    apply N.compare_lt_iff in Hxz. rewrite Hxz. reflexivity.
Qed.

Lemma string_leb_refl (s : string) : String.leb s s = true.
Proof. unfold String.leb. rewrite string_compare_refl. reflexivity. Qed.

Lemma string_leb_trans (a b c : string) :
  String.leb a b = true -> String.leb b c = true -> String.leb a c = true.
Proof.
  unfold String.leb.
  destruct (String.compare a b) eqn:Hab; try discriminate;
    destruct (String.compare b c) eqn:Hbc; try discriminate; intros _ _.
  - apply String.compare_eq_iff in Hab. subst. rewrite Hbc. reflexivity.
  - apply String.compare_eq_iff in Hab. subst. rewrite Hbc. reflexivity.
  - apply String.compare_eq_iff in Hbc. subst. rewrite Hab. reflexivity.
  - rewrite (string_compare_lt_trans a b c Hab Hbc). reflexivity.
Qed.

Lemma string_leb_false (a b : string) :
  String.leb a b = false -> String.leb b a = true /\ a <> b.
Proof.
  intros H. split.
  - destruct (String.leb_total a b) as [Hab|Hba]; congruence.
  - intros ->. rewrite string_leb_refl in H. discriminate.
Qed.

Lemma string_ltb_leb (a b : string) :
  String.ltb a b = true -> String.leb a b = true /\ String.leb b a = false.
Proof.
  unfold String.ltb, String.leb. rewrite (String.compare_antisym b a).
  destruct (String.compare a b); try discriminate. intros _. split; reflexivity.
Qed.

Lemma insert_by_timestamp_perm (e : MergedEntry.t) (l : list MergedEntry.t) :
  Permutation (e :: l) (insert_by_timestamp e l).
Proof.
  induction l as [|x l IH]; simpl; [reflexivity|].
  destruct (String.leb _ _); [reflexivity|].
  rewrite perm_swap. apply perm_skip. exact IH.
Qed.

Lemma sort_by_timestamp_perm (l : list MergedEntry.t) :
  Permutation l (sort_by_timestamp l).
Proof.
  induction l as [|x l IH]; simpl; [reflexivity|].
  rewrite <- insert_by_timestamp_perm. apply perm_skip. exact IH.
Qed.

Lemma insert_by_timestamp_sorted (e : MergedEntry.t) (l : list MergedEntry.t) :
  StronglySorted ts_le l -> StronglySorted ts_le (insert_by_timestamp e l).
Proof.
  induction 1 as [|x l Hs IH Hx]; simpl.
  - constructor; constructor.
  - destruct (String.leb (MergedEntry.timestamp e) (MergedEntry.timestamp x))
      eqn:Hex.
    + constructor; [constructor; assumption|].
      constructor; [exact Hex|].
      eapply List.Forall_impl; [|exact Hx].
      intros y Hxy. exact (string_leb_trans _ _ _ Hex Hxy).
    + constructor; [exact IH|].
      apply (Permutation_Forall (insert_by_timestamp_perm e l)).
      constructor; [|exact Hx].
      exact (proj1 (string_leb_false _ _ Hex)).
Qed.

Lemma sort_by_timestamp_sorted (l : list MergedEntry.t) :
  StronglySorted ts_le (sort_by_timestamp l).
Proof.
  induction l as [|x l IH]; simpl; [constructor|].
  apply insert_by_timestamp_sorted. exact IH.
Qed.

(** Inserting an entry puts it in front of the entries that carry its
    timestamp and does not disturb the others. *)
Lemma filter_insert_by_timestamp (t : string) (e : MergedEntry.t)
    (l : list MergedEntry.t) :
  List.filter (has_timestamp t) (insert_by_timestamp e l)
  = List.filter (has_timestamp t) (e :: l).
Proof.
  induction l as [|x l IH]; [reflexivity|].
  cbn [insert_by_timestamp].
  destruct (String.leb (MergedEntry.timestamp e) (MergedEntry.timestamp x))
    eqn:Hex; [reflexivity|].
  apply string_leb_false in Hex. destruct Hex as [_ Hne].
  cbn [List.filter] in *. rewrite IH.
  destruct (has_timestamp t e) eqn:He; destruct (has_timestamp t x) eqn:Hx;
    try reflexivity.
  unfold has_timestamp in He, Hx.
  apply String.eqb_eq in He. apply String.eqb_eq in Hx. congruence.
Qed.

(** Stability: the entries that share a timestamp are, after the sort, in
    the order they had before it. *)
Lemma filter_sort_by_timestamp (t : string) (l : list MergedEntry.t) :
  List.filter (has_timestamp t) (sort_by_timestamp l)
  = List.filter (has_timestamp t) l.
Proof.
  induction l as [|x l IH]; [reflexivity|].
  cbn [sort_by_timestamp fold_right]. fold (sort_by_timestamp l).
  rewrite filter_insert_by_timestamp. cbn [List.filter]. rewrite IH.
  reflexivity.
Qed.

Lemma filter_has_own_timestamp (e : MergedEntry.t) (l : list MergedEntry.t) :
  List.filter (has_timestamp (MergedEntry.timestamp e)) (e :: l)
  = e :: List.filter (has_timestamp (MergedEntry.timestamp e)) l.
Proof.
  cbn [List.filter]. unfold has_timestamp at 1. rewrite String.eqb_refl.
  reflexivity.
Qed.

Lemma filter_cons_in (t : string) (e : MergedEntry.t)
    (l l' : list MergedEntry.t) :
  List.filter (has_timestamp t) l = e :: l' -> In e l.
Proof.
  intros H. apply (proj1 (filter_In (has_timestamp t) e l)).
  rewrite H. left. reflexivity.
Qed.

Lemma sorted_head_le (a x : MergedEntry.t) (l : list MergedEntry.t) :
  StronglySorted ts_le (a :: l) -> In x (a :: l) -> ts_le a x.
Proof.
  intros Hs [<-|Hin].
  - apply string_leb_refl.
  - apply StronglySorted_inv in Hs. destruct Hs as [_ Hall].
    rewrite List.Forall_forall in Hall. exact (Hall x Hin).
Qed.

(** A stable sort has one result: two sorted lists in which the entries
    of every timestamp come in the same order are the same list.  Hence
    [sort_by_timestamp] is what any stable sort on the timestamp
    returns. *)
Lemma stable_sort_unique (l1 l2 : list MergedEntry.t) :
  StronglySorted ts_le l1 ->
  StronglySorted ts_le l2 ->
  (forall t, List.filter (has_timestamp t) l1 = List.filter (has_timestamp t) l2) ->
  l1 = l2.
Proof.
  revert l2. induction l1 as [|a l1 IH]; intros [|b l2] Hs1 Hs2 Hf.
  - reflexivity.
  - specialize (Hf (MergedEntry.timestamp b)).
    rewrite filter_has_own_timestamp in Hf. discriminate Hf.
  - specialize (Hf (MergedEntry.timestamp a)).
    rewrite filter_has_own_timestamp in Hf. discriminate Hf.
  - assert (Hts : MergedEntry.timestamp a = MergedEntry.timestamp b).
    { apply String.leb_antisym.
      - apply (sorted_head_le a b l1 Hs1).
        apply (filter_cons_in (MergedEntry.timestamp b) b (a :: l1)
                 (List.filter (has_timestamp (MergedEntry.timestamp b)) l2)).
        rewrite Hf. apply filter_has_own_timestamp.
      - apply (sorted_head_le b a l2 Hs2).
        apply (filter_cons_in (MergedEntry.timestamp a) a (b :: l2)
                 (List.filter (has_timestamp (MergedEntry.timestamp a)) l1)).
        rewrite <- Hf. apply filter_has_own_timestamp. }
    assert (Hab : a = b).
    { pose proof (Hf (MergedEntry.timestamp a)) as H.
      rewrite filter_has_own_timestamp in H. rewrite Hts in H at 2.
      rewrite filter_has_own_timestamp in H. congruence. }
    subst b. f_equal.
    apply StronglySorted_inv in Hs1. apply StronglySorted_inv in Hs2.
    apply IH; [tauto | tauto |].
    intros t. specialize (Hf t). cbn [List.filter] in Hf.
    destruct (has_timestamp t a); congruence.
Qed.

Lemma sort_by_timestamp_is_the_stable_sort (l sorted : list MergedEntry.t) :
  StronglySorted ts_le sorted ->
  (forall t, List.filter (has_timestamp t) sorted = List.filter (has_timestamp t) l) ->
  sorted = sort_by_timestamp l.
Proof.
  intros Hs Hf. apply stable_sort_unique.
  - exact Hs.
  - apply sort_by_timestamp_sorted.
  - intros t. rewrite Hf, filter_sort_by_timestamp. reflexivity.
Qed.

(** ** Transcript merger: roles of the simplified projection *)

Lemma simplified_messages_roles (bot1_name bot2_name : string)
    (l : list MergedEntry.t) :
  Forall (fun e => MergedEntry.bot e = bot1_name \/ MergedEntry.bot e = bot2_name) l ->
  simplified_messages bot1_name bot2_name l
  = map (fun e => SimplifiedMessage.mk (role_of bot1_name (MergedEntry.bot e))
                                       (MergedEntry.message e))
        (List.filter is_conversation l).
Proof.
  induction 1 as [|e l He _ IH]; [reflexivity|].
  unfold simplified_messages in *. cbn [flat_map List.filter].
  rewrite IH. unfold simplify_entry.
  change (conversation_type (MergedEntry.type e)) with (is_conversation e).
  destruct (is_conversation e); [|reflexivity].
  cbn [map]. unfold role_of.
  destruct (String.eqb (MergedEntry.bot e) bot1_name) eqn:H1; [reflexivity|].
  destruct He as [He|He].
  - rewrite He, String.eqb_refl in H1. discriminate H1.
  - rewrite He, String.eqb_refl. reflexivity.
Qed.

Lemma tagged_bot (bot : string) (entries : list TranscriptEntry.t) :
  Forall (fun e => MergedEntry.bot e = bot) (map (tag bot) entries).
Proof. induction entries; constructor; [reflexivity | assumption]. Qed.

Example simplified_ira_chetan :
  simplified_messages "Ira" "Chetan"
    (sort_by_timestamp (map (tag "Ira") ira_entries
                        ++ map (tag "Chetan") chetan_entries))
  = [SimplifiedMessage.mk "Bot 1" "Hello!";
     SimplifiedMessage.mk "Bot 2" "Hi.";
     SimplifiedMessage.mk "Bot 1" "How can I help?"].
Proof. vm_compute. reflexivity. Qed.

(** Entries with one timestamp stay in source order, first bot first. *)
Example merge_equal_timestamps :
  map MergedEntry.message
    (sort_by_timestamp
       (map (tag "Ira") [entry_at "10:00" "Ira" "response" "a1";
                         entry_at "10:00" "Ira" "response" "a2"]
        ++ map (tag "Chetan") [entry_at "09:59" "Chetan" "response" "b0";
                               entry_at "10:00" "Chetan" "response" "b1"]))
  = ["b0"; "a1"; "a2"; "b1"].
Proof. vm_compute. reflexivity. Qed.

(** ** Transcript merger: the function on storage *)

(** With both transcripts in place the merge writes the two artifacts. *)
Example merge_writes_both :
  let '((ok, message), fs) :=
    generate_unified_transcript true true session_sample storage_both in
  ok = true /\
  message = "Unified transcript saved to sim/unified_transcript.json. Simplified transcript saved to sim/simplified_transcript.json" /\
  option_map
    (fun f => match f with
              | UnifiedFile u =>
                  map MergedEntry.message (UnifiedTranscript.conversation u)
              | _ => []
              end)
    (fs !! "sim/unified_transcript.json")
  = Some ["Hello!"; "Hi."; "How can I help?"] /\
  option_map
    (fun f => match f with
              | SimplifiedFile s => SimplifiedTranscript.messages s
              | _ => []
              end)
    (fs !! "sim/simplified_transcript.json")
  = Some [SimplifiedMessage.mk "Bot 1" "Hello!";
          SimplifiedMessage.mk "Bot 2" "Hi.";
          SimplifiedMessage.mk "Bot 1" "How can I help?"].
Proof. vm_compute. repeat split; reflexivity. Qed.

(** On success the stored conversation is the sorted union of the two
    tagged entry lists, which ties the function to the properties of the
    sort above. *)
Lemma merge_body_success (w2 : bool) (ss : SessionState.t)
    (bot1_path bot2_path unified_path : string) (fs : gmap string file)
    (bot1_name bot2_name : string) (start1 end1 start2 end2 : option string)
    (entries1 entries2 : list TranscriptEntry.t) :
  fs !! bot1_path
    = Some (TranscriptFile
              (BotTranscript.mk (Some bot1_name) start1 end1 (Some entries1))) ->
  fs !! bot2_path
    = Some (TranscriptFile
              (BotTranscript.mk (Some bot2_name) start2 end2 (Some entries2))) ->
  let all_entries :=
    sort_by_timestamp (map (tag bot1_name) entries1
                       ++ map (tag bot2_name) entries2) in
  exists unified,
    UnifiedTranscript.conversation unified = all_entries /\
    UnifiedTranscript.total_turns unified = len all_entries /\
    fst (merge_body true w2 ss bot1_path bot2_path unified_path fs)
    = (if w2
       then Ok ("Unified transcript saved to " ++ unified_path
                ++ ". Simplified transcript saved to "
                ++ path_join (path_parent unified_path)
                             "simplified_transcript.json")
       else Raise (mkExn OSError
                     ("[Errno 13] Permission denied: '"
                      ++ path_join (path_parent unified_path)
                                   "simplified_transcript.json" ++ "'"))) /\
    snd (merge_body true w2 ss bot1_path bot2_path unified_path fs)
    = (if w2
       then <[path_join (path_parent unified_path) "simplified_transcript.json"
              := SimplifiedFile
                   (SimplifiedTranscript.mk (SessionState.simulation_id ss)
                      bot1_name bot2_name
                      (simplified_messages bot1_name bot2_name all_entries))]>
              (<[unified_path := UnifiedFile unified]> fs)
       else <[unified_path := UnifiedFile unified]> fs).
Proof.
  intros H1 H2 all_entries.
  unfold merge_body, load_transcript. rewrite H1, H2.
  assert (Ht1 : tag_entries (BotTranscript.mk (Some bot1_name) start1 end1
                               (Some entries1))
                = Ok (map (tag bot1_name) entries1)).
  { unfold tag_entries. simpl. destruct entries1; reflexivity. }
  assert (Ht2 : tag_entries (BotTranscript.mk (Some bot2_name) start2 end2
                               (Some entries2))
                = Ok (map (tag bot2_name) entries2)).
  { unfold tag_entries. simpl. destruct entries2; reflexivity. }
  cbn [bind]. rewrite Ht1, Ht2. cbn [bind bot_name_of BotTranscript.bot_name].
  fold all_entries. cbn [write_json].
  eexists. split; [|split; [|split]]; cycle 2.
  - destruct w2; reflexivity.
  - destruct w2; reflexivity.
  - reflexivity.
  - reflexivity.
Qed.

Lemma origin_tag (bot : string) (entries : list TranscriptEntry.t) :
  map origin (map (tag bot) entries) = sourced bot entries.
Proof.
  unfold sourced. rewrite map_map. apply map_ext.
  intros [t sp ty tx]. reflexivity.
Qed.

Lemma filter_at_time_origin (t : string) (l : list MergedEntry.t) :
  List.filter (at_time t) (map origin l)
  = map origin (List.filter (has_timestamp t) l).
Proof.
  induction l as [|e l IH]; [reflexivity|].
  cbn [map List.filter].
  change (at_time t (origin e)) with (has_timestamp t e).
  destruct (has_timestamp t e); cbn [map]; rewrite IH; reflexivity.
Qed.

(** C8.  When the merge runs on two transcripts that are in place and
    both artifacts can be written, it reports success and storage holds
    the unified and the simplified document.  The conversation of the
    unified document is a rearrangement of the entries of the first
    transcript followed by those of the second, each with its bot, in
    ascending order of timestamp; the entries that share a timestamp keep
    the order they had (those of one source among themselves, and the
    first source before the second); [total_turns] is their number.  The
    messages of the simplified document are the conversation entries of
    that merge, in the same order, each labelled by its originating bot
    only; when the two bot names differ the first bot is "Bot 1" and the
    second "Bot 2".  For entries at t1 and t3 from the first bot and t2
    from the second with t1 < t2 < t3 the merged order is t1, t2, t3. *)
Theorem merge_is_stable_sort_with_roles :
  forall (ss : SessionState.t) (fs : gmap string file)
         (bot1_path bot2_path unified_path : string)
         (bot1_name bot2_name : string) (start1 end1 start2 end2 : option string)
         (entries1 entries2 : list TranscriptEntry.t),
    path_given (SessionState.bot1_transcript_json ss) = Some bot1_path ->
    path_given (SessionState.bot2_transcript_json ss) = Some bot2_path ->
    path_given (SessionState.unified_transcript_path ss) = Some unified_path ->
    fs !! bot1_path
      = Some (TranscriptFile
                (BotTranscript.mk (Some bot1_name) start1 end1 (Some entries1))) ->
    fs !! bot2_path
      = Some (TranscriptFile
                (BotTranscript.mk (Some bot2_name) start2 end2 (Some entries2))) ->
    exists (unified : UnifiedTranscript.t) (simplified : SimplifiedTranscript.t),
      let conversation := UnifiedTranscript.conversation unified in
      fst (fst (generate_unified_transcript true true ss fs)) = true /\
      snd (generate_unified_transcript true true ss fs)
        = <[path_join (path_parent unified_path) "simplified_transcript.json"
            := SimplifiedFile simplified]>
            (<[unified_path := UnifiedFile unified]> fs) /\
      Permutation (sourced bot1_name entries1 ++ sourced bot2_name entries2)
                  (map origin conversation) /\
      StronglySorted ts_le conversation /\
      (forall t,
          List.filter (at_time t) (map origin conversation)
          = (List.filter (at_time t) (sourced bot1_name entries1)
             ++ List.filter (at_time t) (sourced bot2_name entries2))%list) /\
      UnifiedTranscript.total_turns unified = len conversation /\
      SimplifiedTranscript.messages simplified
        = map (fun e => SimplifiedMessage.mk
                          (role_of bot1_name (MergedEntry.bot e))
                          (MergedEntry.message e))
              (List.filter is_conversation conversation) /\
      (bot1_name <> bot2_name ->
       role_of bot1_name bot1_name = "Bot 1" /\
       role_of bot1_name bot2_name = "Bot 2") /\
      (forall e1 e2 e3,
          entries1 = [e1; e3] -> entries2 = [e2] ->
          String.ltb (TranscriptEntry.timestamp e1) (TranscriptEntry.timestamp e2) = true ->
          String.ltb (TranscriptEntry.timestamp e2) (TranscriptEntry.timestamp e3) = true ->
          map origin conversation
          = [(bot1_name, e1); (bot2_name, e2); (bot1_name, e3)]).
Proof.
  intros ss fs bot1_path bot2_path unified_path bot1_name bot2_name
         start1 end1 start2 end2 entries1 entries2 Hp1 Hp2 Hpu H1 H2.
  destruct (merge_body_success true ss bot1_path bot2_path unified_path fs
              bot1_name bot2_name start1 end1 start2 end2 entries1 entries2
              H1 H2) as (unified & Hconv & Hturns & Hfst & Hsnd).
  cbv zeta in Hconv, Hturns, Hsnd.
  set (all_entries := sort_by_timestamp (map (tag bot1_name) entries1
                                         ++ map (tag bot2_name) entries2)) in *.
  exists unified.
  exists (SimplifiedTranscript.mk (SessionState.simulation_id ss)
            bot1_name bot2_name
            (simplified_messages bot1_name bot2_name all_entries)).
  cbv zeta. rewrite Hconv.
  assert (Hgen : generate_unified_transcript true true ss fs
                 = match merge_body true true ss bot1_path bot2_path
                           unified_path fs with
                   | (Ok message, fs') => ((true, message), fs')
                   | (Raise e, fs') =>
                       ((false,
                         "Error generating unified transcript: " ++ exn_str e),
                        fs')
                   end).
  { unfold generate_unified_transcript. rewrite Hp1, Hp2, Hpu.
    unfold exists_. rewrite H1, H2. reflexivity. }
  rewrite Hgen.
  destruct (merge_body true true ss bot1_path bot2_path unified_path fs)
    as [res fs'] eqn:Hmb.
  simpl in Hfst, Hsnd. subst res fs'.
  assert (Hperm : Permutation (map (tag bot1_name) entries1
                               ++ map (tag bot2_name) entries2) all_entries)
    by apply sort_by_timestamp_perm.
  assert (Horigin : map origin (map (tag bot1_name) entries1
                                ++ map (tag bot2_name) entries2)
                    = (sourced bot1_name entries1
                       ++ sourced bot2_name entries2)%list).
  { rewrite map_app, !origin_tag. reflexivity. }
  split; [reflexivity|]. split; [reflexivity|].
  split; [rewrite <- Horigin; apply Permutation_map; exact Hperm|].
  split; [apply sort_by_timestamp_sorted|].
  split.
  { intros t. rewrite filter_at_time_origin. unfold all_entries.
    rewrite filter_sort_by_timestamp, List.filter_app, map_app.
    rewrite <- !filter_at_time_origin, !origin_tag. reflexivity. }
  split; [exact Hturns|].
  split; [|split].
  - cbn [SimplifiedTranscript.messages].
    apply simplified_messages_roles.
    apply (Permutation_Forall Hperm). apply Forall_app. split.
    + eapply List.Forall_impl; [|apply tagged_bot]. simpl. intros e He. left. exact He.
    + eapply List.Forall_impl; [|apply tagged_bot]. simpl. intros e He. right. exact He.
  - intros Hne. unfold role_of. rewrite String.eqb_refl.
    destruct (String.eqb_spec bot2_name bot1_name) as [H|H]; [congruence|].
    split; reflexivity.
  - intros e1 e2 e3 -> -> H12 H23.
    subst all_entries.
    apply string_ltb_leb in H12. apply string_ltb_leb in H23.
    destruct H12 as [H12 H21]. destruct H23 as [H23 H32].
    pose proof (string_leb_trans _ _ _ H12 H23) as H13.
    cbn. rewrite H32. cbn. rewrite H12.
    destruct e1, e2, e3. reflexivity.
Qed.

Lemma merge_is_stable_sort_with_roles_witness :
  exists (unified : UnifiedTranscript.t) (simplified : SimplifiedTranscript.t),
    snd (generate_unified_transcript true true session_sample storage_both)
      = <["sim/simplified_transcript.json" := SimplifiedFile simplified]>
          (<["sim/unified_transcript.json" := UnifiedFile unified]> storage_both) /\
    map origin (UnifiedTranscript.conversation unified)
      = [("Ira", entry_at "2026-01-01 10:00:00" "Ira" "response" "Hello!");
         ("Chetan", entry_at "2026-01-01 10:00:01" "Chetan" "response" "Hi.");
         ("Ira", entry_at "2026-01-01 10:00:02" "Ira" "response" "How can I help?")] /\
    (role_of "Ira" "Ira" = "Bot 1" /\ role_of "Ira" "Chetan" = "Bot 2").
Proof.
  destruct (merge_is_stable_sort_with_roles session_sample storage_both
              "sim/bot1_Ira_transcript.json" "sim/bot2_Chetan_transcript.json"
              "sim/unified_transcript.json" "Ira" "Chetan"
              (Some "2026-01-01 10:00:00") (Some "2026-01-01 10:05:00")
              (Some "2026-01-01 10:00:00") (Some "2026-01-01 10:05:00")
              ira_entries chetan_entries
              eq_refl eq_refl eq_refl eq_refl eq_refl)
    as (unified & simplified & _ & Hfs & _ & _ & _ & _ & _ & Hroles & Horder).
  exists unified, simplified.
  split; [exact Hfs|]. split.
  - apply (Horder (entry_at "2026-01-01 10:00:00" "Ira" "response" "Hello!")
                  (entry_at "2026-01-01 10:00:01" "Chetan" "response" "Hi.")
                  (entry_at "2026-01-01 10:00:02" "Ira" "response" "How can I help?"));
      reflexivity.
  - apply Hroles. discriminate.
Defined.

(** ** Transcript merger: a source that is missing or unreadable *)

Lemma load_transcript_readable (fs : gmap string file) (path : string) (f : file) :
  fs !! path = Some f -> readable f = true ->
  exists data, load_transcript fs path = Ok data.
Proof.
  intros Hf Hr. unfold load_transcript. rewrite Hf.
  destruct f; try discriminate Hr; eexists; reflexivity.
Qed.

Example merge_reports_when_a_source_is_missing :
  generate_unified_transcript true true session_sample storage_only_second
    = ((false, "Bot transcript files not found yet"), storage_only_second) /\
  generate_unified_transcript true true session_sample storage_only_first
    = ((false, "Bot transcript files not found yet"), storage_only_first).
Proof. vm_compute. split; reflexivity. Qed.

(** C10, counterexample.  The report is the same whether the first or the
    second transcript is the missing one. *)
Lemma missing_source_is_not_named : ~ report_names_missing_source.
Proof.
  intros H.
  apply (H true true session_sample storage_only_second storage_only_first
           "sim/bot1_Ira_transcript.json" "sim/bot2_Chetan_transcript.json");
    try reflexivity; try (eexists; reflexivity).
Qed.

Lemma merge_body_first_unreadable (w1 w2 : bool) (ss : SessionState.t)
    (bot1_path bot2_path unified_path : string) (fs : gmap string file)
    (e : exn) :
  fs !! bot1_path = Some (Unreadable e) ->
  merge_body w1 w2 ss bot1_path bot2_path unified_path fs = (Raise e, fs).
Proof.
  intros H. unfold merge_body, load_transcript. rewrite H. reflexivity.
Qed.

Lemma merge_body_second_unreadable (w1 w2 : bool) (ss : SessionState.t)
    (bot1_path bot2_path unified_path : string) (fs : gmap string file)
    (f : file) (e : exn) :
  fs !! bot1_path = Some f -> readable f = true ->
  fs !! bot2_path = Some (Unreadable e) ->
  merge_body w1 w2 ss bot1_path bot2_path unified_path fs = (Raise e, fs).
Proof.
  intros H1 Hr H2. unfold merge_body.
  destruct (load_transcript_readable fs bot1_path f H1 Hr) as [data Hd].
  rewrite Hd. unfold load_transcript at 1. rewrite H2. reflexivity.
Qed.

(** C10, as amended.  When one of the two source transcripts is missing or
    unreadable (the three paths being set), the merge returns failure and
    leaves storage exactly as it was, so neither the merged nor the
    simplified artifact is written.  The reason it returns does not tell
    the sources apart when a file is missing: it is the fixed text
    ["Bot transcript files not found yet"].  When both files exist and one
    cannot be read, it is ["Error generating unified transcript: "]
    followed by the text of the error raised on the first unreadable
    one. *)
Theorem merge_fails_closed :
  forall (w1 w2 : bool) (ss : SessionState.t) (fs : gmap string file)
         (bot1_path bot2_path unified_path : string),
    path_given (SessionState.bot1_transcript_json ss) = Some bot1_path ->
    path_given (SessionState.bot2_transcript_json ss) = Some bot2_path ->
    path_given (SessionState.unified_transcript_path ss) = Some unified_path ->
    unavailable fs bot1_path \/ unavailable fs bot2_path ->
    let result := generate_unified_transcript w1 w2 ss fs in
    fst (fst result) = false /\
    snd result = fs /\
    (fs !! bot1_path = None \/ fs !! bot2_path = None ->
     snd (fst result) = "Bot transcript files not found yet") /\
    (forall e, fs !! bot1_path = Some (Unreadable e) ->
               is_Some (fs !! bot2_path) ->
               snd (fst result)
               = "Error generating unified transcript: " ++ exn_str e) /\
    (forall f e, fs !! bot1_path = Some f -> readable f = true ->
                 fs !! bot2_path = Some (Unreadable e) ->
                 snd (fst result)
                 = "Error generating unified transcript: " ++ exn_str e).
Proof.
  intros w1 w2 ss fs bot1_path bot2_path unified_path Hp1 Hp2 Hpu Hun result.
  subst result. unfold generate_unified_transcript.
  rewrite Hp1, Hp2, Hpu. unfold exists_. unfold unavailable in Hun.
  destruct (fs !! bot1_path) as [f1|] eqn:H1; simpl.
  2:{ repeat split; try reflexivity; intros; discriminate. }
  destruct (fs !! bot2_path) as [f2|] eqn:H2; simpl.
  2:{ split; [reflexivity|]. split; [reflexivity|]. split; [reflexivity|].
      split.
      - intros e _ [x Hx]. discriminate Hx.
      - intros f e _ _ He. discriminate He. }
  destruct (readable f1) eqn:Hr1.
  - assert (He2 : exists e, f2 = Unreadable e).
    { destruct Hun as [[Hn|[e Hu]]|[Hn|[e Hu]]].
      - discriminate Hn.
      - injection Hu as ->. discriminate Hr1.
      - discriminate Hn.
      - injection Hu as ->. exists e. reflexivity. }
    destruct He2 as [e2 ->].
    rewrite (merge_body_second_unreadable w1 w2 ss bot1_path bot2_path
               unified_path fs f1 e2 H1 Hr1 H2).
    repeat split; simpl.
    + intros [H|H]; discriminate H.
    + intros e He. injection He as ->. discriminate Hr1.
    + intros f e Hf _ He. injection He as ->. reflexivity.
  - destruct f1 as [e1| | | |]; try discriminate Hr1.
    rewrite (merge_body_first_unreadable w1 w2 ss bot1_path bot2_path
               unified_path fs e1 H1).
    repeat split; simpl.
    + intros [H|H]; discriminate H.
    + intros e He _. injection He as ->. reflexivity.
    + intros f e Hf Hr _. injection Hf as <-. discriminate Hr.
Qed.

Lemma merge_fails_closed_witness :
  let result :=
    generate_unified_transcript true true session_sample storage_only_second in
  fst (fst result) = false /\
  snd result = storage_only_second /\
  snd (fst result) = "Bot transcript files not found yet".
Proof.
  pose proof (merge_fails_closed true true session_sample storage_only_second
                "sim/bot1_Ira_transcript.json" "sim/bot2_Chetan_transcript.json"
                "sim/unified_transcript.json" eq_refl eq_refl eq_refl
                (or_introl (or_introl eq_refl))) as H.
  destruct H as (Hok & Hfs & Hmsg & _).
  split; [exact Hok|]. split; [exact Hfs|].
  apply Hmsg. left. reflexivity.
Defined.

Example merge_with_garbled_source :
  generate_unified_transcript true true session_sample storage_second_garbled
  = ((false,
      "Error generating unified transcript: Expecting value: line 1 column 1 (char 0)"),
     storage_second_garbled).
Proof. vm_compute. reflexivity. Qed.

(** * Further properties *)

(** ** Turn tracer: what one recorded event changes *)

Lemma TurnId_eqb_refl (a : TurnId) : TurnId_eqb a a = true.
Proof. apply TurnId_eqb_eq. reflexivity. Qed.

Lemma MetricType_eqb_refl (a : MetricType) : MetricType_eqb a a = true.
Proof. destruct a; reflexivity. Qed.

Lemma TurnId_eqb_neq (a b : TurnId) : TurnId_eqb a b = false <-> a <> b.
Proof.
  split.
  - intros H ->. rewrite TurnId_eqb_refl in H. discriminate.
  - intros H. destruct (TurnId_eqb a b) eqn:E; [|reflexivity].
    apply TurnId_eqb_eq in E. contradiction.
Qed.

Lemma MetricType_eqb_neq (a b : MetricType) : MetricType_eqb a b = false <-> a <> b.
Proof.
  split.
  - intros H ->. rewrite MetricType_eqb_refl in H. discriminate.
  - intros H. destruct (MetricType_eqb a b) eqn:E; [|reflexivity].
    apply MetricType_eqb_eq in E. contradiction.
Qed.

Lemma record_event_events (t_id t_ev : float) (kind : MetricType)
    (metadata : option Metadata) (turn_id : option TurnId)
    (self : SimulationTracer.t) :
  exists md,
    SimulationTracer.events
      (SimulationTracer._record_event t_id t_ev kind metadata turn_id self)
    = (SimulationTracer.events self
       ++ [MetricEvent.mk kind t_ev (SimulationTracer.bot_name self) md
             (Some (target_turn t_id turn_id self))])%list.
Proof.
  unfold SimulationTracer._record_event, target_turn.
  destruct turn_id as [i|]; simpl.
  - eexists. reflexivity.
  - destruct (SimulationTracer.current_turn_id self) as [c|]; simpl;
      eexists; reflexivity.
Qed.

Lemma record_event_turn_events (t_id t_ev : float) (kind : MetricType)
    (metadata : option Metadata) (turn_id : option TurnId)
    (self : SimulationTracer.t) :
  SimulationTracer.turn_events
    (SimulationTracer._record_event t_id t_ev kind metadata turn_id self)
  = dict_set TurnId_eqb (target_turn t_id turn_id self)
      (dict_set MetricType_eqb kind t_ev
         (match dict_get TurnId_eqb (target_turn t_id turn_id self)
                  (SimulationTracer.turn_events self) with
          | Some evs => evs
          | None => []
          end))
      (SimulationTracer.turn_events self).
Proof.
  unfold SimulationTracer._record_event, target_turn.
  destruct turn_id as [i|]; simpl; [reflexivity|].
  destruct (SimulationTracer.current_turn_id self) as [c|]; reflexivity.
Qed.

Lemma record_event_current (t_id t_ev : float) (kind : MetricType)
    (metadata : option Metadata) (turn_id : option TurnId)
    (self : SimulationTracer.t) :
  SimulationTracer.current_turn_id
    (SimulationTracer._record_event t_id t_ev kind metadata turn_id self)
  = match turn_id, SimulationTracer.current_turn_id self with
    | None, None => Some (target_turn t_id None self)
    | _, cur => cur
    end.
Proof.
  unfold SimulationTracer._record_event, target_turn.
  destruct turn_id as [i|]; simpl.
  - destruct (SimulationTracer.current_turn_id self) eqn:Ecur; simpl;
      rewrite ?Ecur; reflexivity.
  - destruct (SimulationTracer.current_turn_id self) as [c|] eqn:Ecur; simpl;
      rewrite ?Ecur; reflexivity.
Qed.

Lemma record_event_counter (t_id t_ev : float) (kind : MetricType)
    (metadata : option Metadata) (turn_id : option TurnId)
    (self : SimulationTracer.t) :
  SimulationTracer.turn_counter
    (SimulationTracer._record_event t_id t_ev kind metadata turn_id self)
  = match turn_id, SimulationTracer.current_turn_id self with
    | None, None => SimulationTracer.turn_counter self + 1
    | _, _ => SimulationTracer.turn_counter self
    end.
Proof.
  unfold SimulationTracer._record_event.
  destruct turn_id as [i|]; simpl.
  - destruct (SimulationTracer.current_turn_id self) eqn:Ecur; simpl;
      rewrite ?Ecur; reflexivity.
  - destruct (SimulationTracer.current_turn_id self) as [c|] eqn:Ecur; simpl;
      rewrite ?Ecur; reflexivity.
Qed.

(** After an event of [kind] is recorded at time [t_ev], the table of
    the turn it went to holds [t_ev] for [kind], whatever it held before
    (a later duplicate overwrites); every other kind of that turn and
    every other turn is as it was. *)
Lemma indexed_after_record :
  forall (t_id t_ev : float) (kind : MetricType) (metadata : option Metadata)
         (turn_id : option TurnId) (self : SimulationTracer.t),
    let turn := target_turn t_id turn_id self in
    let self' :=
      SimulationTracer._record_event t_id t_ev kind metadata turn_id self in
    indexed turn kind self' = Some t_ev /\
    (forall k, k <> kind -> indexed turn k self' = indexed turn k self) /\
    (forall other k, other <> turn -> indexed other k self' = indexed other k self).
Proof.
  intros t_id t_ev kind metadata turn_id self turn self'.
  subst self'. unfold indexed. rewrite record_event_turn_events. fold turn.
  split; [|split].
  - rewrite (dict_get_set_same TurnId_eqb TurnId_eqb_eq).
    apply (dict_get_set_same MetricType_eqb MetricType_eqb_eq).
  - intros k Hk. rewrite (dict_get_set_same TurnId_eqb TurnId_eqb_eq).
    rewrite (dict_get_set_other MetricType_eqb MetricType_eqb_eq)
      by (apply MetricType_eqb_neq; exact Hk).
    destruct (dict_get TurnId_eqb turn (SimulationTracer.turn_events self));
      reflexivity.
  - intros other k Hother.
    rewrite (dict_get_set_other TurnId_eqb TurnId_eqb_eq)
      by (apply TurnId_eqb_neq; exact Hother).
    reflexivity.
Qed.

(** X1.  After an event of [kind] is recorded at time [t_ev], the table of
    the turn it went to holds [t_ev] for [kind], whatever it held before
    (a later duplicate overwrites); every other kind of that turn and
    every other turn is as it was. *)
Theorem record_event_indexed :
  forall (t_id t_ev : float) (kind : MetricType) (metadata : option Metadata)
         (turn_id : option TurnId) (self : SimulationTracer.t),
    let turn := target_turn t_id turn_id self in
    let self' :=
      SimulationTracer._record_event t_id t_ev kind metadata turn_id self in
    indexed turn kind self' = Some t_ev /\
    (forall k, k <> kind -> indexed turn k self' = indexed turn k self) /\
    (forall other k, other <> turn -> indexed other k self' = indexed other k self).
Proof. exact indexed_after_record. Qed.

Lemma record_event_indexed_witness :
  indexed (mkTurnId 1 9000) LLM_END turn_10_13 = Some 13%Q /\
  indexed (mkTurnId 1 9000) LLM_START turn_10_13
    = indexed (mkTurnId 1 9000) LLM_START turn_10_only.
Proof.
  pose proof (record_event_indexed 13%Q 13%Q LLM_END
                (SimulationTracer.with_key None "response_length" (MInt 2))
                None turn_10_only) as H.
  destruct H as (Hsame & Hkind & _).
  split.
  - exact Hsame.
  - apply Hkind. discriminate.
Defined.

(** ** Turn tracer: the table and the log agree *)

Lemma last_stamp_snoc (turn : TurnId) (kind : MetricType)
    (events : list MetricEvent.t) (ev : MetricEvent.t) :
  last_stamp turn kind (events ++ [ev])
  = if event_matches turn kind ev then Some (MetricEvent.timestamp ev)
    else last_stamp turn kind events.
Proof. unfold last_stamp. rewrite fold_left_app. reflexivity. Qed.

Lemma first_stamp_snoc (kind : MetricType) (events : list MetricEvent.t)
    (ev : MetricEvent.t) :
  first_stamp kind (events ++ [ev])
  = match first_stamp kind events with
    | Some x => Some x
    | None =>
        if MetricType_eqb (MetricEvent.event_type ev) kind
        then Some (MetricEvent.timestamp ev) else None
    end.
Proof.
  unfold first_stamp. induction events as [|e events IH]; simpl.
  - destruct (MetricType_eqb (MetricEvent.event_type ev) kind); reflexivity.
  - destruct (MetricType_eqb (MetricEvent.event_type e) kind); [reflexivity|].
    exact IH.
Qed.

Lemma record_event_first_llm (t_id t_ev : float) (kind : MetricType)
    (metadata : option Metadata) (turn_id : option TurnId)
    (self : SimulationTracer.t) :
  SimulationTracer.first_llm_token_timestamp
    (SimulationTracer._record_event t_id t_ev kind metadata turn_id self)
  = match kind, SimulationTracer.first_llm_token_timestamp self with
    | LLM_FIRST_TOKEN, None => Some t_ev
    | _, old => old
    end.
Proof.
  unfold SimulationTracer._record_event.
  destruct turn_id as [i|]; simpl; [reflexivity|].
  destruct (SimulationTracer.current_turn_id self) as [c|]; reflexivity.
Qed.

Lemma record_event_first_spoken (t_id t_ev : float) (kind : MetricType)
    (metadata : option Metadata) (turn_id : option TurnId)
    (self : SimulationTracer.t) :
  SimulationTracer.first_spoken_token_timestamp
    (SimulationTracer._record_event t_id t_ev kind metadata turn_id self)
  = match kind, SimulationTracer.first_spoken_token_timestamp self with
    | TTS_FIRST_TOKEN, None => Some t_ev
    | _, old => old
    end.
Proof.
  unfold SimulationTracer._record_event.
  destruct turn_id as [i|]; simpl; [reflexivity|].
  destruct (SimulationTracer.current_turn_id self) as [c|]; reflexivity.
Qed.

Lemma record_event_log_consistent (t_id t_ev : float) (kind : MetricType)
    (metadata : option Metadata) (turn_id : option TurnId)
    (self : SimulationTracer.t) :
  log_consistent self ->
  log_consistent
    (SimulationTracer._record_event t_id t_ev kind metadata turn_id self).
Proof.
  intros (Hidx & Hllm & Hspoken).
  destruct (record_event_events t_id t_ev kind metadata turn_id self)
    as [md Hev].
  pose proof (indexed_after_record t_id t_ev kind metadata turn_id self)
    as (Hsame & Hkind & Hother).
  split; [|split].
  - intros turn k. rewrite Hev, last_stamp_snoc.
    unfold event_matches. simpl.
    destruct (TurnId_eqb (target_turn t_id turn_id self) turn) eqn:Et.
    + apply TurnId_eqb_eq in Et. subst turn.
      destruct (MetricType_eqb kind k) eqn:Ek; simpl.
      * apply MetricType_eqb_eq in Ek. subst k. exact Hsame.
      * rewrite <- Hidx. apply Hkind. intros ->.
        rewrite MetricType_eqb_refl in Ek. discriminate.
    + rewrite andb_false_r, <- Hidx. apply Hother. intros ->.
      rewrite TurnId_eqb_refl in Et. discriminate.
  - rewrite record_event_first_llm, Hev, first_stamp_snoc, <- Hllm. simpl.
    destruct kind;
      destruct (SimulationTracer.first_llm_token_timestamp self); reflexivity.
  - rewrite record_event_first_spoken, Hev, first_stamp_snoc, <- Hspoken. simpl.
    destruct kind;
      destruct (SimulationTracer.first_spoken_token_timestamp self); reflexivity.
Qed.

Lemma tracer_call_log_consistent (t_id t_ev : float) (c : TracerCall)
    (self : SimulationTracer.t) :
  log_consistent self -> log_consistent (tracer_call t_id t_ev c self).
Proof.
  intros H. destruct c; cbn [tracer_call];
    try (apply record_event_log_consistent; exact H).
  unfold SimulationTracer.end_turn.
  destruct (SimulationTracer.current_turn_id self) as [cur|]; [|exact H].
  apply (record_event_log_consistent t_id t_ev TURN_END None (Some cur)) in H.
  exact H.
Qed.

Lemma tracer_calls_log_consistent (l : list (float * float * TracerCall))
    (self : SimulationTracer.t) :
  log_consistent self -> log_consistent (tracer_calls l self).
Proof.
  revert self. induction l as [|[[t_id t_ev] c] l IH]; intros self H; simpl.
  - exact H.
  - apply IH, tracer_call_log_consistent, H.
Qed.

Lemma init_log_consistent (bot_name : string) (log_file : option string) :
  log_consistent (SimulationTracer.__init__ bot_name log_file).
Proof. repeat split. Qed.

(** X2.  After any sequence of calls on a new tracer, what the per-turn
    table holds for a turn and an event kind is the timestamp of the last
    event of that kind logged for that turn, and it holds nothing for a
    pair that has no logged event. *)
Theorem tracer_table_is_last_logged :
  forall (bot_name : string) (log_file : option string)
         (l : list (float * float * TracerCall)) (turn : TurnId)
         (kind : MetricType),
    let self := tracer_calls l (SimulationTracer.__init__ bot_name log_file) in
    indexed turn kind self = last_stamp turn kind (SimulationTracer.events self).
Proof.
  intros bot_name log_file l turn kind self.
  apply (tracer_calls_log_consistent l _ (init_log_consistent bot_name log_file)).
Qed.

(** X3.  After any sequence of calls on a new tracer, the tracer's
    first-LLM-token and first-spoken-token timestamps are those of the
    first LLM_FIRST_TOKEN and the first TTS_FIRST_TOKEN event of the whole
    log; later events of these kinds do not move them. *)
Theorem tracer_first_tokens_are_first_logged :
  forall (bot_name : string) (log_file : option string)
         (l : list (float * float * TracerCall)),
    let self := tracer_calls l (SimulationTracer.__init__ bot_name log_file) in
    SimulationTracer.first_llm_token_timestamp self
      = first_stamp LLM_FIRST_TOKEN (SimulationTracer.events self) /\
    SimulationTracer.first_spoken_token_timestamp self
      = first_stamp TTS_FIRST_TOKEN (SimulationTracer.events self).
Proof.
  intros bot_name log_file l self.
  apply (tracer_calls_log_consistent l _ (init_log_consistent bot_name log_file)).
Qed.

(** ** Turn tracer: turn ids *)

Lemma dict_set_keys {V : Type} (k : TurnId) (v : V) (d : list (TurnId * V)) :
  map fst (dict_set TurnId_eqb k v d)
  = if dict_mem TurnId_eqb k d then map fst d else (map fst d ++ [k])%list.
Proof.
  unfold dict_mem. induction d as [|[k' v'] d IH]; simpl; [reflexivity|].
  destruct (TurnId_eqb k k') eqn:E; simpl; [reflexivity|].
  rewrite IH. destruct (dict_get TurnId_eqb k d); reflexivity.
Qed.

Lemma dict_mem_in {V : Type} (k : TurnId) (d : list (TurnId * V)) :
  dict_mem TurnId_eqb k d = true <-> In k (map fst d).
Proof.
  unfold dict_mem. induction d as [|[k' v'] d IH]; simpl.
  - split; [discriminate | contradiction].
  - destruct (TurnId_eqb k k') eqn:E.
    + apply TurnId_eqb_eq in E. subst. split; [left; reflexivity | reflexivity].
    + rewrite IH. split; [right; assumption|].
      intros [->|H]; [|exact H].
      rewrite TurnId_eqb_refl in E. discriminate.
Qed.

Lemma record_event_keys (t_id t_ev : float) (kind : MetricType)
    (metadata : option Metadata) (turn_id : option TurnId)
    (self : SimulationTracer.t) :
  turn_keys (SimulationTracer._record_event t_id t_ev kind metadata turn_id self)
  = if dict_mem TurnId_eqb (target_turn t_id turn_id self)
         (SimulationTracer.turn_events self)
    then turn_keys self
    else (turn_keys self ++ [target_turn t_id turn_id self])%list.
Proof.
  unfold turn_keys. rewrite record_event_turn_events. apply dict_set_keys.
Qed.

(** Adding the next id of the counter keeps the ids well formed. *)
Lemma ids_wf_fresh (keys : list TurnId) (counter millis : Z) :
  Forall (fun i => 1 <= tid_counter i <= counter) keys ->
  NoDup (map tid_counter keys) ->
  0 <= counter ->
  ~ In (mkTurnId (counter + 1) millis) keys /\
  Forall (fun i => 1 <= tid_counter i <= counter + 1)
         (keys ++ [mkTurnId (counter + 1) millis]) /\
  NoDup (map tid_counter (keys ++ [mkTurnId (counter + 1) millis])).
Proof.
  intros Hb Hnd Hc.
  assert (Hfresh : ~ In (counter + 1) (map tid_counter keys)).
  { intros Hin. apply in_map_iff in Hin. destruct Hin as (i & Hi & Hin).
    rewrite List.Forall_forall in Hb. specialize (Hb i Hin). lia. }
  split; [|split].
  - intros Hin. apply Hfresh. apply in_map_iff. eexists. split; [|exact Hin].
    reflexivity.
  - apply Forall_app. split.
    + eapply List.Forall_impl; [|exact Hb]. simpl. intros i Hi. lia.
    + constructor; [simpl; lia | constructor].
  - rewrite map_app. simpl.
    apply NoDup_app. split; [exact Hnd|]. split.
    + intros x Hx Hx'. apply list_elem_of_In in Hx.
      apply list_elem_of_In in Hx'. destruct Hx' as [<-|[]]. exact (Hfresh Hx).
    + apply NoDup_singleton.
Qed.

Lemma record_call_is_record_event (t_id t_ev : float) (c : TracerCall)
    (self : SimulationTracer.t) :
  is_record_call c = true ->
  (exists md,
      tracer_call t_id t_ev c self
      = SimulationTracer._record_event t_id t_ev (call_kind c) md None self) /\
  call_kind c <> TURN_START /\ call_kind c <> TURN_END.
Proof.
  intros H. destruct c; try discriminate H; cbn [tracer_call call_kind];
    (split; [eexists; reflexivity | split; discriminate]).
Qed.

Lemma record_none_ids_wf (t_id t_ev : float) (kind : MetricType)
    (metadata : option Metadata) (self : SimulationTracer.t) :
  ids_wf self /\ counter_nonneg self ->
  let self' := SimulationTracer._record_event t_id t_ev kind metadata None self in
  ids_wf self' /\ counter_nonneg self'.
Proof.
  intros [(Hb & Hnd & Hcur) Hc] self'. subst self'.
  unfold ids_wf, counter_nonneg.
  rewrite record_event_keys, record_event_counter, record_event_current.
  unfold target_turn.
  destruct (SimulationTracer.current_turn_id self) as [c|] eqn:Ecur.
  - assert (Hmem : dict_mem TurnId_eqb c (SimulationTracer.turn_events self) = true)
      by (apply dict_mem_in; apply Hcur; reflexivity).
    rewrite Hmem. repeat split; assumption.
  - destruct (ids_wf_fresh (turn_keys self) (SimulationTracer.turn_counter self)
                (py_int (fmul t_id 1000%Q)) Hb Hnd Hc) as (Hfresh & Hb' & Hnd').
    destruct (dict_mem TurnId_eqb _ (SimulationTracer.turn_events self)) eqn:Hmem.
    + apply dict_mem_in in Hmem. contradiction.
    + split; [split; [exact Hb' | split; [exact Hnd'|]] | unfold counter_nonneg in Hc; lia].
      intros c Hc'. injection Hc' as <-. apply in_or_app. right. left. reflexivity.
Qed.

Lemma start_turn_ids_wf (t_id t_ev : float) (self : SimulationTracer.t) :
  ids_wf self /\ counter_nonneg self ->
  let self' := snd (SimulationTracer.start_turn t_id t_ev self) in
  (ids_wf self' /\ counter_nonneg self') /\
  ~ In (fst (SimulationTracer.start_turn t_id t_ev self)) (turn_keys self) /\
  Forall (fun i => tid_counter i
                   < tid_counter (fst (SimulationTracer.start_turn t_id t_ev self)))
         (turn_keys self).
Proof.
  intros [(Hb & Hnd & Hcur) Hc] self'. subst self'.
  destruct (ids_wf_fresh (turn_keys self) (SimulationTracer.turn_counter self)
              (py_int (fmul t_id 1000%Q)) Hb Hnd Hc) as (Hfresh & Hb' & Hnd').
  cbv beta iota zeta delta
    [SimulationTracer.start_turn SimulationTracer._get_turn_id snd fst].
  split; [|split].
  - unfold ids_wf, counter_nonneg.
    rewrite record_event_keys, record_event_counter, record_event_current.
    cbn [target_turn SimulationTracer.set_current
         SimulationTracer.turn_events SimulationTracer.turn_counter
         SimulationTracer.current_turn_id turn_keys].
    fold (turn_keys self).
    destruct (dict_mem TurnId_eqb _ (SimulationTracer.turn_events self)) eqn:Hmem.
    + apply dict_mem_in in Hmem. contradiction.
    + split; [split; [exact Hb' | split; [exact Hnd'|]] | unfold counter_nonneg in Hc; lia].
      intros c Hc'. injection Hc' as <-. apply in_or_app. right. left. reflexivity.
  - exact Hfresh.
  - eapply List.Forall_impl; [|exact Hb]. simpl. intros i Hi. lia.
Qed.

Lemma end_turn_ids_wf (t_id t_ev : float) (self : SimulationTracer.t) :
  ids_wf self /\ counter_nonneg self ->
  let self' := SimulationTracer.end_turn t_id t_ev self in
  ids_wf self' /\ counter_nonneg self'.
Proof.
  intros [(Hb & Hnd & Hcur) Hc] self'. subst self'.
  unfold SimulationTracer.end_turn.
  destruct (SimulationTracer.current_turn_id self) as [cur|] eqn:Ecur.
  2:{ split; [split; [exact Hb | split; [exact Hnd|]] | exact Hc].
      intros c Hc'. rewrite Ecur in Hc'. discriminate. }
  unfold ids_wf, counter_nonneg, turn_keys.
  cbn [SimulationTracer.set_current SimulationTracer.turn_events
       SimulationTracer.turn_counter SimulationTracer.current_turn_id].
  fold (turn_keys (SimulationTracer._record_event t_id t_ev TURN_END None
                     (Some cur) self)).
  rewrite record_event_keys, record_event_counter. cbn [target_turn].
  assert (Hmem : dict_mem TurnId_eqb cur (SimulationTracer.turn_events self) = true)
    by (apply dict_mem_in; apply Hcur; reflexivity).
  rewrite Hmem.
  split; [split; [exact Hb | split; [exact Hnd|]] | exact Hc].
  intros c Hc'. discriminate.
Qed.

Lemma tracer_call_ids_wf (t_id t_ev : float) (c : TracerCall)
    (self : SimulationTracer.t) :
  ids_wf self /\ counter_nonneg self ->
  ids_wf (tracer_call t_id t_ev c self) /\
  counter_nonneg (tracer_call t_id t_ev c self).
Proof.
  intros H. destruct (is_record_call c) eqn:Hrec.
  - destruct (record_call_is_record_event t_id t_ev c self Hrec)
      as [[md ->] _].
    apply record_none_ids_wf. exact H.
  - destruct c; try discriminate Hrec; cbn [tracer_call].
    + apply start_turn_ids_wf. exact H.
    + apply end_turn_ids_wf. exact H.
Qed.

Lemma tracer_calls_ids_wf (l : list (float * float * TracerCall))
    (self : SimulationTracer.t) :
  ids_wf self /\ counter_nonneg self ->
  ids_wf (tracer_calls l self) /\ counter_nonneg (tracer_calls l self).
Proof.
  revert self. induction l as [|[[t_id t_ev] c] l IH]; intros self H; simpl.
  - exact H.
  - apply IH, tracer_call_ids_wf, H.
Qed.

Lemma init_ids_wf (bot_name : string) (log_file : option string) :
  ids_wf (SimulationTracer.__init__ bot_name log_file) /\
  counter_nonneg (SimulationTracer.__init__ bot_name log_file).
Proof.
  split; [split; [constructor | split; [constructor|]] | unfold counter_nonneg; simpl; lia].
  intros c Hc. discriminate Hc.
Qed.

(** X4.  After any sequence of calls on a new tracer, no two turns of the
    table have the same id, and the id that [start_turn] hands out next is
    not in the table and has a counter above that of every turn so far. *)
Theorem tracer_turn_ids_unique :
  forall (bot_name : string) (log_file : option string)
         (l : list (float * float * TracerCall)) (t_id t_ev : float),
    let self := tracer_calls l (SimulationTracer.__init__ bot_name log_file) in
    let next := fst (SimulationTracer.start_turn t_id t_ev self) in
    NoDup (turn_keys self) /\
    ~ In next (turn_keys self) /\
    Forall (fun i => tid_counter i < tid_counter next) (turn_keys self).
Proof.
  intros bot_name log_file l t_id t_ev self next.
  pose proof (tracer_calls_ids_wf l _ (init_ids_wf bot_name log_file)) as Hwf.
  fold self in Hwf.
  destruct (start_turn_ids_wf t_id t_ev self Hwf) as (_ & Hfresh & Hlt).
  split; [|split; assumption].
  destruct Hwf as [(_ & Hnd & _) _].
  apply (NoDup_fmap_1 tid_counter). exact Hnd.
Qed.

(** ** Turn tracer: ending a turn *)

(** X5.  [end_turn] with no turn open changes nothing.  With a turn open
    it logs the turn-end at the given time in that turn's table, leaves no
    turn open, and a second [end_turn] right after changes nothing
    more. *)
Theorem end_turn_closes_once :
  forall (t_id t_ev t_id' t_ev' : float) (self : SimulationTracer.t),
    let self' := SimulationTracer.end_turn t_id t_ev self in
    (SimulationTracer.current_turn_id self = None -> self' = self) /\
    (forall cur,
        SimulationTracer.current_turn_id self = Some cur ->
        indexed cur TURN_END self' = Some t_ev /\
        (forall k, k <> TURN_END -> indexed cur k self' = indexed cur k self)) /\
    SimulationTracer.current_turn_id self' = None /\
    SimulationTracer.end_turn t_id' t_ev' self' = self'.
Proof.
  intros t_id t_ev t_id' t_ev' self self'. subst self'.
  destruct (SimulationTracer.current_turn_id self) as [cur|] eqn:Ecur.
  - assert (E : SimulationTracer.end_turn t_id t_ev self
                = SimulationTracer.set_current None
                    (SimulationTracer._record_event t_id t_ev TURN_END None
                       (Some cur) self))
      by (unfold SimulationTracer.end_turn; rewrite Ecur; reflexivity).
    rewrite E. split; [discriminate|]. split; [|split].
    + intros c Hc. injection Hc as <-.
      pose proof (indexed_after_record t_id t_ev TURN_END None (Some cur) self)
        as (Hsame & Hkind & _).
      split; [exact Hsame | exact Hkind].
    + reflexivity.
    + reflexivity.
  - assert (E : SimulationTracer.end_turn t_id t_ev self = self)
      by (unfold SimulationTracer.end_turn; rewrite Ecur; reflexivity).
    rewrite E. split; [reflexivity|]. split; [discriminate|].
    split; [exact Ecur|].
    unfold SimulationTracer.end_turn. rewrite Ecur. reflexivity.
Qed.

Lemma end_turn_closes_once_witness :
  indexed (mkTurnId 1 9000) TURN_END
    (SimulationTracer.end_turn 14%Q 14%Q turn_10_13) = Some 14%Q /\
  (forall k, k <> TURN_END ->
     indexed (mkTurnId 1 9000) k (SimulationTracer.end_turn 14%Q 14%Q turn_10_13)
     = indexed (mkTurnId 1 9000) k turn_10_13).
Proof.
  apply (proj1 (proj2 (end_turn_closes_once 14%Q 14%Q 15%Q 15%Q turn_10_13))).
  vm_compute. reflexivity.
Defined.

(** ** Turn tracer: duration of a turn *)

Lemma record_calls_keep_turn (l : list (float * float * TracerCall))
    (self : SimulationTracer.t) (turn : TurnId) (start : float) :
  Forall (fun x => is_record_call (snd x) = true) l ->
  SimulationTracer.current_turn_id self = Some turn ->
  indexed turn TURN_START self = Some start ->
  SimulationTracer.current_turn_id (tracer_calls l self) = Some turn /\
  indexed turn TURN_START (tracer_calls l self) = Some start.
Proof.
  revert self. induction l as [|[[t_id t_ev] c] l IH];
    intros self Hall Hcur Hstart; simpl.
  - split; assumption.
  - inversion Hall as [|? ? Hc Hrest]; subst. simpl in Hc.
    destruct (record_call_is_record_event t_id t_ev c self Hc)
      as ([md Hcall] & Hns & _).
    rewrite Hcall. apply IH; [exact Hrest | |].
    + rewrite record_event_current, Hcur. reflexivity.
    + pose proof (indexed_after_record t_id t_ev (call_kind c) md None self)
        as (_ & Hkind & _).
      unfold target_turn in Hkind. rewrite Hcur in Hkind.
      rewrite Hkind; [exact Hstart|]. congruence.
Qed.

Lemma indexed_latency (turn : TurnId) (self : SimulationTracer.t)
    (start stop : MetricType) (s e : float) :
  indexed turn start self = Some s ->
  indexed turn stop self = Some e ->
  exists evs,
    dict_get TurnId_eqb turn (SimulationTracer.turn_events self) = Some evs /\
    SimulationTracer.latency evs start stop = Some (fsub e s).
Proof.
  unfold indexed. intros Hs He.
  destruct (dict_get TurnId_eqb turn (SimulationTracer.turn_events self))
    as [evs|]; [|discriminate].
  exists evs. split; [reflexivity|].
  unfold SimulationTracer.latency, dict_mem. rewrite Hs, He. reflexivity.
Qed.

(** X6.  A turn opened by [start_turn] at time [s], followed by any
    number of recording calls and closed by [end_turn] at time [e], has
    the turn duration [e - s], whatever the tracer held before. *)
Theorem turn_duration_of_started_turn :
  forall (t_id s t_id' e : float) (l : list (float * float * TracerCall))
         (self : SimulationTracer.t),
    Forall (fun x => is_record_call (snd x) = true) l ->
    let turn := fst (SimulationTracer.start_turn t_id s self) in
    let self' :=
      SimulationTracer.end_turn t_id' e
        (tracer_calls l (snd (SimulationTracer.start_turn t_id s self))) in
    exists m,
      SimulationTracer._calculate_turn_metrics turn self' = Some m /\
      LatencyMetrics.turn_duration m = Some (fsub e s) /\
      (fsub e s == e - s)%Q.
Proof.
  intros t_id s t_id' e l self Hall turn self'.
  assert (Hstarted :
            SimulationTracer.current_turn_id
              (snd (SimulationTracer.start_turn t_id s self)) = Some turn /\
            indexed turn TURN_START
              (snd (SimulationTracer.start_turn t_id s self)) = Some s).
  { subst turn.
    cbv beta iota zeta delta
      [SimulationTracer.start_turn SimulationTracer._get_turn_id snd fst].
    split.
    - rewrite record_event_current. reflexivity.
    - apply (indexed_after_record t_id s TURN_START None
               (Some (mkTurnId (SimulationTracer.turn_counter self + 1)
                               (py_int (fmul t_id 1000%Q))))). }
  destruct Hstarted as [Hcur Hstart].
  destruct (record_calls_keep_turn l _ turn s Hall Hcur Hstart)
    as [Hcur' Hstart'].
  set (mid := tracer_calls l (snd (SimulationTracer.start_turn t_id s self)))
    in *.
  assert (Hend : indexed turn TURN_END self' = Some e /\
                 indexed turn TURN_START self' = Some s).
  { subst self'. unfold SimulationTracer.end_turn. rewrite Hcur'.
    pose proof (indexed_after_record t_id' e TURN_END None (Some turn) mid)
      as (Hsame & Hkind & _).
    cbn [target_turn] in Hsame, Hkind. split.
    - exact Hsame.
    - rewrite <- Hstart'. apply Hkind. discriminate. }
  destruct Hend as [He Hs].
  destruct (indexed_latency turn self' TURN_START TURN_END s e Hs He)
    as (evs & Hevs & Hlat).
  unfold SimulationTracer._calculate_turn_metrics. rewrite Hevs.
  eexists. split; [reflexivity|]. split; [exact Hlat | apply fsub_correct].
Qed.

Lemma turn_duration_of_started_turn_witness :
  exists m,
    SimulationTracer._calculate_turn_metrics (mkTurnId 1 9000)
      (SimulationTracer.end_turn 14%Q 14%Q
         (tracer_calls [(10%Q, 10%Q, CallLlmStart None);
                        (13%Q, 13%Q, CallLlmEnd "ok" None)]
            (snd (SimulationTracer.start_turn 9%Q 9%Q
                    (SimulationTracer.__init__ "Ira" None))))) = Some m /\
    LatencyMetrics.turn_duration m = Some (fsub 14%Q 9%Q) /\
    (fsub 14 9 == 14 - 9)%Q.
Proof.
  apply (turn_duration_of_started_turn 9%Q 9%Q 14%Q 14%Q
           [(10%Q, 10%Q, CallLlmStart None); (13%Q, 13%Q, CallLlmEnd "ok" None)]
           (SimulationTracer.__init__ "Ira" None)).
  repeat constructor.
Defined.

(** ** Turn tracer: when the session summary can be computed *)

Lemma average_cases (get : LatencyMetrics.t -> option float)
    (ms : list LatencyMetrics.t) :
  (never_truthy get ms /\
   SimulationTracer.average get ms = Raise division_by_zero) \/
  (~ never_truthy get ms /\ exists a, SimulationTracer.average get ms = Ok a).
Proof.
  unfold SimulationTracer.average, py_div, len, never_truthy.
  destruct (List.filter (fun m => SimulationTracer.truthy (get m)) ms)
    as [|m0 rest] eqn:Ef.
  - left. split; [|reflexivity].
    apply List.Forall_forall. intros m Hm.
    destruct (SimulationTracer.truthy (get m)) eqn:Et; [|reflexivity].
    assert (Hin : In m (List.filter
                          (fun m => SimulationTracer.truthy (get m)) ms))
      by (apply filter_In; split; assumption).
    rewrite Ef in Hin. contradiction.
  - right. split.
    + intros Hall.
      assert (Hin : In m0 (List.filter
                             (fun m => SimulationTracer.truthy (get m)) ms))
        by (rewrite Ef; left; reflexivity).
      apply filter_In in Hin. destruct Hin as [Hin Ht].
      rewrite List.Forall_forall in Hall. rewrite (Hall m0 Hin) in Ht.
      discriminate.
    + assert (Hz : (Z.of_nat (length (m0 :: rest)) =? 0) = false)
        by (apply Z.eqb_neq; simpl length; lia).
      rewrite Hz. eexists. reflexivity.
Qed.

(** X7.  [get_summary] raises exactly when at least one turn has been
    completed and, for one of the five averaged latencies, no completed
    turn has a non-zero value; what it raises is then the
    [ZeroDivisionError] of the average.  With no completed turn it returns
    a summary whose five averages are absent. *)
Theorem get_summary_raises_iff :
  forall (self : SimulationTracer.t),
    let ms := SimulationTracer.all_metrics_of self in
    (raises (SimulationTracer.get_summary self) = true <->
     ms <> [] /\ Exists (fun get => never_truthy get ms) averaged) /\
    (forall e, SimulationTracer.get_summary self = Raise e ->
               e = division_by_zero) /\
    (ms = [] ->
     exists s, SimulationTracer.get_summary self = Ok s /\
               Summary.avg_vad s = None /\ Summary.avg_stt s = None /\
               Summary.avg_llm s = None /\ Summary.avg_tts s = None /\
               Summary.avg_e2e s = None).
Proof.
  intros self. cbv zeta. unfold SimulationTracer.get_summary.
  generalize (SimulationTracer.all_metrics_of self). intros ms.
  destruct ms as [|m0 ms'].
  - simpl. split; [|split].
    + split; [discriminate | intros [H _]; contradiction].
    + discriminate.
    + intros _. eexists. repeat split; reflexivity.
  - cbv iota. set (ms := m0 :: ms').
    assert (Hne : ms <> []) by discriminate. clearbody ms.
    unfold averaged.
    repeat rewrite Exists_cons. rewrite Exists_nil.
    destruct (average_cases LatencyMetrics.vad_latency ms) as [[N1 E1]|[N1 [a1 E1]]];
      rewrite E1; simpl.
    1:{ split; [|split]; [|congruence | intros H; contradiction].
        split; [intros _; split; [exact Hne | tauto] | reflexivity]. }
    destruct (average_cases LatencyMetrics.stt_latency ms) as [[N2 E2]|[N2 [a2 E2]]];
      rewrite E2; simpl.
    1:{ split; [|split]; [|congruence | intros H; contradiction].
        split; [intros _; split; [exact Hne | tauto] | reflexivity]. }
    destruct (average_cases LatencyMetrics.llm_latency ms) as [[N3 E3]|[N3 [a3 E3]]];
      rewrite E3; simpl.
    1:{ split; [|split]; [|congruence | intros H; contradiction].
        split; [intros _; split; [exact Hne | tauto] | reflexivity]. }
    destruct (average_cases LatencyMetrics.tts_latency ms) as [[N4 E4]|[N4 [a4 E4]]];
      rewrite E4; simpl.
    1:{ split; [|split]; [|congruence | intros H; contradiction].
        split; [intros _; split; [exact Hne | tauto] | reflexivity]. }
    destruct (average_cases LatencyMetrics.end_to_end_latency ms)
      as [[N5 E5]|[N5 [a5 E5]]]; rewrite E5; simpl.
    1:{ split; [|split]; [|congruence | intros H; contradiction].
        split; [intros _; split; [exact Hne | tauto] | reflexivity]. }
    split; [|split]; [|discriminate | intros H; contradiction].
    split; [discriminate | intros [_ H]; tauto].
Qed.

Lemma get_summary_raises_iff_witness :
  SimulationTracer.get_summary session_without_speech = Raise division_by_zero.
Proof.
  pose proof (get_summary_raises_iff session_without_speech) as (Hiff & He & _).
  assert (Hr : raises (SimulationTracer.get_summary session_without_speech)
               = true).
  { apply Hiff. split.
    - vm_compute. discriminate.
    - apply Exists_cons_hd. unfold never_truthy. vm_compute.
      repeat constructor. }
  destruct (SimulationTracer.get_summary session_without_speech) as [s|e];
    [discriminate Hr|].
  rewrite (He e eq_refl). reflexivity.
Defined.

(** ** Turn tracer: what the session summary lists *)

Lemma dict_get_nodup {V : Type} (d : list (TurnId * V)) (k : TurnId) (v : V) :
  NoDup (map fst d) -> In (k, v) d -> dict_get TurnId_eqb k d = Some v.
Proof.
  induction d as [|[k' v'] d IH]; intros Hnd Hin; [contradiction|].
  simpl in Hnd. apply NoDup_cons in Hnd. destruct Hnd as [Hk Hnd].
  simpl. destruct Hin as [E|Hin].
  - injection E as -> ->. rewrite TurnId_eqb_refl. reflexivity.
  - destruct (TurnId_eqb k k') eqn:Ek.
    + apply TurnId_eqb_eq in Ek. subst k'. exfalso. apply Hk.
      apply list_elem_of_In. apply in_map_iff. exists (k, v). split; [reflexivity|exact Hin].
    + apply IH; assumption.
Qed.

(** The list the summary is computed from, over any part of the table
    whose entries are the ones a lookup finds. *)
Lemma all_metrics_over (self : SimulationTracer.t)
    (tes : list (TurnId * TurnEvents)) :
  (forall te, In te tes ->
     dict_get TurnId_eqb (fst te) (SimulationTracer.turn_events self)
     = Some (snd te)) ->
  let ms :=
    flat_map
      (fun te : TurnId * TurnEvents =>
         if SimulationTracer.completed te then
           match SimulationTracer._calculate_turn_metrics (fst te) self with
           | Some m => [m]
           | None => []
           end
         else []) tes in
  map LatencyMetrics.turn_id ms
    = map fst (List.filter SimulationTracer.completed tes) /\
  Forall (fun m =>
            SimulationTracer._calculate_turn_metrics
              (LatencyMetrics.turn_id m) self = Some m) ms.
Proof.
  induction tes as [|te tes IH]; intros Hget; simpl.
  - split; constructor.
  - destruct IH as [IHid IHcalc]; [intros te' Hin; apply Hget; right; exact Hin|].
    destruct (SimulationTracer.completed te) eqn:Ec; [|split; assumption].
    assert (Hm : exists m,
               SimulationTracer._calculate_turn_metrics (fst te) self = Some m /\
               LatencyMetrics.turn_id m = fst te).
    { unfold SimulationTracer._calculate_turn_metrics.
      rewrite (Hget te (or_introl eq_refl)). eexists. split; reflexivity. }
    destruct Hm as (m & Hm & Hid). rewrite Hm. simpl. split.
    + rewrite Hid, IHid. reflexivity.
    + constructor; [rewrite Hid; exact Hm | exact IHcalc].
Qed.

Lemma filter_completed_ended (self : SimulationTracer.t)
    (tes : list (TurnId * TurnEvents)) :
  (forall te, In te tes ->
     dict_get TurnId_eqb (fst te) (SimulationTracer.turn_events self)
     = Some (snd te)) ->
  map fst (List.filter SimulationTracer.completed tes)
  = List.filter (ended self) (map fst tes).
Proof.
  induction tes as [|te tes IH]; intros Hget; simpl; [reflexivity|].
  assert (E : ended self (fst te) = SimulationTracer.completed te).
  { unfold ended, indexed, SimulationTracer.completed, dict_mem.
    rewrite (Hget te (or_introl eq_refl)). reflexivity. }
  rewrite E, <- IH by (intros te' Hin; apply Hget; right; exact Hin).
  destruct (SimulationTracer.completed te); reflexivity.
Qed.

Lemma get_summary_fields (self : SimulationTracer.t) (s : Summary.t) :
  SimulationTracer.get_summary self = Ok s ->
  Summary.bot_name s = SimulationTracer.bot_name self /\
  Summary.total_events s = len (SimulationTracer.events self) /\
  Summary.total_turns s
    = len (List.filter SimulationTracer.completed
             (SimulationTracer.turn_events self)) /\
  Summary.first_llm_token_timestamp s
    = SimulationTracer.first_llm_token_timestamp self /\
  Summary.first_spoken_token_timestamp s
    = SimulationTracer.first_spoken_token_timestamp self /\
  Summary.turn_metrics s = SimulationTracer.all_metrics_of self.
Proof.
  unfold SimulationTracer.get_summary.
  destruct (match SimulationTracer.all_metrics_of self with
            | [] => _ | _ :: _ => _ end) as [[[[[a b] c] d] e]|ex]; simpl;
    [|discriminate].
  intros H. injection H as <-. repeat split; reflexivity.
Qed.

(** X8.  In the summary of a tracer that has only been driven through its
    methods, [turn_metrics] lists the turns that have a turn-end, each
    once and in the order in which they were opened, [total_turns] is the
    length of that list, [total_events] the length of the event log, and
    each element is what [_calculate_turn_metrics] gives for its turn. *)
Theorem get_summary_lists_ended_turns :
  forall (bot_name : string) (log_file : option string)
         (l : list (float * float * TracerCall)) (s : Summary.t),
    let self := tracer_calls l (SimulationTracer.__init__ bot_name log_file) in
    SimulationTracer.get_summary self = Ok s ->
    map LatencyMetrics.turn_id (Summary.turn_metrics s)
      = List.filter (ended self) (turn_keys self) /\
    NoDup (map LatencyMetrics.turn_id (Summary.turn_metrics s)) /\
    Summary.total_turns s = len (Summary.turn_metrics s) /\
    Summary.total_events s = len (SimulationTracer.events self) /\
    Forall (fun m =>
              SimulationTracer._calculate_turn_metrics
                (LatencyMetrics.turn_id m) self = Some m)
           (Summary.turn_metrics s).
Proof.
  intros bot_name log_file l s self Hs.
  destruct (get_summary_fields self s Hs) as (_ & Hev & Hturns & _ & _ & Hms).
  pose proof (tracer_calls_ids_wf l _ (init_ids_wf bot_name log_file)) as Hwf.
  fold self in Hwf. destruct Hwf as [(_ & Hnd & _) _].
  apply (NoDup_fmap_1 tid_counter) in Hnd.
  assert (Hget : forall te, In te (SimulationTracer.turn_events self) ->
            dict_get TurnId_eqb (fst te) (SimulationTracer.turn_events self)
            = Some (snd te)).
  { intros [k v] Hin. apply dict_get_nodup; [exact Hnd | exact Hin]. }
  destruct (all_metrics_over self (SimulationTracer.turn_events self) Hget)
    as [Hid Hcalc].
  fold (SimulationTracer.all_metrics_of self) in Hid, Hcalc.
  rewrite <- Hms in Hid, Hcalc.
  assert (Hids : map LatencyMetrics.turn_id (Summary.turn_metrics s)
                 = List.filter (ended self) (turn_keys self)).
  { rewrite Hid. apply filter_completed_ended. exact Hget. }
  split; [exact Hids|]. split; [|split; [|split; [exact Hev | exact Hcalc]]].
  - rewrite Hids. apply NoDup_ListNoDup. apply List.NoDup_filter.
    apply NoDup_ListNoDup. exact Hnd.
  - rewrite Hturns. unfold len.
    rewrite <- (length_map LatencyMetrics.turn_id (Summary.turn_metrics s)), Hid.
    rewrite length_map. reflexivity.
Qed.

Lemma get_summary_lists_ended_turns_witness :
  match SimulationTracer.get_summary
          (tracer_calls calls_two_turns (SimulationTracer.__init__ "Ira" None))
  with
  | Ok s =>
      map LatencyMetrics.turn_id (Summary.turn_metrics s) = [mkTurnId 1 1000] /\
      Summary.total_turns s = 1 /\
      Summary.total_events s = 12
  | Raise _ => False
  end.
Proof.
  destruct (SimulationTracer.get_summary
              (tracer_calls calls_two_turns
                 (SimulationTracer.__init__ "Ira" None))) as [s|e] eqn:E.
  - pose proof (get_summary_lists_ended_turns "Ira" None calls_two_turns s E)
      as (Hids & _ & Hturns & Hev & _).
    assert (Hone : map LatencyMetrics.turn_id (Summary.turn_metrics s)
                   = [mkTurnId 1 1000])
      by (rewrite Hids; vm_compute; reflexivity).
    split; [exact Hone|]. split.
    + rewrite Hturns. unfold len.
      rewrite <- (length_map LatencyMetrics.turn_id (Summary.turn_metrics s)).
      rewrite Hone. reflexivity.
    + rewrite Hev. vm_compute. reflexivity.
  - vm_compute in E. discriminate E.
Defined.

(** ** Turn tracer: every event belongs to a turn *)

Lemma record_event_bot_name (t_id t_ev : float) (kind : MetricType)
    (metadata : option Metadata) (turn_id : option TurnId)
    (self : SimulationTracer.t) :
  SimulationTracer.bot_name
    (SimulationTracer._record_event t_id t_ev kind metadata turn_id self)
  = SimulationTracer.bot_name self.
Proof.
  unfold SimulationTracer._record_event.
  destruct turn_id as [i|]; simpl; [reflexivity|].
  destruct (SimulationTracer.current_turn_id self) as [c|]; reflexivity.
Qed.

(** A call leaves the tracer as it is, or is one recorded event, up to
    the counter and the current turn. *)
Lemma tracer_call_shape (t_id t_ev : float) (c : TracerCall)
    (self : SimulationTracer.t) :
  tracer_call t_id t_ev c self = self \/
  exists kind metadata turn_id self0,
    same_log self0 self /\
    same_log (tracer_call t_id t_ev c self)
             (SimulationTracer._record_event t_id t_ev kind metadata turn_id
                self0).
Proof.
  destruct (is_record_call c) eqn:Hrec.
  - right. destruct (record_call_is_record_event t_id t_ev c self Hrec)
      as [[md ->] _].
    exists (call_kind c), md, None, self. repeat split.
  - destruct c; try discriminate Hrec; cbn [tracer_call].
    + right. eexists TURN_START, None, _, _. split; [|repeat split].
      repeat split.
    + unfold SimulationTracer.end_turn.
      destruct (SimulationTracer.current_turn_id self) as [cur|];
        [|left; reflexivity].
      right. exists TURN_END, None, (Some cur), self. repeat split.
Qed.

Lemma record_event_events_wf (t_id t_ev : float) (kind : MetricType)
    (metadata : option Metadata) (turn_id : option TurnId)
    (self : SimulationTracer.t) :
  events_wf self ->
  events_wf (SimulationTracer._record_event t_id t_ev kind metadata turn_id self).
Proof.
  unfold events_wf. intros H.
  destruct (record_event_events t_id t_ev kind metadata turn_id self)
    as [md Hev].
  rewrite Hev, record_event_bot_name, record_event_keys.
  apply Forall_app. split.
  - eapply List.Forall_impl; [|exact H]. simpl.
    intros ev (Hb & i & Hi & Hin). split; [exact Hb|].
    exists i. split; [exact Hi|].
    destruct (dict_mem _ _ _); [exact Hin | apply in_or_app; left; exact Hin].
  - constructor; [|constructor]. simpl. split; [reflexivity|].
    eexists. split; [reflexivity|].
    destruct (dict_mem _ _ _) eqn:Hmem.
    + apply dict_mem_in. exact Hmem.
    + apply in_or_app. right. left. reflexivity.
Qed.

Lemma same_log_events_wf (a b : SimulationTracer.t) :
  same_log a b -> events_wf b -> events_wf a.
Proof.
  intros (He & Ht & Hb). unfold events_wf, turn_keys. rewrite He, Ht, Hb.
  exact (fun H => H).
Qed.

Lemma tracer_call_events_wf (t_id t_ev : float) (c : TracerCall)
    (self : SimulationTracer.t) :
  events_wf self ->
  events_wf (tracer_call t_id t_ev c self) /\
  (length (SimulationTracer.events (tracer_call t_id t_ev c self))
   <= S (length (SimulationTracer.events self)))%nat.
Proof.
  intros H. destruct (tracer_call_shape t_id t_ev c self)
    as [->|(kind & md & turn_id & self0 & Hsame0 & Hsame)].
  - split; [exact H | lia].
  - split.
    + apply (same_log_events_wf _ _ Hsame). apply record_event_events_wf.
      apply (same_log_events_wf _ _ Hsame0). exact H.
    + destruct Hsame as (-> & _ & _).
      destruct (record_event_events t_id t_ev kind md turn_id self0)
        as [md' ->].
      destruct Hsame0 as (-> & _ & _). rewrite length_app. simpl. lia.
Qed.

Lemma tracer_calls_events_wf (l : list (float * float * TracerCall))
    (self : SimulationTracer.t) :
  events_wf self ->
  events_wf (tracer_calls l self) /\
  (length (SimulationTracer.events (tracer_calls l self))
   <= length l + length (SimulationTracer.events self))%nat.
Proof.
  revert self. induction l as [|[[t_id t_ev] c] l IH]; intros self H; simpl.
  - split; [exact H | lia].
  - destruct (tracer_call_events_wf t_id t_ev c self H) as [Hwf Hlen].
    destruct (IH _ Hwf) as [Hwf' Hlen']. split; [exact Hwf' | lia].
Qed.

Lemma tracer_calls_bot_name (l : list (float * float * TracerCall))
    (self : SimulationTracer.t) :
  SimulationTracer.bot_name (tracer_calls l self)
  = SimulationTracer.bot_name self.
Proof.
  revert self. induction l as [|[[t_id t_ev] c] l IH]; intros self; simpl;
    [reflexivity|].
  rewrite IH.
  destruct (tracer_call_shape t_id t_ev c self)
    as [->|(kind & md & turn_id & self0 & (_ & _ & Hb0) & (_ & _ & Hb))];
    [reflexivity|].
  rewrite Hb, record_event_bot_name. exact Hb0.
Qed.

(** X9.  After any sequence of calls on a new tracer, every event of the
    log carries the tracer's bot name and the id of a turn that is in the
    per-turn table (none is logged without a turn), and the log has at
    most one event per call. *)
Theorem tracer_events_belong_to_turns :
  forall (bot_name : string) (log_file : option string)
         (l : list (float * float * TracerCall)),
    let self := tracer_calls l (SimulationTracer.__init__ bot_name log_file) in
    Forall (fun ev =>
              MetricEvent.bot_name ev = bot_name /\
              exists i, MetricEvent.turn_id ev = Some i /\
                        In i (turn_keys self))
           (SimulationTracer.events self) /\
    (length (SimulationTracer.events self) <= length l)%nat.
Proof.
  intros bot_name log_file l self.
  assert (Hinit : events_wf (SimulationTracer.__init__ bot_name log_file))
    by constructor.
  destruct (tracer_calls_events_wf l _ Hinit) as [Hwf Hlen].
  fold self in Hwf, Hlen. split; [|simpl in Hlen; lia].
  assert (Hb : SimulationTracer.bot_name self = bot_name)
    by apply tracer_calls_bot_name.
  unfold events_wf in Hwf. rewrite Hb in Hwf. exact Hwf.
Qed.

(** ** Goal monitor: one frame *)

Lemma spoken_text_empty (text : string) :
  spoken_text (TTSTextFrame text)
  = if String.eqb text "" then None else Some text.
Proof. destruct text; reflexivity. Qed.

(** What processing one frame does to the tracker's fields and to the
    transcript and the request log. *)
Lemma process_frame_effect
    (float_of_str : string -> Result float) (repr : json -> string)
    (env : Env.t) (frame : Frame) (self : OutputTranscriptTracker.t)
    (w : World.t) :
  let self' :=
    fst (OutputTranscriptTracker.process_frame float_of_str repr env frame
           self w) in
  let w' :=
    snd (OutputTranscriptTracker.process_frame float_of_str repr env frame
           self w) in
  (OutputTranscriptTracker.bot_name self' = OutputTranscriptTracker.bot_name self /\
   OutputTranscriptTracker.goal_detector self'
     = OutputTranscriptTracker.goal_detector self) /\
  World.transcript w'
    = (World.transcript w
       ++ responses (OutputTranscriptTracker.bot_name self) [(env, frame)])%list /\
  OutputTranscriptTracker.turn_count self'
    = OutputTranscriptTracker.turn_count self
      + len (responses (OutputTranscriptTracker.bot_name self) [(env, frame)]) /\
  (OutputTranscriptTracker.goal_met self = true ->
   OutputTranscriptTracker.goal_met self' = true) /\
  ((World.requests w' = World.requests w /\
    World.fs w' = World.fs w /\
    OutputTranscriptTracker.goal_met self'
      = OutputTranscriptTracker.goal_met self /\
    OutputTranscriptTracker.last_goal_check_turn self'
      = OutputTranscriptTracker.last_goal_check_turn self) \/
   (exists prompt,
      World.requests w'
        = (World.requests w
           ++ [(OutputTranscriptTracker.turn_count self + 1, prompt)])%list /\
      OutputTranscriptTracker.goal_detector self = true /\
      OutputTranscriptTracker.last_goal_check_turn self + 3
        <= OutputTranscriptTracker.turn_count self + 1 /\
      (OutputTranscriptTracker.last_goal_check_turn self'
         = OutputTranscriptTracker.last_goal_check_turn self \/
       OutputTranscriptTracker.last_goal_check_turn self'
         = OutputTranscriptTracker.turn_count self + 1))).
Proof.
  destruct frame as [text|text|user text|]; cbn [OutputTranscriptTracker.process_frame];
    try (cbn; rewrite app_nil_r, Z.add_0_r; repeat split; auto; left;
         repeat split; reflexivity).
  - unfold OutputTranscriptTracker.on_llm_text.
    assert (Hnone : responses (OutputTranscriptTracker.bot_name self)
                      [(env, LLMTextFrame text)] = []) by reflexivity.
    rewrite Hnone, app_nil_r. change (len (@nil TranscriptEntry.t)) with 0.
    rewrite Z.add_0_r.
    destruct (String.eqb text "");
      [repeat split; auto; left; repeat split; reflexivity|].
    destruct (World.tracer w) as [tr|];
      [|repeat split; auto; left; repeat split; reflexivity].
    destruct (SimulationTracer.current_turn_id tr);
      [|repeat split; auto; left; repeat split; reflexivity].
    destruct (existsb _ _); repeat split; auto; left; repeat split; reflexivity.
  - unfold OutputTranscriptTracker.on_tts_text.
    assert (Hresp : responses (OutputTranscriptTracker.bot_name self)
                      [(env, TTSTextFrame text)]
                    = if String.eqb text "" then []
                      else [TranscriptEntry.mk (Env.now_str env)
                              (OutputTranscriptTracker.bot_name self)
                              "response" text]).
    { unfold responses. cbn [flat_map fst snd]. rewrite spoken_text_empty.
      destruct (String.eqb text ""); reflexivity. }
    rewrite Hresp.
    destruct (String.eqb text "") eqn:Ht.
    { cbn. rewrite app_nil_r, Z.add_0_r.
      repeat split; auto; left; repeat split; reflexivity. }
    change (len [TranscriptEntry.mk (Env.now_str env)
                   (OutputTranscriptTracker.bot_name self) "response" text])
      with 1.
    destruct (OutputTranscriptTracker.check_due _) eqn:Hdue.
    2:{ cbn. repeat split; auto; left; repeat split; reflexivity. }
    unfold OutputTranscriptTracker.check_due in Hdue. simpl in Hdue.
    apply andb_true_iff in Hdue. destruct Hdue as [Hdet Hdue].
    apply Z.leb_le in Hdue.
    unfold OutputTranscriptTracker.goal_check. simpl.
    destruct (GoalDetector.check_goal_met _ _ _ _ _) as [result|e].
    2:{ cbn. repeat split; auto; right; eexists; repeat split; auto. }
    destruct (goal_decision result).
    + destruct (OutputTranscriptTracker.stop_signal_path self) as [path|].
      * unfold write_json. destruct (Env.can_write env); cbn;
          (repeat split; auto; right; eexists; repeat split; auto).
      * cbn. repeat split; auto; right; eexists; repeat split; auto.
    + cbn. repeat split; auto; right; eexists; repeat split; auto.
Qed.

(** ** Goal monitor: what a run does to the transcript *)

Lemma responses_cons (bot_name : string) (step : Env.t * Frame)
    (steps : list (Env.t * Frame)) :
  responses bot_name (step :: steps)
  = (responses bot_name [step] ++ responses bot_name steps)%list.
Proof. unfold responses. cbn [flat_map]. rewrite app_nil_r. reflexivity. Qed.

(** X10.  Over any run of frames, the tracker appends to the shared
    transcript one entry of type response per TTS text frame with a
    non-empty text, in order, stamped with the time of the frame and with
    the tracker's bot as speaker, and nothing else; [turn_count] goes up by
    the number of these entries, whatever the goal checks do. *)
Theorem run_appends_responses :
  forall (float_of_str : string -> Result float) (repr : json -> string)
         (steps : list (Env.t * Frame)) (self : OutputTranscriptTracker.t)
         (w : World.t),
    let self' := fst (OutputTranscriptTracker.run float_of_str repr steps self w) in
    let w' := snd (OutputTranscriptTracker.run float_of_str repr steps self w) in
    World.transcript w'
      = (World.transcript w
         ++ responses (OutputTranscriptTracker.bot_name self) steps)%list /\
    OutputTranscriptTracker.turn_count self'
      = OutputTranscriptTracker.turn_count self
        + len (responses (OutputTranscriptTracker.bot_name self) steps).
Proof.
  intros float_of_str repr steps. cbv zeta.
  induction steps as [|[env frame] steps IH]; intros self w.
  - cbn. rewrite app_nil_r, Z.add_0_r. split; reflexivity.
  - cbn [OutputTranscriptTracker.run].
    pose proof (process_frame_effect float_of_str repr env frame self w)
      as ((Hbot & _) & Htr & Hcount & _).
    destruct (OutputTranscriptTracker.process_frame float_of_str repr env
                frame self w) as [self1 w1].
    cbn [fst snd] in Hbot, Htr, Hcount.
    destruct (IH self1 w1) as [IHtr IHcount].
    rewrite IHtr, IHcount, Hbot, Htr, Hcount.
    rewrite (responses_cons _ (env, frame) steps).
    unfold len. rewrite length_app, Nat2Z.inj_add, <- app_assoc.
    split; [reflexivity | lia].
Qed.

(** ** Goal monitor: a tracker without a detector *)

(** X11.  A tracker constructed without a goal detector sends no request
    to the judgment service, writes nothing to storage and never changes
    [goal_met], over any run of frames. *)
Theorem run_without_detector_is_inert :
  forall (float_of_str : string -> Result float) (repr : json -> string)
         (steps : list (Env.t * Frame)) (self : OutputTranscriptTracker.t)
         (w : World.t),
    OutputTranscriptTracker.goal_detector self = false ->
    let self' := fst (OutputTranscriptTracker.run float_of_str repr steps self w) in
    let w' := snd (OutputTranscriptTracker.run float_of_str repr steps self w) in
    World.requests w' = World.requests w /\
    World.fs w' = World.fs w /\
    OutputTranscriptTracker.goal_met self' = OutputTranscriptTracker.goal_met self.
Proof.
  intros float_of_str repr steps. cbv zeta.
  induction steps as [|[env frame] steps IH]; intros self w Hdet.
  - repeat split; reflexivity.
  - cbn [OutputTranscriptTracker.run].
    pose proof (process_frame_effect float_of_str repr env frame self w)
      as ((_ & Hdet') & _ & _ & _ & Hcases).
    destruct (OutputTranscriptTracker.process_frame float_of_str repr env
                frame self w) as [self1 w1].
    cbn [fst snd] in Hdet', Hcases.
    destruct Hcases as [(Hreq & Hfs & Hmet & _) | (prompt & _ & Hd & _)];
      [|congruence].
    destruct (IH self1 w1) as (IHreq & IHfs & IHmet); [congruence|].
    rewrite IHreq, IHfs, IHmet, Hreq, Hfs, Hmet. repeat split; reflexivity.
Qed.

Lemma run_without_detector_is_inert_witness :
  World.requests
    (snd (run_sample (tts 4 (env_sample (client_replying true (9 # 10)) true))
            (OutputTranscriptTracker.__init__ "Ira" false None
               (Some "sim/bot1_stop_signal.json"))
            world_empty)) = [] /\
  World.fs
    (snd (run_sample (tts 4 (env_sample (client_replying true (9 # 10)) true))
            (OutputTranscriptTracker.__init__ "Ira" false None
               (Some "sim/bot1_stop_signal.json"))
            world_empty)) = ∅ /\
  OutputTranscriptTracker.goal_met
    (fst (run_sample (tts 4 (env_sample (client_replying true (9 # 10)) true))
            (OutputTranscriptTracker.__init__ "Ira" false None
               (Some "sim/bot1_stop_signal.json"))
            world_empty)) = false.
Proof.
  apply (run_without_detector_is_inert float_of_str_sample repr_sample
           (tts 4 (env_sample (client_replying true (9 # 10)) true))
           (OutputTranscriptTracker.__init__ "Ira" false None
              (Some "sim/bot1_stop_signal.json"))
           world_empty).
  reflexivity.
Defined.

(** ** Goal monitor: the goal stays met *)

(** X12.  Over any run of frames, a goal that is met stays met; and the
    goal is not met at the end of a run that started with the goal not met
    unless a request went out to the judgment service during the run. *)
Theorem run_goal_met_is_sticky :
  forall (float_of_str : string -> Result float) (repr : json -> string)
         (steps : list (Env.t * Frame)) (self : OutputTranscriptTracker.t)
         (w : World.t),
    let self' := fst (OutputTranscriptTracker.run float_of_str repr steps self w) in
    let w' := snd (OutputTranscriptTracker.run float_of_str repr steps self w) in
    (OutputTranscriptTracker.goal_met self = true ->
     OutputTranscriptTracker.goal_met self' = true) /\
    (OutputTranscriptTracker.goal_met self = false ->
     OutputTranscriptTracker.goal_met self' = true ->
     (length (World.requests w) < length (World.requests w'))%nat) /\
    (length (World.requests w) <= length (World.requests w'))%nat.
Proof.
  intros float_of_str repr steps. cbv zeta.
  induction steps as [|[env frame] steps IH]; intros self w.
  - cbn. split; [auto|]. split; [congruence | lia].
  - cbn [OutputTranscriptTracker.run].
    pose proof (process_frame_effect float_of_str repr env frame self w)
      as (_ & _ & _ & Hsticky & Hcases).
    destruct (OutputTranscriptTracker.process_frame float_of_str repr env
                frame self w) as [self1 w1].
    cbn [fst snd] in Hsticky, Hcases.
    destruct (IH self1 w1) as (IHs & IHn & IHle).
    assert (Hle : (length (World.requests w) <= length (World.requests w1))%nat).
    { destruct Hcases as [(-> & _) | (prompt & -> & _)];
        [lia | rewrite length_app; simpl; lia]. }
    split; [auto|]. split; [|lia].
    intros Hf Ht.
    destruct Hcases as [(Hreq & _ & Hmet & _) | (prompt & Hreq & _)].
    + rewrite <- Hreq. apply IHn; [congruence | exact Ht].
    + rewrite Hreq, length_app in IHle. simpl in IHle. lia.
Qed.

Lemma run_goal_met_is_sticky_witness :
  OutputTranscriptTracker.goal_met
    (fst (run_sample (tts 2 (env_sample (client_replying false (1 # 10)) true))
            (OutputTranscriptTracker.set_goal true 3 3 tracker_sample)
            world_empty)) = true.
Proof.
  apply (proj1 (run_goal_met_is_sticky float_of_str_sample repr_sample
                  (tts 2 (env_sample (client_replying false (1 # 10)) true))
                  (OutputTranscriptTracker.set_goal true 3 3 tracker_sample)
                  world_empty)).
  reflexivity.
Defined.

(** ** Goal monitor: cadence from the first frame *)

Lemma process_frame_counters
    (float_of_str : string -> Result float) (repr : json -> string)
    (env : Env.t) (frame : Frame) (self : OutputTranscriptTracker.t)
    (w : World.t) :
  counters_nonneg self ->
  Forall (fun t => 3 <= t) (map fst (World.requests w)) ->
  counters_nonneg
    (fst (OutputTranscriptTracker.process_frame float_of_str repr env frame
            self w)) /\
  Forall (fun t => 3 <= t)
    (map fst
       (World.requests
          (snd (OutputTranscriptTracker.process_frame float_of_str repr env
                  frame self w)))).
Proof.
  intros [Hlast Hcount] Hreq.
  pose proof (process_frame_effect float_of_str repr env frame self w)
    as (_ & _ & Hc & _ & Hcases).
  cbv zeta in Hc, Hcases. unfold counters_nonneg.
  assert (Hlen : 0 <= len (responses (OutputTranscriptTracker.bot_name self)
                             [(env, frame)])) by (unfold len; lia).
  destruct Hcases as [(-> & _ & _ & ->) | (prompt & -> & _ & Hdue & Hl)].
  - split; [split; lia | exact Hreq].
  - split; [split; [destruct Hl as [-> | ->]; lia | lia]|].
    rewrite map_app. apply Forall_app. split; [exact Hreq|].
    constructor; [simpl; lia | constructor].
Qed.

(** X13.  From a newly constructed tracker, in a run in which no write of
    the stop-signal file fails, no request goes out to the judgment
    service before the third spoken turn and any two successive requests
    are at least three spoken turns apart. *)
Theorem goal_checks_every_third_turn :
  forall (float_of_str : string -> Result float) (repr : json -> string)
         (steps : list (Env.t * Frame)) (bot_name : string)
         (goal_detector : bool) (goal_description stop_signal_path : option string)
         (w : World.t),
    World.requests w = [] ->
    Forall (fun step => Env.can_write (fst step) = true) steps ->
    let w' :=
      snd (OutputTranscriptTracker.run float_of_str repr steps
             (OutputTranscriptTracker.__init__ bot_name goal_detector
                goal_description stop_signal_path) w) in
    spaced (map fst (World.requests w')) /\
    Forall (fun t => 3 <= t) (map fst (World.requests w')).
Proof.
  intros float_of_str repr steps bot_name goal_detector goal_description
         stop_signal_path w Hreq Hall. cbv zeta.
  split.
  - apply run_cadence; [exact Hall|].
    unfold cadence_inv. rewrite Hreq. split; [exact I | constructor].
  - assert (Hinit : counters_nonneg
                      (OutputTranscriptTracker.__init__ bot_name goal_detector
                         goal_description stop_signal_path))
      by (split; simpl; lia).
    assert (H0 : Forall (fun t => 3 <= t) (map fst (World.requests w)))
      by (rewrite Hreq; constructor).
    clear Hreq Hall. revert Hinit H0.
    generalize (OutputTranscriptTracker.__init__ bot_name goal_detector
                  goal_description stop_signal_path).
    revert w. induction steps as [|[env frame] steps IH]; intros w self Hc Hr.
    + exact Hr.
    + cbn [OutputTranscriptTracker.run].
      destruct (process_frame_counters float_of_str repr env frame self w Hc Hr)
        as [Hc' Hr'].
      destruct (OutputTranscriptTracker.process_frame float_of_str repr env
                  frame self w) as [self1 w1].
      apply IH; assumption.
Qed.

Lemma goal_checks_every_third_turn_witness :
  spaced (map fst
            (World.requests
               (snd (run_sample
                       (tts 7 (env_sample (client_replying false (1 # 10)) true))
                       tracker_sample world_empty)))) /\
  Forall (fun t => 3 <= t)
    (map fst
       (World.requests
          (snd (run_sample
                  (tts 7 (env_sample (client_replying false (1 # 10)) true))
                  tracker_sample world_empty)))).
Proof.
  apply (goal_checks_every_third_turn float_of_str_sample repr_sample
           (tts 7 (env_sample (client_replying false (1 # 10)) true))
           "Ira" true (Some "book a table") (Some "sim/bot1_stop_signal.json")
           world_empty).
  - reflexivity.
  - repeat constructor.
Defined.

(** ** Transcript merger: what the merge writes *)



(** ** Transcript merger: the header of the unified transcript *)

Lemma tag_entries_ok (bot_name : string) (start_time end_time : option string)
    (entries : list TranscriptEntry.t) :
  tag_entries (BotTranscript.mk (Some bot_name) start_time end_time
                 (Some entries))
  = Ok (map (tag bot_name) entries).
Proof. unfold tag_entries. simpl. destruct entries; reflexivity. Qed.

(** The merge on two transcripts that are in place, run symbolically. *)
Lemma generate_unified_transcript_run (ss : SessionState.t)
    (fs : gmap string file) (bot1_path bot2_path unified_path : string)
    (bot1_name bot2_name : string) (start1 end1 start2 end2 : option string)
    (entries1 entries2 : list TranscriptEntry.t) :
  path_given (SessionState.bot1_transcript_json ss) = Some bot1_path ->
  path_given (SessionState.bot2_transcript_json ss) = Some bot2_path ->
  path_given (SessionState.unified_transcript_path ss) = Some unified_path ->
  fs !! bot1_path
    = Some (TranscriptFile
              (BotTranscript.mk (Some bot1_name) start1 end1 (Some entries1))) ->
  fs !! bot2_path
    = Some (TranscriptFile
              (BotTranscript.mk (Some bot2_name) start2 end2 (Some entries2))) ->
  let all_entries :=
    sort_by_timestamp (map (tag bot1_name) entries1
                       ++ map (tag bot2_name) entries2) in
  generate_unified_transcript true true ss fs
  = ((true,
      "Unified transcript saved to " ++ unified_path
        ++ ". Simplified transcript saved to "
        ++ simplified_path_of unified_path),
     <[simplified_path_of unified_path
       := SimplifiedFile
            (SimplifiedTranscript.mk (SessionState.simulation_id ss)
               bot1_name bot2_name
               (simplified_messages bot1_name bot2_name all_entries))]>
       (<[unified_path
          := UnifiedFile
               (UnifiedTranscript.mk (SessionState.simulation_id ss)
                  bot1_name bot2_name
                  (py_min (or_empty start1) (or_empty start2))
                  (py_max (or_empty end1) (or_empty end2))
                  (len all_entries) all_entries)]> fs)).
Proof.
  intros Hp1 Hp2 Hpu H1 H2 all_entries.
  unfold generate_unified_transcript. rewrite Hp1, Hp2, Hpu.
  unfold exists_. rewrite H1, H2. cbn [negb orb].
  unfold merge_body, load_transcript. rewrite H1, H2.
  cbn [bind]. rewrite !tag_entries_ok.
  reflexivity.
Qed.

Lemma py_min_least (a b : string) :
  (py_min a b = a \/ py_min a b = b) /\
  String.leb (py_min a b) a = true /\ String.leb (py_min a b) b = true.
Proof.
  unfold py_min. destruct (String.ltb b a) eqn:E.
  - apply string_ltb_leb in E. destruct E as [E _].
    split; [right; reflexivity|]. split; [exact E | apply string_leb_refl].
  - split; [left; reflexivity|]. split; [apply string_leb_refl|].
    unfold String.ltb in E. unfold String.leb.
    rewrite (String.compare_antisym a b).
    destruct (String.compare b a); try reflexivity. discriminate E.
Qed.

Lemma py_max_greatest (a b : string) :
  (py_max a b = a \/ py_max a b = b) /\
  String.leb a (py_max a b) = true /\ String.leb b (py_max a b) = true.
Proof.
  unfold py_max. destruct (String.ltb a b) eqn:E.
  - apply string_ltb_leb in E. destruct E as [E _].
    split; [right; reflexivity|]. split; [exact E | apply string_leb_refl].
  - split; [left; reflexivity|]. split; [apply string_leb_refl|].
    unfold String.ltb in E. unfold String.leb.
    rewrite (String.compare_antisym b a).
    destruct (String.compare a b); try reflexivity. discriminate E.
Qed.

(** X15.  When the merge succeeds on two transcripts, the unified
    transcript it writes names the two bots in source order, carries the
    session's simulation id, has as start time the earlier of the two start
    times and as end time the later of the two end times (compared as
    strings, a missing one counting as the empty string), and its
    [total_turns] is the number of entries of the first transcript plus
    that of the second. *)
Theorem merge_header :
  forall (ss : SessionState.t) (fs : gmap string file)
         (bot1_path bot2_path unified_path : string)
         (bot1_name bot2_name : string) (start1 end1 start2 end2 : option string)
         (entries1 entries2 : list TranscriptEntry.t),
    path_given (SessionState.bot1_transcript_json ss) = Some bot1_path ->
    path_given (SessionState.bot2_transcript_json ss) = Some bot2_path ->
    path_given (SessionState.unified_transcript_path ss) = Some unified_path ->
    fs !! bot1_path
      = Some (TranscriptFile
                (BotTranscript.mk (Some bot1_name) start1 end1 (Some entries1))) ->
    fs !! bot2_path
      = Some (TranscriptFile
                (BotTranscript.mk (Some bot2_name) start2 end2 (Some entries2))) ->
    exists (unified : UnifiedTranscript.t) (simplified : SimplifiedTranscript.t),
      snd (generate_unified_transcript true true ss fs)
        = <[simplified_path_of unified_path := SimplifiedFile simplified]>
            (<[unified_path := UnifiedFile unified]> fs) /\
      UnifiedTranscript.simulation_id unified = SessionState.simulation_id ss /\
      UnifiedTranscript.bot1_name unified = bot1_name /\
      UnifiedTranscript.bot2_name unified = bot2_name /\
      (UnifiedTranscript.start_time unified = or_empty start1 \/
       UnifiedTranscript.start_time unified = or_empty start2) /\
      String.leb (UnifiedTranscript.start_time unified) (or_empty start1) = true /\
      String.leb (UnifiedTranscript.start_time unified) (or_empty start2) = true /\
      (UnifiedTranscript.end_time unified = or_empty end1 \/
       UnifiedTranscript.end_time unified = or_empty end2) /\
      String.leb (or_empty end1) (UnifiedTranscript.end_time unified) = true /\
      String.leb (or_empty end2) (UnifiedTranscript.end_time unified) = true /\
      UnifiedTranscript.total_turns unified = len entries1 + len entries2 /\
      len (UnifiedTranscript.conversation unified) = len entries1 + len entries2.
Proof.
  intros ss fs bot1_path bot2_path unified_path bot1_name bot2_name
         start1 end1 start2 end2 entries1 entries2 Hp1 Hp2 Hpu H1 H2.
  rewrite (generate_unified_transcript_run ss fs bot1_path bot2_path
             unified_path bot1_name bot2_name start1 end1 start2 end2
             entries1 entries2 Hp1 Hp2 Hpu H1 H2).
  eexists _, _. split; [reflexivity|].
  cbn [UnifiedTranscript.simulation_id UnifiedTranscript.bot1_name
       UnifiedTranscript.bot2_name UnifiedTranscript.start_time
       UnifiedTranscript.end_time UnifiedTranscript.total_turns
       UnifiedTranscript.conversation].
  destruct (py_min_least (or_empty start1) (or_empty start2)) as (Hm & Hm1 & Hm2).
  destruct (py_max_greatest (or_empty end1) (or_empty end2)) as (HM & HM1 & HM2).
  assert (Hlen : len (sort_by_timestamp (map (tag bot1_name) entries1
                                         ++ map (tag bot2_name) entries2))
                 = len entries1 + len entries2).
  { unfold len.
    rewrite <- (Permutation_length (sort_by_timestamp_perm _)).
    rewrite length_app, !length_map. lia. }
  repeat split; assumption || reflexivity.
Qed.

Lemma merge_header_witness :
  exists (unified : UnifiedTranscript.t) (simplified : SimplifiedTranscript.t),
    snd (generate_unified_transcript true true session_sample storage_both)
      = <["sim/simplified_transcript.json" := SimplifiedFile simplified]>
          (<["sim/unified_transcript.json" := UnifiedFile unified]> storage_both) /\
    UnifiedTranscript.bot1_name unified = "Ira" /\
    UnifiedTranscript.bot2_name unified = "Chetan" /\
    UnifiedTranscript.total_turns unified = 3.
Proof.
  destruct (merge_header session_sample storage_both
              "sim/bot1_Ira_transcript.json" "sim/bot2_Chetan_transcript.json"
              "sim/unified_transcript.json" "Ira" "Chetan"
              (Some "2026-01-01 10:00:00") (Some "2026-01-01 10:05:00")
              (Some "2026-01-01 10:00:00") (Some "2026-01-01 10:05:00")
              ira_entries chetan_entries
              eq_refl eq_refl eq_refl eq_refl eq_refl)
    as (unified & simplified & Hfs & _ & Hb1 & Hb2 & _ & _ & _ & _ & _ & _
        & Hturns & _).
  exists unified, simplified. repeat split; assumption.
Defined.

(** ** Transcript merger: running the merge again *)

(** X16.  When the merge has succeeded and its two output paths are not
    source paths, running it again on the storage it left gives the same
    report and leaves that storage as it is. *)
Theorem merge_again_changes_nothing :
  forall (ss : SessionState.t) (fs : gmap string file)
         (bot1_path bot2_path unified_path : string),
    path_given (SessionState.bot1_transcript_json ss) = Some bot1_path ->
    path_given (SessionState.bot2_transcript_json ss) = Some bot2_path ->
    path_given (SessionState.unified_transcript_path ss) = Some unified_path ->
    unified_path <> bot1_path -> unified_path <> bot2_path ->
    simplified_path_of unified_path <> bot1_path ->
    simplified_path_of unified_path <> bot2_path ->
    let first := generate_unified_transcript true true ss fs in
    fst (fst first) = true ->
    generate_unified_transcript true true ss (snd first) = first.
Proof.
  intros ss fs bot1_path bot2_path unified_path Hp1 Hp2 Hpu Hu1 Hu2 Hs1 Hs2.
  cbv zeta.
  destruct (generate_unified_transcript true true ss fs) as [[ok message] fs']
    eqn:Hfirst.
  cbn [fst snd]. intros ->.
  unfold generate_unified_transcript in Hfirst. rewrite Hp1, Hp2, Hpu in Hfirst.
  destruct (negb (exists_ fs bot1_path) || negb (exists_ fs bot2_path)) eqn:Hex;
    [discriminate Hfirst|].
  unfold merge_body in Hfirst. revert Hfirst.
  destruct (bind (load_transcript fs bot1_path) _)
    as [[[[bot1_name bot2_name] all_entries] unified]|e] eqn:Hdo;
    [|intros Hfirst; discriminate Hfirst].
  cbn [write_json]. fold (simplified_path_of unified_path).
  intros Hfirst. injection Hfirst as <- <-.
  set (simplified :=
         SimplifiedFile
           (SimplifiedTranscript.mk (SessionState.simulation_id ss) bot1_name
              bot2_name (simplified_messages bot1_name bot2_name all_entries))).
  set (fs' := <[simplified_path_of unified_path := simplified]>
                (<[unified_path := UnifiedFile unified]> fs)).
  assert (Hl1 : fs' !! bot1_path = fs !! bot1_path).
  { unfold fs'. rewrite !lookup_insert_ne by assumption. reflexivity. }
  assert (Hl2 : fs' !! bot2_path = fs !! bot2_path).
  { unfold fs'. rewrite !lookup_insert_ne by assumption. reflexivity. }
  assert (He1 : exists_ fs' bot1_path = exists_ fs bot1_path)
    by (unfold exists_; rewrite Hl1; reflexivity).
  assert (He2 : exists_ fs' bot2_path = exists_ fs bot2_path)
    by (unfold exists_; rewrite Hl2; reflexivity).
  assert (Hld1 : load_transcript fs' bot1_path = load_transcript fs bot1_path)
    by (unfold load_transcript; rewrite Hl1; reflexivity).
  assert (Hld2 : load_transcript fs' bot2_path = load_transcript fs bot2_path)
    by (unfold load_transcript; rewrite Hl2; reflexivity).
  unfold generate_unified_transcript. rewrite Hp1, Hp2, Hpu, He1, He2, Hex.
  unfold merge_body. rewrite Hld1, Hld2, Hdo. cbn [write_json].
  fold (simplified_path_of unified_path). fold simplified.
  f_equal. unfold fs'.
  apply map_eq. intros k.
  destruct (decide (simplified_path_of unified_path = k)) as [->|Hks];
    [rewrite !lookup_insert_eq; reflexivity|].
  rewrite !(lookup_insert_ne _ (simplified_path_of unified_path) k) by exact Hks.
  destruct (decide (unified_path = k)) as [->|Hku];
    [rewrite !lookup_insert_eq; reflexivity|].
  repeat (rewrite lookup_insert_ne by assumption). reflexivity.
Qed.

Lemma merge_again_changes_nothing_witness :
  generate_unified_transcript true true session_sample
    (snd (generate_unified_transcript true true session_sample storage_both))
  = generate_unified_transcript true true session_sample storage_both.
Proof.
  apply (merge_again_changes_nothing session_sample storage_both
           "sim/bot1_Ira_transcript.json" "sim/bot2_Chetan_transcript.json"
           "sim/unified_transcript.json");
    first [reflexivity | vm_compute; discriminate].
Defined.

(** ** Goal detector: what the judgment is computed from *)

Lemma last_n_app {A : Type} (n : nat) (old recent : list A) :
  (n <= length recent)%nat -> last_n n (old ++ recent) = last_n n recent.
Proof.
  intros H. unfold last_n. rewrite length_app, skipn_app.
  rewrite (skipn_all2 old) by lia.
  replace (length old + length recent - n - length old)%nat
    with (length recent - n)%nat by lia.
  reflexivity.
Qed.

(** X17.  [check_goal_met] looks at the last ten entries of the history
    only: with at least ten recent entries, whatever comes before them
    changes neither the prompt that is sent nor the result. *)
Theorem check_goal_met_reads_last_ten :
  forall (float_of_str : string -> Result float) (repr : json -> string)
         (client : Client) (old recent : list HistoryEntry.t)
         (goal_description : option string),
    (10 <= length recent)%nat ->
    GoalDetector.conversation_text_of (old ++ recent)
      = GoalDetector.conversation_text_of recent /\
    GoalDetector.check_goal_met float_of_str repr client (old ++ recent)
      goal_description
    = GoalDetector.check_goal_met float_of_str repr client recent
        goal_description.
Proof.
  intros float_of_str repr client old recent goal_description H.
  assert (E : GoalDetector.conversation_text_of (old ++ recent)
              = GoalDetector.conversation_text_of recent).
  { unfold GoalDetector.conversation_text_of. rewrite last_n_app by exact H.
    reflexivity. }
  split; [exact E|].
  unfold GoalDetector.check_goal_met. rewrite E. reflexivity.
Qed.

Lemma check_goal_met_reads_last_ten_witness :
  GoalDetector.check_goal_met float_of_str_sample repr_sample
    (client_replying true (9 # 10))
    ([HistoryEntry.mk (Some "Chetan") (Some "Hello") None]
     ++ repeat (HistoryEntry.mk (Some "Ira") (Some "Goodbye!") None) 10)%list
    None
  = GoalDetector.check_goal_met float_of_str_sample repr_sample
      (client_replying true (9 # 10))
      (repeat (HistoryEntry.mk (Some "Ira") (Some "Goodbye!") None) 10) None.
Proof.
  assert (H : (10 <= length (repeat (HistoryEntry.mk (Some "Ira")
                                       (Some "Goodbye!") None) 10))%nat)
    by (simpl; lia).
  exact (proj2 (check_goal_met_reads_last_ten float_of_str_sample repr_sample
                  (client_replying true (9 # 10))
                  [HistoryEntry.mk (Some "Chetan") (Some "Hello") None]
                  (repeat (HistoryEntry.mk (Some "Ira") (Some "Goodbye!") None) 10)
                  None H)).
Defined.

(** X18.  [check_goal_met] reports the goal as met exactly when the
    service returned a JSON object whose [goal_met] value is truthy and
    whose [confidence] (0.0 when the key is missing) converts to a float;
    the result then carries that confidence and the reply's reasoning
    (the empty string when the key is missing).  Truthiness is Python's:
    a non-empty string counts as met, also the string [false]. *)
Theorem goal_met_needs_truthy_reply :
  forall (float_of_str : string -> Result float) (repr : json -> string)
         (client : Client) (history : list HistoryEntry.t)
         (goal_description : option string),
    let prompt :=
      GoalDetector.build_prompt (GoalDetector.conversation_text_of history)
        goal_description in
    (forall result,
        GoalDetector.check_goal_met float_of_str repr client history
          goal_description = Ok result ->
        GoalResult.goal_met result = true ->
        exists d,
          client prompt = Ok (Parsed (JDict d)) /\
          py_bool (reply_get "goal_met" (JBool false) d) = true /\
          GoalDetector.py_float float_of_str
            (reply_get "confidence" (JFloat 0%Q) d)
          = Ok (GoalResult.confidence result) /\
          GoalResult.reasoning result
          = GoalDetector.py_str repr (reply_get "reasoning" (JStr "") d)) /\
    (forall d c,
        client prompt = Ok (Parsed (JDict d)) ->
        py_bool (reply_get "goal_met" (JBool false) d) = true ->
        GoalDetector.py_float float_of_str
          (reply_get "confidence" (JFloat 0%Q) d) = Ok c ->
        GoalDetector.check_goal_met float_of_str repr client history
          goal_description
        = Ok (GoalResult.mk true c
                (GoalDetector.py_str repr (reply_get "reasoning" (JStr "") d)))).
Proof.
  intros float_of_str repr client history goal_description prompt.
  unfold GoalDetector.check_goal_met, GoalDetector.judge, try_except.
  fold prompt. split.
  - intros result.
    destruct (client prompt) as [[| err | v]|e]; cbn [bind json_loads];
      try (intros H Hm; injection H as <-; discriminate Hm).
    destruct v as [| b | z | x | s | l | d]; cbn [bind json_get];
      try (intros H Hm; injection H as <-; discriminate Hm).
    fold (reply_get "goal_met" (JBool false) d).
    fold (reply_get "confidence" (JFloat 0%Q) d).
    fold (reply_get "reasoning" (JStr "") d).
    destruct (GoalDetector.py_float float_of_str
                (reply_get "confidence" (JFloat 0%Q) d)) as [c|e] eqn:Hc;
      cbn [bind]; [|intros H Hm; injection H as <-; discriminate Hm].
    intros H. injection H as <-. cbn [GoalResult.goal_met].
    intros Hmet. exists d. repeat split; [exact Hmet | exact Hc].
  - intros d c Hreply Hmet Hc. rewrite Hreply. cbn [bind json_loads json_get].
    fold (reply_get "goal_met" (JBool false) d).
    fold (reply_get "confidence" (JFloat 0%Q) d).
    fold (reply_get "reasoning" (JStr "") d).
    rewrite Hc, Hmet. reflexivity.
Qed.

Lemma goal_met_needs_truthy_reply_witness :
  GoalDetector.check_goal_met float_of_str_sample repr_sample
    (client_replying_text "false") history_sample None
  = Ok (GoalResult.mk true (9 # 10)%Q "").
Proof.
  apply (proj2 (goal_met_needs_truthy_reply float_of_str_sample repr_sample
                  (client_replying_text "false") history_sample None)
           [("goal_met", JStr "false"); ("confidence", JFloat (9 # 10))]
           (9 # 10)%Q);
    reflexivity.
Defined.
